(** * Sales forecasting dashboard: the numeric pipeline of [src/App.js]

    The development embeds the four functions of [App.js]
    ([generateSyntheticSalesData], [simulateProphetForecast],
    [evaluateModel], [calculateInventoryRecommendations]) and the
    [useEffect] pipeline that chains them, together with the part of the
    ECMAScript [Date] and [Math] built-ins they call.

    Conventions of the embedding.
    - A JavaScript number is a rational ([Q]); arithmetic is exact.  [NaN]
      and the infinities are not represented: the code divides only by
      lengths it has checked to be positive.  The rounding of IEEE
      doubles is not modelled, so the statements are about what it
      cannot change: which records come out and under which keys, order,
      sign, integrality and bounds, and values that doubles compute
      exactly.
    - A [Date] object is its time value, milliseconds since the epoch, or
      Invalid Date ([None]).  Mutation of [currentDate] by [setDate] is
      written as state passing through the loops; [new Date(currentDate)]
      copies the time value.
    - A [ds] key is the string the code builds,
      [date.toISOString().split('T')[0]]; [new Date(ds)] reads the
      [YYYY-MM-DD] form back as midnight UTC.
    - A thrown exception is the [Throw] outcome of [result].
    - [Math.sin], [Math.PI], [Math.sqrt], [Math.random] and the host's
      time zone are the fields of a [Host].  The zone is the offset
      [LocalTZA(t, isUTC)] of ECMA-262, a function of the instant, so a
      host with daylight saving is one whose offset changes; a statement
      that needs the offset to stay put over some days says so.
      [Math.random] is a state transformer over the host's entropy. *)

From Stdlib Require Import ZArith QArith Qround Qabs Qminmax.
From Stdlib Require Import String Ascii List Bool Lia Lqa.
Import ListNotations.

Local Open Scope Z_scope.

(** ** ECMAScript time values (ECMA-262, "Date Objects") *)
Module ES.

Definition msPerDay : Z := 86400000.
Definition msPerHour : Z := 3600000.
Definition maxTime : Z := 8640000000000000.

Definition Day (t : Z) : Z := t / msPerDay.
Definition TimeWithinDay (t : Z) : Z := t mod msPerDay.

Definition DaysInYear (y : Z) : Z :=
  if negb (y mod 4 =? 0) then 365
  else if negb (y mod 100 =? 0) then 366
  else if negb (y mod 400 =? 0) then 365
  else 366.

Definition DayFromYear (y : Z) : Z :=
  365 * (y - 1970) + (y - 1969) / 4 - (y - 1901) / 100 + (y - 1601) / 400.

Definition TimeFromYear (y : Z) : Z := msPerDay * DayFromYear y.

(** The largest [y] with [TimeFromYear y <= t]: an estimate from the mean
    length of a Gregorian year, corrected by at most one year. *)
Definition YearFromDay (d : Z) : Z :=
  let y := 1970 + (400 * d) / 146097 in
  if d <? DayFromYear y then y - 1
  else if DayFromYear (y + 1) <=? d then y + 1
  else y.

Definition YearFromTime (t : Z) : Z := YearFromDay (Day t).

Definition InLeapYear (t : Z) : Z :=
  if DaysInYear (YearFromTime t) =? 366 then 1 else 0.

Definition DayWithinYear (t : Z) : Z := Day t - DayFromYear (YearFromTime t).

(** First day (0-based, within the year) of month [m] (0-based). *)
Definition MonthStart (m leap : Z) : Z :=
  if m =? 0 then 0
  else if m =? 1 then 31
  else if m =? 2 then 59 + leap
  else if m =? 3 then 90 + leap
  else if m =? 4 then 120 + leap
  else if m =? 5 then 151 + leap
  else if m =? 6 then 181 + leap
  else if m =? 7 then 212 + leap
  else if m =? 8 then 243 + leap
  else if m =? 9 then 273 + leap
  else if m =? 10 then 304 + leap
  else 334 + leap.

Definition MonthFromDay (d leap : Z) : Z :=
  if d <? 31 then 0
  else if d <? 59 + leap then 1
  else if d <? 90 + leap then 2
  else if d <? 120 + leap then 3
  else if d <? 151 + leap then 4
  else if d <? 181 + leap then 5
  else if d <? 212 + leap then 6
  else if d <? 243 + leap then 7
  else if d <? 273 + leap then 8
  else if d <? 304 + leap then 9
  else if d <? 334 + leap then 10
  else 11.

Definition MonthFromTime (t : Z) : Z :=
  MonthFromDay (DayWithinYear t) (InLeapYear t).

Definition DateFromTime (t : Z) : Z :=
  DayWithinYear t - MonthStart (MonthFromTime t) (InLeapYear t) + 1.

Definition DaysInMonth (m leap : Z) : Z :=
  if m =? 1 then 28 + leap
  else if (m =? 3) || (m =? 5) || (m =? 8) || (m =? 10) then 30
  else 31.

Definition WeekDay (t : Z) : Z := (Day t + 4) mod 7.

Definition HourFromTime (t : Z) : Z := (t / 3600000) mod 24.
Definition MinFromTime (t : Z) : Z := (t / 60000) mod 60.
Definition SecFromTime (t : Z) : Z := (t / 1000) mod 60.
Definition msFromTime (t : Z) : Z := t mod 1000.

Definition MakeTime (h m s ms : Z) : Z := h * 3600000 + m * 60000 + s * 1000 + ms.

(** [MakeDay]: the day number of the first of month [month mod 12] in year
    [year + month / 12], plus [date - 1]. *)
Definition MakeDay (year month date : Z) : Z :=
  let ym := year + month / 12 in
  let mn := month mod 12 in
  let leap := if DaysInYear ym =? 366 then 1 else 0 in
  DayFromYear ym + MonthStart mn leap + date - 1.

Definition MakeDate (day time : Z) : Z := day * msPerDay + time.

(** A [Date] object: a time value, or Invalid Date. *)
Definition Date : Type := option Z.

Definition TimeClip (t : Z) : Date :=
  if Z.abs t <=? maxTime then Some t else None.

(** [a <= b] on Date objects compares time values; it is false as soon as
    one side is invalid.  On success the time value of [a] is returned. *)
Definition Date_le (a b : Date) : option Z :=
  match a, b with
  | Some ta, Some tb => if ta <=? tb then Some ta else None
  | _, _ => None
  end.

(** [a - b] on Date objects.  With an invalid side JavaScript yields NaN,
    which this embedding does not represent; no date read from a
    [YYYY-MM-DD] key reaches that case. *)
Definition Date_sub (a b : Date) : Q :=
  match a, b with
  | Some ta, Some tb => inject_Z (ta - tb)
  | _, _ => 0%Q
  end.

(** *** Outcomes *)

(** What a [throw] carries: one of the two built-in errors the runtime
    raises in this code, or an instance of an error class of the
    program's own, by the name of the class.  [App.js] declares no error
    class and has no [throw] statement. *)
Inductive error : Type :=
| TypeError
| RangeError
| UserError (name : string).

Inductive result (A : Type) : Type :=
| Ok (a : A)
| Throw (e : error).
Arguments Ok {A} a.
Arguments Throw {A} e.

Definition bind {A B : Type} (r : result A) (k : A -> result B) : result B :=
  match r with
  | Ok a => k a
  | Throw e => Throw e
  end.

(** [xs.map((x, index) => f x index)] where the callback may throw: the
    first exception aborts the traversal. *)
Fixpoint mapi_from {A B : Type} (i : nat) (f : A -> nat -> result B) (xs : list A)
  : result (list B) :=
  match xs with
  | [] => Ok []
  | x :: xs' =>
      bind (f x i) (fun b =>
      bind (mapi_from (S i) f xs') (fun bs => Ok (b :: bs)))
  end.

Definition Array_map {A B : Type} (f : A -> nat -> result B) (xs : list A)
  : result (list B) := mapi_from 0 f xs.

(** *** Date strings *)
Definition digit_char (n : Z) : ascii := ascii_of_nat (Z.to_nat (48 + n)).

Definition pad2 (n : Z) : string :=
  String (digit_char (n / 10 mod 10)) (String (digit_char (n mod 10)) EmptyString).

Definition pad3 (n : Z) : string :=
  String (digit_char (n / 100 mod 10)) (pad2 n).

Definition pad4 (n : Z) : string :=
  String (digit_char (n / 1000 mod 10)) (pad3 n).

Definition pad6 (n : Z) : string :=
  String (digit_char (n / 100000 mod 10))
    (String (digit_char (n / 10000 mod 10)) (pad4 n)).

(** Years 0..9999 print as four digits, the others as a sign and six. *)
Definition year_string (y : Z) : string :=
  if (0 <=? y) && (y <=? 9999) then pad4 y
  else String (if 0 <=? y then "+"%char else "-"%char) (pad6 (Z.abs y)).

Definition ISO_string (t : Z) : string :=
  (year_string (YearFromTime t) ++ "-" ++ pad2 (MonthFromTime t + 1) ++ "-"
    ++ pad2 (DateFromTime t) ++ "T" ++ pad2 (HourFromTime t) ++ ":"
    ++ pad2 (MinFromTime t) ++ ":" ++ pad2 (SecFromTime t) ++ "."
    ++ pad3 (msFromTime t) ++ "Z")%string.

(** [s.split(sep)[0]]: the characters before the first [sep]. *)
Fixpoint split_0 (sep : ascii) (s : string) : string :=
  match s with
  | EmptyString => EmptyString
  | String c s' => if Ascii.eqb c sep then EmptyString else String c (split_0 sep s')
  end.

(** [date.toISOString().split('T')[0]] of a valid date. *)
Definition isoDate (t : Z) : string := split_0 "T" (ISO_string t).

(** [date.toISOString()]: a RangeError on Invalid Date. *)
Definition toISOString (d : Date) : result string :=
  match d with
  | Some t => Ok (ISO_string t)
  | None => Throw RangeError
  end.

Definition digit_of (c : ascii) : option Z :=
  let n := Z.of_nat (nat_of_ascii c) in
  if (48 <=? n) && (n <=? 57) then Some (n - 48) else None.

Definition number_of (cs : list ascii) : option Z :=
  fold_left
    (fun acc c =>
       match acc, digit_of c with
       | Some n, Some k => Some (10 * n + k)
       | _, _ => None
       end)
    cs (Some 0).

(** [new Date(s)] for the date-only form [YYYY-MM-DD], read as midnight
    UTC; month and day must exist in the calendar.  This is the form of
    every [ds] key and of the two dates of the component.  The other
    forms [new Date] reads ([YYYY], [YYYY-MM], the date-time forms, and
    what an engine adds to them) are left out: they read as [None] here,
    so every statement below that reads a string assumes what it parses
    to, and none concludes anything from a string being unreadable. *)
Definition Date_parse (s : string) : Date :=
  match list_ascii_of_string s with
  | [y1; y2; y3; y4; h1; m1; m2; h2; d1; d2] =>
      match number_of [y1; y2; y3; y4], number_of [m1; m2], number_of [d1; d2] with
      | Some y, Some m, Some d =>
          if Ascii.eqb h1 "-"%char && Ascii.eqb h2 "-"%char
             && (1 <=? m) && (m <=? 12) && (1 <=? d)
             && (d <=? DaysInMonth (m - 1) (if DaysInYear y =? 366 then 1 else 0))
          then TimeClip (MakeDate (MakeDay y (m - 1) d) (MakeTime 0 0 0 0))
          else None
      | _, _, _ => None
      end
  | _ => None
  end.

End ES.

Import ES.

(** ** The host: [Math] and the local time zone *)
Record Host : Type := {
  Entropy : Type;
  (** [Math.random()]: a draw from [0, 1) and the entropy left. *)
  Math_random : Entropy -> Q * Entropy;
  Math_sin : Q -> Q;
  Math_PI : Q;
  Math_sqrt : Q -> Q;
  (** [LocalTZA(t, isUTC)]: the offset of local time from UTC, in
      milliseconds, in force at [t]; [t] is a UTC time value when [isUTC]
      is [true] and a local one otherwise. *)
  LocalTZA : Z -> bool -> Z
}.

Local Open Scope Q_scope.

Definition Math_round (x : Q) : Q := inject_Z (Qfloor (x + (1 # 2))).
Definition Math_floor (x : Q) : Q := inject_Z (Qfloor x).
Definition Math_max (a b : Q) : Q := Qmax a b.
Definition Math_abs (x : Q) : Q := Qabs x.
Definition Math_pow (x : Q) (n : Z) : Q := x ^ n.

(** ** Records of the application *)
Module Sales.
Record t : Type := mk { ds : string; y : Q }.
End Sales.

Module Forecast.
Record t : Type := mk {
  ds : string;
  yhat : Q;
  yhat_lower : Q;
  yhat_upper : Q;
  trend : Q;
  yearly_seasonality : Q;
  weekly_seasonality : Q
}.
End Forecast.

Module Merged.
Record t : Type := mk { actual : Q; predicted : option Q }.
End Merged.

Module Metrics.
Record t : Type := mk { mae : Q; rmse : Q }.
End Metrics.

Module Inventory.
Record t : Type := mk { ds : string; yhat : Q; recommended_inventory : Q }.
End Inventory.

Record AppState : Type := {
  salesData : list Sales.t;
  forecastData : list Forecast.t;
  inventoryRecommendations : list Inventory.t;
  mae : Q;
  rmse : Q
}.

(** A point of the main plot; its [type] tag, ['Actual'] or ['Forecast'],
    is the constructor. *)
Module ChartPoint.
Inductive t : Type :=
| Actual (ds : string) (y : Q)
| Forecast (ds : string) (yhat yhat_lower yhat_upper : Q).

Definition ds (p : t) : string :=
  match p with
  | Actual ds _ => ds
  | Forecast ds _ _ _ => ds
  end.
End ChartPoint.

Module Component.
Record t : Type := mk {
  ds : string;
  trend : Q;
  yearly_seasonality : Q;
  weekly_seasonality : Q
}.
End Component.

(** ** Arrays *)

(** [xs[i]]: [undefined] outside the array. *)
Definition Array_get {A : Type} (xs : list A) (i : Z) : option A :=
  if (i <? 0)%Z then None else nth_error xs (Z.to_nat i).

(** Reading a property of [undefined] throws a TypeError. *)
Definition prop {A B : Type} (o : option A) (f : A -> B) : result B :=
  match o with
  | Some a => Ok (f a)
  | None => Throw TypeError
  end.

(** [null] in arithmetic is [+0]. *)
Definition ToNumber (v : option Q) : Q :=
  match v with
  | Some q => q
  | None => 0
  end.

(** [xs.reduce((acc, x, i) => f acc x i, init)]. *)
Fixpoint reduce_from {A B : Type} (i : nat) (f : B -> A -> nat -> B) (xs : list A) (acc : B) : B :=
  match xs with
  | [] => acc
  | x :: xs' => reduce_from (S i) f xs' (f acc x i)
  end.

Definition Array_reduce {A B : Type} (f : B -> A -> nat -> B) (init : B) (xs : list A) : B :=
  reduce_from 0 f xs init.

Definition Array_length {A : Type} (xs : list A) : Z := Z.of_nat (length xs).

Section App.

Variable H : Host.

(** *** Local-time methods of a valid Date with time value [t] *)
Definition LocalTime (t : Z) : Z := (t + LocalTZA H t true)%Z.
Definition UTC (t : Z) : Z := (t - LocalTZA H t false)%Z.

Definition getFullYear (t : Z) : Z := YearFromTime (LocalTime t).
Definition getDate (t : Z) : Z := DateFromTime (LocalTime t).
Definition getDay (t : Z) : Z := WeekDay (LocalTime t).

Definition setDate (t dt : Z) : Date :=
  let lt := LocalTime t in
  TimeClip (UTC (MakeDate (MakeDay (YearFromTime lt) (MonthFromTime lt) dt)
                          (TimeWithinDay lt))).

(** [new Date(year, month, date)], local midnight; years 0..99 mean
    1900..1999. *)
Definition Date_of_fields (year month date : Z) : Date :=
  let yr := if ((0 <=? year) && (year <=? 99))%Z then (1900 + year)%Z else year in
  TimeClip (UTC (MakeDate (MakeDay yr month date) (MakeTime 0 0 0 0))).

(** [currentDate.setDate(currentDate.getDate() + 1)]; an Invalid Date
    stays invalid. *)
Definition next_day (currentDate : Date) : Date :=
  match currentDate with
  | Some t => setDate t (getDate t + 1)
  | None => None
  end.

(** *** Constants of the component *)
Definition START_DATE : string := "2022-01-01".
Definition END_DATE : string := "2024-12-31".
Definition FORECAST_PERIOD_DAYS : Z := 90.
Definition SAFETY_STOCK_FACTOR : Q := 20 # 100.

(** *** Seasonal components, shared by generator and simulator *)

(** [Math.floor((date - new Date(date.getFullYear(), 0, 0)) / (1000*60*60*24))] *)
Definition dayOfYear (t : Z) : Q :=
  Math_floor (Date_sub (Some t) (Date_of_fields (getFullYear t) 0 0)
              / inject_Z (1000 * 60 * 60 * 24)).

Definition yearlySeasonality (t : Z) : Q :=
  10 * Math_sin H (dayOfYear t * (2 * Math_PI H / 365)).

Definition weeklySeasonality (t : Z) : Q :=
  let dayOfWeek := getDay t in
  if ((dayOfWeek =? 0) || (dayOfWeek =? 6))%Z then 15 else 0.

(** *** 1. generateSyntheticSalesData *)

(** The [while (currentDate <= endDate)] loop.  [fuel] bounds the number
    of iterations; [steps_to_go], one per hour of the range, is enough
    as long as a turn of the loop moves the date on by an hour or more
    ([while_dates_fuel] below). *)
Fixpoint while_dates (fuel : nat) (currentDate endDate : Date) : list Z :=
  match fuel with
  | O => []
  | S fuel' =>
      match Date_le currentDate endDate with
      | Some t => t :: while_dates fuel' (next_day currentDate) endDate
      | None => []
      end
  end.

Definition steps_to_go (currentDate endDate : Date) : nat :=
  match currentDate, endDate with
  | Some tc, Some te => Z.to_nat ((te - tc) / msPerHour + 1)
  | _, _ => O
  end.

(** [Array.from({length: n}, () => (Math.random() - 0.5) * 10)]: one draw
    per element, in index order. *)
Fixpoint noise_from (n : nat) (s : Entropy H) : list Q * Entropy H :=
  match n with
  | O => ([], s)
  | S n' =>
      let (u, s1) := Math_random H s in
      let (rest, s2) := noise_from n' s1 in
      ((u - (5 # 10)) * 10 :: rest, s2)
  end.

Definition generateSyntheticSalesData (startDateStr endDateStr : string) (s : Entropy H)
  : result (list Sales.t) * Entropy H :=
  let currentDate := Date_parse startDateStr in
  let endDate := Date_parse endDateStr in
  let dates := while_dates (steps_to_go currentDate endDate) currentDate endDate in
  let numDays := length dates in
  let baseSales := 100 in
  let trend :=
    map (fun i => (inject_Z (Z.of_nat i) / inject_Z (Z.of_nat numDays)) * 50) (seq 0 numDays) in
  let yearly := map yearlySeasonality dates in
  let weekly := map weeklySeasonality dates in
  let (noise, s') := noise_from numDays s in
  let sales :=
    map (fun i =>
           let dailySales :=
             baseSales + nth i trend 0 + nth i yearly 0 + nth i weekly 0 + nth i noise 0 in
           Math_max 0 (Math_round dailySales))
        (seq 0 numDays) in
  (Array_map (fun date index =>
                bind (toISOString (Some date)) (fun iso =>
                Ok (Sales.mk (split_0 "T" iso) (nth index sales 0))))
             dates,
   s').

(** *** 2. simulateProphetForecast *)

(** The [for (let i = 0; i < forecastPeriods; i++)] loop over copies of
    [currentDate]. *)
Fixpoint for_dates (n : nat) (currentDate : Date) : list Date :=
  match n with
  | O => []
  | S n' => currentDate :: for_dates n' (next_day currentDate)
  end.

Definition historicalTrendEnd (historicalData : list Sales.t) : result Q :=
  if (1 <? Array_length historicalData)%Z then
    bind (prop (Array_get historicalData (Array_length historicalData - 1)) Sales.y) (fun yl =>
    bind (prop (Array_get historicalData 0) Sales.y) (fun y0 =>
    Ok ((yl - y0) / inject_Z (Array_length historicalData))))
  else Ok 0.

Definition simulatedTrend (historicalData : list Sales.t) (lastHistoricalDate date : Date)
  : result Q :=
  bind (historicalTrendEnd historicalData) (fun slope =>
  bind (prop (Array_get historicalData (Array_length historicalData - 1)) Sales.y) (fun yl =>
  Ok (yl + Date_sub date lastHistoricalDate / inject_Z (1000 * 60 * 60 * 24)
            * slope * (1 # 10)))).

Definition uncertainty : Q := 5.

(** The callback of [futureDates.map]. *)
Definition forecast_of (historicalData : list Sales.t) (lastHistoricalDate date : Date)
  : result Forecast.t :=
  bind (toISOString date) (fun iso =>
  match date with
  | None => Throw RangeError
  | Some t =>
      let ds := split_0 "T" iso in
      bind (simulatedTrend historicalData lastHistoricalDate date) (fun simTrend =>
      let yearly := yearlySeasonality t in
      let weekly := weeklySeasonality t in
      let yhat := simTrend + yearly + weekly in
      let yhat_lower := Math_max 0 (Math_round (yhat - uncertainty)) in
      let yhat_upper := Math_round (yhat + uncertainty) in
      let yhat := Math_max 0 (Math_round yhat) in
      Ok (Forecast.mk ds yhat yhat_lower yhat_upper
            (Math_round simTrend) (Math_round yearly) (Math_round weekly)))
  end).

Definition simulateProphetForecast (historicalData : list Sales.t) (forecastPeriods : Z)
  : result (list Forecast.t) :=
  bind (prop (Array_get historicalData (Array_length historicalData - 1)) Sales.ds) (fun lastDs =>
  let lastHistoricalDate := Date_parse lastDs in
  let currentDate := next_day lastHistoricalDate in
  let futureDates := for_dates (Z.to_nat forecastPeriods) currentDate in
  Array_map (fun date _ => forecast_of historicalData lastHistoricalDate date) futureDates).

(** *** 3. evaluateModel *)
Definition mergedData (actuals : list Sales.t) (predictions : list Forecast.t) : list Merged.t :=
  filter (fun item => match Merged.predicted item with Some _ => true | None => false end)
    (map (fun item =>
            let pred := find (fun p => String.eqb (Forecast.ds p) (Sales.ds item)) predictions in
            Merged.mk (Sales.y item)
              (match pred with Some p => Some (Forecast.yhat p) | None => None end))
         actuals).

Definition evaluateModel (actuals : list Sales.t) (predictions : list Forecast.t)
  : result Metrics.t :=
  let merged := mergedData actuals predictions in
  if (Array_length merged =? 0)%Z then Ok (Metrics.mk 0 0)
  else
    let actualValues := map Merged.actual merged in
    let predictedValues := map Merged.predicted merged in
    let mae :=
      Array_reduce (fun sum val i => sum + Math_abs (val - ToNumber (nth i predictedValues None)))
        0 actualValues / inject_Z (Array_length actualValues) in
    let rmse :=
      Math_sqrt H
        (Array_reduce (fun sum val i => sum + Math_pow (val - ToNumber (nth i predictedValues None)) 2)
           0 actualValues / inject_Z (Array_length actualValues)) in
    Ok (Metrics.mk mae rmse).

(** *** 4. calculateInventoryRecommendations *)
Definition calculateInventoryRecommendations (forecasts : list Forecast.t) (safetyFactor : Q)
  : result (list Inventory.t) :=
  Array_map (fun f _ =>
               Ok (Inventory.mk (Forecast.ds f) (Forecast.yhat f)
                     (Math_round (Forecast.yhat f + Forecast.yhat f * safetyFactor))))
            forecasts.

(** *** The pipeline run on mount *)
Definition useEffect (s : Entropy H) : result AppState * Entropy H :=
  let (generated, s') := generateSyntheticSalesData START_DATE END_DATE s in
  (bind generated (fun historical =>
   bind (simulateProphetForecast historical (Array_length historical)) (fun historicalForecastSim =>
   bind (evaluateModel historical historicalForecastSim) (fun metrics =>
   bind (simulateProphetForecast historical FORECAST_PERIOD_DAYS) (fun futureForecast =>
   bind (calculateInventoryRecommendations futureForecast SAFETY_STOCK_FACTOR) (fun inventoryRecs =>
   Ok {| salesData := historical;
         forecastData := futureForecast;
         inventoryRecommendations := inventoryRecs;
         mae := Metrics.mae metrics;
         rmse := Metrics.rmse metrics |}))))),
   s').

End App.

(** *** Chart data computed on render *)
Definition combinedChartData (salesData : list Sales.t) (forecastData : list Forecast.t)
  : list ChartPoint.t :=
  map (fun d => ChartPoint.Actual (Sales.ds d) (Sales.y d)) salesData
  ++ map (fun d => ChartPoint.Forecast (Forecast.ds d) (Forecast.yhat d)
                     (Forecast.yhat_lower d) (Forecast.yhat_upper d))
         forecastData.

Definition componentsChartData (forecastData : list Forecast.t) : list Component.t :=
  map (fun d => Component.mk (Forecast.ds d) (Forecast.trend d)
                  (Forecast.yearly_seasonality d) (Forecast.weekly_seasonality d))
      forecastData.

(** ** Reference hosts

    A truncated Taylor sine after reduction of the argument to
    [[-pi, pi]], a fixed-point square root and a linear congruential
    [Math.random], in three zones: UTC, a fixed offset east of it, and a
    zone with daylight saving.  They instantiate the theorems on concrete
    runs. *)
Module RefHost.

Definition PI : Q := 3141592653589793 # 1000000000000000.

Definition sin (x : Q) : Q :=
  let k := Qfloor ((x + PI) / (2 * PI)) in
  let r := Qred (x - inject_Z k * (2 * PI)) in
  let r2 := Qred (r * r) in
  Qred (r * (1 - r2 / 6 * (1 - r2 / 20 * (1 - r2 / 42 * (1 - r2 / 72 *
        (1 - r2 / 110 * (1 - r2 / 156 * (1 - r2 / 210)))))))).

Definition sqrt (x : Q) : Q :=
  Qred (inject_Z (Z.sqrt (Qfloor (x * 1000000000000))) / 1000000).

Definition random (s : Z) : Q * Z :=
  let s' := ((1103515245 * s + 12345) mod 2147483648)%Z in
  (Qred (inject_Z s' / 2147483648), s').

Definition utc : Host :=
  {| Entropy := Z; Math_random := random; Math_sin := sin; Math_PI := PI;
     Math_sqrt := sqrt; LocalTZA := fun _ _ => 0%Z |}.

(** The same host five and a half hours east of UTC. *)
Definition ist : Host :=
  {| Entropy := Z; Math_random := random; Math_sin := sin; Math_PI := PI;
     Math_sqrt := sqrt; LocalTZA := fun _ _ => 19800000%Z |}.

(** Day of the month of the first Sunday on or after day [d] of month
    [m] (0-based) of year [y]. *)
Definition sunday_from (y m d : Z) : Z :=
  (d + (7 - WeekDay (MakeDate (MakeDay y m d) 0)) mod 7)%Z.

(** US Eastern time, by the rule in force since 2007 applied to every
    year: five hours west of UTC, four from 2 a.m. of the second Sunday
    of March (07:00Z) to 2 a.m. of the first Sunday of November
    (06:00Z).  Of the local times, the hour skipped in March keeps the
    offset before the change and the hour repeated in November is read
    as its first pass, as ECMA-262 has it. *)
Definition eastern (t : Z) (isUTC : bool) : Z :=
  (let y := YearFromTime t in
   let march := MakeDate (MakeDay y 2 (sunday_from y 2 8)) 0 in
   let november := MakeDate (MakeDay y 10 (sunday_from y 10 1)) 0 in
   if isUTC then
     if (march + 7 * msPerHour <=? t) && (t <? november + 6 * msPerHour)
     then -14400000 else -18000000
   else
     if (march + 3 * msPerHour <=? t) && (t <? november + 2 * msPerHour)
     then -14400000 else -18000000)%Z.

Definition new_york : Host :=
  {| Entropy := Z; Math_random := random; Math_sin := sin; Math_PI := PI;
     Math_sqrt := sqrt; LocalTZA := eastern |}.

End RefHost.

(** ** Hosts whose [Math] keeps its ranges

    The reference sine clamped to [[-1, 1]], five hours west of UTC and
    on US Eastern time. *)
Module BoundedHost.

Definition sin (x : Q) : Q := Qmax (- (1)) (Qmin 1 (RefHost.sin x)).

Definition est : Host :=
  {| Entropy := Z; Math_random := RefHost.random; Math_sin := sin;
     Math_PI := RefHost.PI; Math_sqrt := RefHost.sqrt;
     LocalTZA := fun _ _ => (-18000000)%Z |}.

Definition new_york : Host :=
  {| Entropy := Z; Math_random := RefHost.random; Math_sin := sin;
     Math_PI := RefHost.PI; Math_sqrt := RefHost.sqrt; LocalTZA := RefHost.eastern |}.

End BoundedHost.

(** ** Vocabulary of the statements *)

Local Open Scope Z_scope.

(** 1 in a leap year, 0 otherwise. *)
Definition leap_of (y : Z) : Z := if DaysInYear y =? 366 then 1 else 0.

(** The date part of the ISO string of a time in the years 0..9999. *)
Definition key_chars (y m d : Z) : string :=
  String (digit_char (y / 1000 mod 10)) (String (digit_char (y / 100 mod 10))
  (String (digit_char (y / 10 mod 10)) (String (digit_char (y mod 10))
  (String "-" (String (digit_char (m / 10 mod 10)) (String (digit_char (m mod 10))
  (String "-" (String (digit_char (d / 10 mod 10)) (String (digit_char (d mod 10))
  EmptyString))))))))).

(** Time values whose UTC year has four digits. *)
Definition in_key_range (t : Z) : Prop := TimeFromYear 0 <= t < TimeFromYear 10000.

(** The length of the step [setDate(getDate() + 1)] makes from [t]: a day,
    and the change of offset between [t] and the same local time on the
    next day. *)
Definition day_step (H : Host) (t : Z) : Z :=
  msPerDay + LocalTZA H t true - LocalTZA H (LocalTime H t + msPerDay) false.

(** The offset is [c] at every instant of [[a, b]] and at the same local
    time a day later: no change of offset touches a step taken from
    there. *)
Definition steady (H : Host) (c a b : Z) : Prop :=
  forall t, a <= t <= b ->
            LocalTZA H t true = c /\ LocalTZA H (t + c + msPerDay) false = c.

(** A step is never more than two hours off a day: what a change of
    offset by daylight saving amounts to. *)
Definition gentle (H : Host) : Prop :=
  forall t, Z.abs (day_step H t - msPerDay) <= 2 * msPerHour.

(** [n] consecutive midnights (or any instants a day apart) from [t]. *)
Fixpoint day_range (t : Z) (n : nat) : list Z :=
  match n with
  | O => []
  | S n' => t :: day_range (t + msPerDay) n'
  end.

(** [map] with an index, for callbacks that do not throw. *)
Fixpoint mapi_pure {A B : Type} (i : nat) (g : A -> nat -> B) (xs : list A) : list B :=
  match xs with
  | [] => []
  | x :: xs' => g x i :: mapi_pure (S i) g xs'
  end.

(** Saturday (6) or Sunday (0). *)
Definition weekend (dayOfWeek : Z) : bool := (dayOfWeek =? 0) || (dayOfWeek =? 6).

(** A number that is an integer. *)
Definition is_integer (q : Q) : Prop := exists z : Z, q = inject_Z z.

(** The host's entropy after [n] calls of [Math.random]. *)
Definition entropy_after (H : Host) (n : nat) (s : Entropy H) : Entropy H :=
  Nat.iter n (fun s' => snd (Math_random H s')) s.

Section Callback.

Variable H : Host.

Local Open Scope Q_scope.

(** The slope the callback uses, for a non-empty history. *)
Definition slope_of (historicalData : list Sales.t) : Q :=
  match historicalTrendEnd historicalData with
  | Ok slope => slope
  | Throw _ => 0
  end.

(** The prediction before rounding and clamping. *)
Definition raw_forecast (historicalData : list Sales.t) (last : Sales.t)
           (lastHistoricalDate : Date) (t : Z) : Q :=
  Sales.y last
  + Date_sub (Some t) lastHistoricalDate / inject_Z (1000 * 60 * 60 * 24)
    * slope_of historicalData * (1 # 10)
  + yearlySeasonality H t + weeklySeasonality H t.

(** The record the callback builds for a valid date. *)
Definition forecast_at (historicalData : list Sales.t) (last : Sales.t)
           (lastHistoricalDate : Date) (t : Z) : Forecast.t :=
  let raw := raw_forecast historicalData last lastHistoricalDate t in
  Forecast.mk (isoDate t)
    (Math_max 0 (Math_round raw))
    (Math_max 0 (Math_round (raw - uncertainty)))
    (Math_round (raw + uncertainty))
    (Math_round (Sales.y last
                 + Date_sub (Some t) lastHistoricalDate / inject_Z (1000 * 60 * 60 * 24)
                   * slope_of historicalData * (1 # 10)))
    (Math_round (yearlySeasonality H t))
    (Math_round (weeklySeasonality H t)).

(** The generator's [dailySales] at index [i], before rounding and
    clamping. *)
Definition dailySales (dates : list Z) (noise : list Q) (i : nat) : Q :=
  100
  + nth i (map (fun k => inject_Z (Z.of_nat k) / inject_Z (Z.of_nat (length dates)) * 50)
               (seq 0 (length dates))) 0
  + nth i (map (yearlySeasonality H) dates) 0
  + nth i (map (weeklySeasonality H) dates) 0
  + nth i noise 0.

End Callback.

Local Open Scope Q_scope.

(** A two-day history, and the single-day history of the specification's
    scenario. *)
Definition history_two_days : list Sales.t :=
  [Sales.mk "2024-01-01" 100; Sales.mk "2024-01-02" 110].

Definition history_one_day : list Sales.t := [Sales.mk "2024-01-01" 100].

(** A history that falls from 1000 to 0 in two days. *)
Definition history_falling : list Sales.t :=
  [Sales.mk "2024-01-01" 1000; Sales.mk "2024-01-02" 0].

Local Close Scope Q_scope.

(** * Facts *)

(** ** The calendar *)
Section Calendar.

Lemma DayFromYear_succ (y : Z) : DayFromYear (y + 1) = DayFromYear y + DaysInYear y.
Proof.
  unfold DayFromYear, DaysInYear.
  destruct (Z.eqb_spec (y mod 4) 0); destruct (Z.eqb_spec (y mod 100) 0);
    destruct (Z.eqb_spec (y mod 400) 0); cbn [negb];
    Z.div_mod_to_equations; lia.
Qed.

Lemma DaysInYear_cases (y : Z) : DaysInYear y = 365 \/ DaysInYear y = 366.
Proof.
  unfold DaysInYear.
  destruct (y mod 4 =? 0), (y mod 100 =? 0), (y mod 400 =? 0); cbn [negb]; auto.
Qed.

(** [YearFromDay d] is the year whose days contain [d]. *)
Lemma YearFromDay_spec (d : Z) :
  DayFromYear (YearFromDay d) <= d < DayFromYear (YearFromDay d + 1).
Proof.
  unfold YearFromDay; cbv zeta.
  destruct (Z.ltb_spec d (DayFromYear (1970 + 400 * d / 146097))) as [Hlt | Hge].
  - replace (1970 + 400 * d / 146097 - 1 + 1) with (1970 + 400 * d / 146097) by lia.
    split; [| lia]. unfold DayFromYear in *. Z.div_mod_to_equations; lia.
  - destruct (Z.leb_spec (DayFromYear (1970 + 400 * d / 146097 + 1)) d) as [Hle | Hgt].
    + split; [lia |]. unfold DayFromYear in *. Z.div_mod_to_equations; lia.
    + lia.
Qed.

Lemma DayFromYear_mono (a b : Z) : a <= b -> DayFromYear a <= DayFromYear b.
Proof. unfold DayFromYear. intros. Z.div_mod_to_equations; lia. Qed.

Lemma DayFromYear_lt_inv (a b : Z) : DayFromYear a < DayFromYear b -> a < b.
Proof.
  intros Hlt. destruct (Z.lt_ge_cases a b) as [|Hge]; [assumption |].
  apply DayFromYear_mono in Hge. lia.
Qed.

Lemma leap_of_cases (y : Z) :
  (leap_of y = 0 /\ DaysInYear y = 365) \/ (leap_of y = 1 /\ DaysInYear y = 366).
Proof.
  unfold leap_of. destruct (DaysInYear_cases y) as [E | E]; rewrite E; cbn; auto.
Qed.

Lemma DayWithinYear_range (t : Z) :
  0 <= DayWithinYear t < DaysInYear (YearFromTime t).
Proof.
  unfold DayWithinYear, YearFromTime.
  pose proof (YearFromDay_spec (Day t)) as Hs.
  rewrite DayFromYear_succ in Hs. lia.
Qed.

Ltac month_cases :=
  repeat match goal with
         | |- context [if ?a <? ?b then _ else _] => destruct (Z.ltb_spec a b)
         | |- context [if ?a =? ?b then _ else _] => destruct (Z.eqb_spec a b)
         end.

Lemma MonthFromDay_range (d leap : Z) : 0 <= MonthFromDay d leap <= 11.
Proof. unfold MonthFromDay. month_cases; lia. Qed.

Lemma MonthStart_MonthFromDay (d leap : Z) :
  0 <= d < 365 + leap -> 0 <= leap <= 1 ->
  1 <= d - MonthStart (MonthFromDay d leap) leap + 1
       <= DaysInMonth (MonthFromDay d leap) leap.
Proof.
  intros Hd Hl. unfold MonthFromDay.
  month_cases; cbv [MonthStart DaysInMonth Z.eqb Pos.eqb orb]; lia.
Qed.

Lemma InLeapYear_leap_of (t : Z) : InLeapYear t = leap_of (YearFromTime t).
Proof. reflexivity. Qed.

Lemma MonthFromTime_range (t : Z) : 0 <= MonthFromTime t <= 11.
Proof. apply MonthFromDay_range. Qed.

Lemma DateFromTime_range (t : Z) :
  1 <= DateFromTime t <= DaysInMonth (MonthFromTime t) (InLeapYear t).
Proof.
  unfold DateFromTime, MonthFromTime.
  pose proof (DayWithinYear_range t) as Hd.
  rewrite InLeapYear_leap_of.
  destruct (leap_of_cases (YearFromTime t)) as [[El Ed] | [El Ed]];
    rewrite El; apply MonthStart_MonthFromDay; lia.
Qed.

(** [MakeDay] on the year and month of [t] lands in the month of [t]. *)
Lemma MakeDay_fields (t dt : Z) :
  MakeDay (YearFromTime t) (MonthFromTime t) dt = Day t - DateFromTime t + dt.
Proof.
  unfold MakeDay; cbv zeta.
  pose proof (MonthFromTime_range t) as Hm.
  rewrite (Z.div_small (MonthFromTime t) 12), (Z.mod_small (MonthFromTime t) 12) by lia.
  rewrite Z.add_0_r. fold (leap_of (YearFromTime t)). rewrite <- InLeapYear_leap_of.
  unfold DateFromTime, DayWithinYear. lia.
Qed.

Lemma Day_TimeWithinDay (t : Z) : t = Day t * msPerDay + TimeWithinDay t.
Proof.
  unfold Day, TimeWithinDay. pose proof (Z.div_mod t msPerDay).
  unfold msPerDay in *. lia.
Qed.

End Calendar.

(** ** Date methods *)
Section DateMethods.

Variable H : Host.

(** [setDate(getDate() + 1)] keeps the local time of day and moves to the
    next local day; in UTC that is [day_step]. *)
Lemma setDate_succ (t : Z) : setDate H t (getDate H t + 1) = TimeClip (t + day_step H t).
Proof.
  unfold setDate, getDate, day_step; cbv zeta.
  rewrite MakeDay_fields. f_equal.
  unfold UTC, MakeDate.
  pose proof (Day_TimeWithinDay (LocalTime H t)) as E.
  replace ((Day (LocalTime H t) - DateFromTime (LocalTime H t)
            + (DateFromTime (LocalTime H t) + 1)) * msPerDay
           + TimeWithinDay (LocalTime H t))
    with (LocalTime H t + msPerDay) by (unfold msPerDay in *; lia).
  unfold LocalTime. lia.
Qed.

Lemma next_day_step (t : Z) : next_day H (Some t) = TimeClip (t + day_step H t).
Proof. apply setDate_succ. Qed.

Lemma steady_day_step (c a b t : Z) :
  steady H c a b -> a <= t <= b -> day_step H t = msPerDay.
Proof.
  intros Hs Ht. destruct (Hs t Ht) as [E1 E2].
  unfold day_step, LocalTime. rewrite E1, E2. lia.
Qed.

Lemma steady_LocalTime (c a b t : Z) :
  steady H c a b -> a <= t <= b -> LocalTime H t = t + c.
Proof. intros Hs Ht. destruct (Hs t Ht) as [E1 _]. unfold LocalTime. rewrite E1. reflexivity. Qed.

Lemma next_day_steady (c a b t : Z) :
  steady H c a b -> a <= t <= b -> next_day H (Some t) = TimeClip (t + msPerDay).
Proof. intros Hs Ht. rewrite next_day_step, (steady_day_step c a b) by assumption. reflexivity. Qed.

Lemma steady_sub (c a b a' b' : Z) :
  steady H c a b -> a <= a' -> b' <= b -> steady H c a' b'.
Proof. intros Hs Ha Hb t Ht. apply Hs. lia. Qed.

(** A host whose offset never changes is steady everywhere, and gentle. *)
Lemma fixed_offset_steady (c : Z) :
  (forall t b, LocalTZA H t b = c) -> forall a b, steady H c a b.
Proof. intros Hc a b t _. split; apply Hc. Qed.

Lemma fixed_offset_gentle (c : Z) : (forall t b, LocalTZA H t b = c) -> gentle H.
Proof.
  intros Hc t. unfold day_step. rewrite !Hc. unfold msPerDay, msPerHour. lia.
Qed.

Lemma gentle_step (t : Z) :
  gentle H -> msPerDay - 2 * msPerHour <= day_step H t <= msPerDay + 2 * msPerHour.
Proof. intros Hg. specialize (Hg t). lia. Qed.

Lemma TimeClip_in (t : Z) : Z.abs t <= maxTime -> TimeClip t = Some t.
Proof. intros Hr. unfold TimeClip. destruct (Z.leb_spec (Z.abs t) maxTime); [reflexivity | lia]. Qed.

Lemma TimeClip_Some (t u : Z) : TimeClip t = Some u -> u = t /\ Z.abs t <= maxTime.
Proof.
  unfold TimeClip. destruct (Z.leb_spec (Z.abs t) maxTime); [| discriminate].
  intros [= <-]. auto.
Qed.

End DateMethods.

(** ** Date keys: printing and reading back *)
Section DateKeys.

Lemma digit_cases (k : Z) :
  0 <= k <= 9 ->
  k = 0 \/ k = 1 \/ k = 2 \/ k = 3 \/ k = 4 \/ k = 5 \/ k = 6 \/ k = 7 \/ k = 8 \/ k = 9.
Proof. lia. Qed.

Lemma digit_of_digit_char (k : Z) : 0 <= k <= 9 -> digit_of (digit_char k) = Some k.
Proof.
  intros Hk. destruct (digit_cases k Hk) as [E | [E | [E | [E | [E | [E | [E | [E | [E | E]]]]]]]]];
    subst k; reflexivity.
Qed.

Lemma digit_char_not_T (k : Z) : 0 <= k <= 9 -> Ascii.eqb (digit_char k) "T" = false.
Proof.
  intros Hk. destruct (digit_cases k Hk) as [E | [E | [E | [E | [E | [E | [E | [E | [E | E]]]]]]]]];
    subst k; reflexivity.
Qed.

Lemma digit_of_range (c : ascii) (k : Z) : digit_of c = Some k -> 0 <= k <= 9.
Proof.
  unfold digit_of; cbv zeta.
  destruct (Z.leb_spec 48 (Z.of_nat (nat_of_ascii c)));
    destruct (Z.leb_spec (Z.of_nat (nat_of_ascii c)) 57); cbn [andb]; try discriminate.
  intros [= <-]. lia.
Qed.

Lemma mod10_range (n : Z) : 0 <= n mod 10 <= 9.
Proof. pose proof (Z.mod_pos_bound n 10). lia. Qed.

Lemma isoDate_chars (t : Z) :
  0 <= YearFromTime t <= 9999 ->
  isoDate t = key_chars (YearFromTime t) (MonthFromTime t + 1) (DateFromTime t).
Proof.
  intros Hy. unfold isoDate, ISO_string, year_string.
  destruct (Z.leb_spec 0 (YearFromTime t)); [| lia].
  destruct (Z.leb_spec (YearFromTime t) 9999); [| lia].
  cbn [andb]. unfold pad4, pad3, pad2, key_chars.
  cbn [append split_0].
  rewrite !digit_char_not_T by apply mod10_range.
  reflexivity.
Qed.

Lemma Date_parse_key_chars (y m d : Z) :
  0 <= y <= 9999 -> 1 <= m <= 12 -> 1 <= d <= DaysInMonth (m - 1) (leap_of y) ->
  Date_parse (key_chars y m d) = TimeClip (MakeDate (MakeDay y (m - 1) d) 0).
Proof.
  intros Hy Hm Hd.
  assert (Hd31 : d <= 31).
  { revert Hd. unfold DaysInMonth. destruct (leap_of_cases y) as [[-> _] | [-> _]];
      destruct (m - 1 =? 1); destruct ((m - 1 =? 3) || (m - 1 =? 5) || (m - 1 =? 8) || (m - 1 =? 10))%bool;
      lia. }
  unfold Date_parse, key_chars. cbn [list_ascii_of_string].
  unfold number_of. cbn [fold_left].
  rewrite !digit_of_digit_char by apply mod10_range.
  replace (10 * (10 * (10 * (10 * 0 + y / 1000 mod 10) + y / 100 mod 10) + y / 10 mod 10) + y mod 10)
    with y by (Z.div_mod_to_equations; lia).
  replace (10 * (10 * 0 + m / 10 mod 10) + m mod 10) with m by (Z.div_mod_to_equations; lia).
  replace (10 * (10 * 0 + d / 10 mod 10) + d mod 10) with d by (Z.div_mod_to_equations; lia).
  fold (leap_of y).
  destruct (Z.leb_spec 1 m); [| lia]. destruct (Z.leb_spec m 12); [| lia].
  destruct (Z.leb_spec 1 d); [| lia].
  destruct (Z.leb_spec d (DaysInMonth (m - 1) (leap_of y))); [| lia].
  reflexivity.
Qed.

(** Reading back the key printed for a time value gives the midnight of
    its day. *)
Lemma Date_parse_isoDate (t : Z) :
  0 <= YearFromTime t <= 9999 -> Z.abs t <= maxTime ->
  Date_parse (isoDate t) = Some (Day t * msPerDay).
Proof.
  intros Hy Ht.
  pose proof (MonthFromTime_range t) as Hm.
  pose proof (DateFromTime_range t) as Hd. rewrite InLeapYear_leap_of in Hd.
  rewrite isoDate_chars by assumption.
  rewrite Date_parse_key_chars; try lia.
  - replace (MonthFromTime t + 1 - 1) with (MonthFromTime t) by lia.
    rewrite MakeDay_fields. unfold MakeDate.
    replace (Day t - DateFromTime t + DateFromTime t) with (Day t) by lia.
    rewrite Z.add_0_r. apply TimeClip_in.
    pose proof (Day_TimeWithinDay t) as E.
    pose proof (Z.mod_pos_bound t msPerDay) as B. unfold TimeWithinDay, msPerDay, maxTime in *.
    lia.
  - replace (MonthFromTime t + 1 - 1) with (MonthFromTime t) by lia. assumption.
Qed.

End DateKeys.

(** ** The range of [YYYY-MM-DD] keys *)
Section KeyRange.

Lemma YearFromDay_unique (d y : Z) :
  DayFromYear y <= d < DayFromYear (y + 1) -> YearFromDay d = y.
Proof.
  intros Hd. pose proof (YearFromDay_spec d) as Hs.
  assert (YearFromDay d < y + 1) by (apply DayFromYear_lt_inv; lia).
  assert (y < YearFromDay d + 1) by (apply DayFromYear_lt_inv; lia).
  lia.
Qed.

Lemma in_key_range_year (t : Z) : in_key_range t -> 0 <= YearFromTime t <= 9999.
Proof.
  unfold in_key_range, TimeFromYear, YearFromTime. intros Ht.
  pose proof (YearFromDay_spec (Day t)) as Hs.
  pose proof (Day_TimeWithinDay t) as E.
  pose proof (Z.mod_pos_bound t msPerDay) as B. unfold TimeWithinDay in E.
  assert (DayFromYear 0 <= Day t < DayFromYear 10000) by (unfold msPerDay in *; lia).
  assert (0 < YearFromDay (Day t) + 1) by (apply DayFromYear_lt_inv; lia).
  assert (YearFromDay (Day t) < 10000) by (apply DayFromYear_lt_inv; lia).
  lia.
Qed.

Lemma in_key_range_valid (t : Z) : in_key_range t -> Z.abs t <= maxTime.
Proof.
  unfold in_key_range, TimeFromYear. intros Ht.
  change (DayFromYear 0) with (-719528) in Ht.
  change (DayFromYear 10000) with 2932897 in Ht.
  unfold msPerDay, maxTime in *. lia.
Qed.

Lemma in_key_range_between (a b t : Z) :
  in_key_range a -> in_key_range b -> a <= t <= b -> in_key_range t.
Proof. unfold in_key_range. lia. Qed.

Lemma number_of_4 (a b c d : ascii) (n : Z) :
  number_of [a; b; c; d] = Some n -> 0 <= n <= 9999.
Proof.
  unfold number_of; cbn [fold_left].
  destruct (digit_of a) as [ka |] eqn:Ea; [| discriminate].
  destruct (digit_of b) as [kb |] eqn:Eb; [| discriminate].
  destruct (digit_of c) as [kc |] eqn:Ec; [| discriminate].
  destruct (digit_of d) as [kd |] eqn:Ed; [| discriminate].
  apply digit_of_range in Ea. apply digit_of_range in Eb.
  apply digit_of_range in Ec. apply digit_of_range in Ed.
  intros E.
  assert (n = 10 * (10 * (10 * (10 * 0 + ka) + kb) + kc) + kd) by congruence. lia.
Qed.

Lemma MonthStart_DaysInMonth (m leap d : Z) :
  0 <= m <= 11 -> 0 <= leap <= 1 -> 1 <= d <= DaysInMonth m leap ->
  0 <= MonthStart m leap + d - 1 < 365 + leap.
Proof.
  intros Hm Hl. unfold MonthStart, DaysInMonth.
  repeat match goal with
         | |- context [?a =? ?b] => destruct (Z.eqb_spec a b)
         end; cbn [orb]; lia.
Qed.

(** What [new Date(key)] returns when it is valid: a midnight UTC in the
    years 0..9999. *)
Lemma Date_parse_Some (s : string) (t : Z) :
  Date_parse s = Some t -> in_key_range t /\ t mod msPerDay = 0.
Proof.
  unfold Date_parse.
  destruct (list_ascii_of_string s) as [| y1 [| y2 [| y3 [| y4 [| h1 [| m1 [| m2 [| h2 [| d1 [| d2 [| ? ?]]]]]]]]]]];
    try discriminate.
  destruct (number_of [y1; y2; y3; y4]) as [y |] eqn:Ey; [| discriminate].
  destruct (number_of [m1; m2]) as [m |] eqn:Em; [| discriminate].
  destruct (number_of [d1; d2]) as [d |] eqn:Ed; [| discriminate].
  apply number_of_4 in Ey.
  fold (leap_of y).
  destruct (Ascii.eqb h1 "-" && Ascii.eqb h2 "-")%bool; cbn [andb]; [| discriminate].
  destruct (Z.leb_spec 1 m); cbn [andb]; [| discriminate].
  destruct (Z.leb_spec m 12); cbn [andb]; [| discriminate].
  destruct (Z.leb_spec 1 d); cbn [andb]; [| discriminate].
  destruct (Z.leb_spec d (DaysInMonth (m - 1) (leap_of y))); [| discriminate].
  intros Hc. apply TimeClip_Some in Hc. destruct Hc as [-> _].
  assert (Hl : 0 <= leap_of y <= 1) by (destruct (leap_of_cases y) as [[-> _] | [-> _]]; lia).
  pose proof (MonthStart_DaysInMonth (m - 1) (leap_of y) d ltac:(lia) Hl ltac:(lia)) as Hin.
  assert (Hday : MakeDay y (m - 1) d = DayFromYear y + (MonthStart (m - 1) (leap_of y) + d - 1)).
  { unfold MakeDay; cbv zeta. rewrite (Z.div_small (m - 1) 12), (Z.mod_small (m - 1) 12) by lia.
    rewrite Z.add_0_r. fold (leap_of y). lia. }
  unfold MakeDate, MakeTime. rewrite Hday. cbn [Z.mul Z.add]. rewrite Z.add_0_r.
  split.
  - unfold in_key_range, TimeFromYear.
    pose proof (DayFromYear_mono 0 y ltac:(lia)).
    pose proof (DayFromYear_mono (y + 1) 10000 ltac:(lia)) as Hup.
    rewrite DayFromYear_succ in Hup.
    destruct (leap_of_cases y) as [[El Ed'] | [El Ed']]; rewrite El in *; unfold msPerDay; lia.
  - apply Z.mod_mul. unfold msPerDay. lia.
Qed.

End KeyRange.

(** ** Arrays and loops *)
Section Loops.

Variable H : Host.

Lemma day_range_length (t : Z) (n : nat) : length (day_range t n) = n.
Proof. revert t; induction n as [| n IH]; intros t; cbn; [| rewrite IH]; reflexivity. Qed.

Lemma day_range_nth (n : nat) : forall (t : Z) (i : nat) (u : Z),
  nth_error (day_range t n) i = Some u -> u = t + Z.of_nat i * msPerDay /\ (i < n)%nat.
Proof.
  induction n as [| n IH]; intros t i u; cbn [day_range].
  - destruct i; discriminate.
  - destruct i as [| i]; cbn [nth_error].
    + intros [= <-]. split; lia.
    + intros Hn. apply IH in Hn. destruct Hn as [-> Hi]. split; lia.
Qed.

Lemma while_dates_invalid (fuel : nat) (endDate : Date) : while_dates H fuel None endDate = [].
Proof. destruct fuel; reflexivity. Qed.

Lemma while_dates_past (fuel : nat) (tc te : Z) :
  te < tc -> while_dates H fuel (Some tc) (Some te) = [].
Proof.
  intros Hlt. destruct fuel; [reflexivity |]. cbn [while_dates Date_le].
  destruct (Z.leb_spec tc te); [lia | reflexivity].
Qed.

Lemma while_dates_length (fuel : nat) : forall currentDate endDate : Date,
  (length (while_dates H fuel currentDate endDate) <= fuel)%nat.
Proof.
  induction fuel as [| fuel IH]; intros currentDate endDate; cbn [while_dates]; [apply Nat.le_refl |].
  destruct (Date_le currentDate endDate); cbn [length]; [| lia].
  specialize (IH (next_day H currentDate) endDate). lia.
Qed.

(** Over days on which the offset does not change, the [while] loop of
    the generator pushes one date per day from the start to the end. *)
Lemma while_dates_days (c : Z) (fuel : nat) : forall tc te : Z,
  steady H c tc te ->
  Z.abs tc <= maxTime -> Z.abs te <= maxTime ->
  (Z.to_nat ((te - tc) / msPerDay + 1) <= fuel)%nat ->
  while_dates H fuel (Some tc) (Some te)
  = day_range tc (Z.to_nat ((te - tc) / msPerDay + 1)).
Proof.
  induction fuel as [| fuel IH]; intros tc te Hst Hc He Hf.
  - replace (Z.to_nat ((te - tc) / msPerDay + 1)) with O by lia. reflexivity.
  - cbn [while_dates Date_le].
    destruct (Z.leb_spec tc te) as [Hle | Hgt].
    + assert (Hq : (te - tc) / msPerDay + 1 = ((te - (tc + msPerDay)) / msPerDay + 1) + 1).
      { unfold msPerDay. Z.div_mod_to_equations. lia. }
      assert (Hnn : 0 <= (te - tc) / msPerDay).
      { apply Z.div_pos; unfold msPerDay; lia. }
      rewrite (next_day_steady H c tc te) by (assumption || lia). unfold TimeClip.
      destruct (Z.leb_spec (Z.abs (tc + msPerDay)) maxTime) as [Hin | Hout].
      * rewrite IH; [| apply (steady_sub H c tc te); (assumption || unfold msPerDay; lia) | lia ..].
        rewrite Hq. rewrite (Z2Nat.inj_add ((te - (tc + msPerDay)) / msPerDay + 1) 1) by lia.
        rewrite Nat.add_comm. reflexivity.
      * assert (Hz : (te - tc) / msPerDay = 0).
        { apply Z.div_small. unfold msPerDay, maxTime in *. lia. }
        rewrite Hz. cbn [Z.add Z.to_nat Pos.to_nat Pos.iter_op day_range].
        destruct fuel; reflexivity.
    + assert (Hz : (te - tc) / msPerDay + 1 <= 0).
      { unfold msPerDay. Z.div_mod_to_equations. lia. }
      replace (Z.to_nat ((te - tc) / msPerDay + 1)) with O by lia. reflexivity.
Qed.

Lemma days_le_steps (tc te : Z) :
  (Z.to_nat ((te - tc) / msPerDay + 1) <= steps_to_go (Some tc) (Some te))%nat.
Proof.
  cbn [steps_to_go]. unfold msPerDay, msPerHour.
  destruct (Z.lt_ge_cases te tc) as [Hlt | Hle].
  - replace (Z.to_nat ((te - tc) / 86400000 + 1)) with O
      by (Z.div_mod_to_equations; lia).
    apply Nat.le_0_l.
  - apply Z2Nat.inj_le; Z.div_mod_to_equations; lia.
Qed.

(** On a gentle host the loop ends by its guard before [steps_to_go]
    iterations: more fuel changes nothing. *)
Lemma while_dates_enough (f1 : nat) : forall (f2 : nat) (tc te : Z),
  gentle H -> Z.abs tc <= maxTime ->
  (steps_to_go (Some tc) (Some te) <= f1)%nat ->
  (steps_to_go (Some tc) (Some te) <= f2)%nat ->
  while_dates H f1 (Some tc) (Some te) = while_dates H f2 (Some tc) (Some te).
Proof.
  induction f1 as [| f1 IH]; intros f2 tc te Hg Hc H1 H2; cbn [steps_to_go] in *.
  - assert (Hlt : te < tc) by (unfold msPerHour in *; Z.div_mod_to_equations; lia).
    rewrite !while_dates_past by assumption. reflexivity.
  - destruct (Z.lt_ge_cases te tc) as [Hlt | Hle];
      [rewrite !while_dates_past by assumption; reflexivity |].
    destruct f2 as [| f2];
      [exfalso; unfold msPerHour in *; Z.div_mod_to_equations; lia |].
    cbn [while_dates Date_le]. destruct (Z.leb_spec tc te); [| lia]. f_equal.
    rewrite next_day_step. pose proof (gentle_step H tc Hg) as Hstep.
    destruct (TimeClip (tc + day_step H tc)) as [tc' |] eqn:Ec;
      [| rewrite !while_dates_invalid; reflexivity].
    apply TimeClip_Some in Ec. destruct Ec as [-> Hv].
    apply IH; try assumption; cbn [steps_to_go];
      unfold msPerDay, msPerHour in *; Z.div_mod_to_equations; lia.
Qed.

Lemma while_dates_fuel (fuel : nat) (tc te : Z) :
  gentle H -> Z.abs tc <= maxTime ->
  (steps_to_go (Some tc) (Some te) <= fuel)%nat ->
  while_dates H fuel (Some tc) (Some te)
  = while_dates H (steps_to_go (Some tc) (Some te)) (Some tc) (Some te).
Proof. intros Hg Hc Hf. apply while_dates_enough; try assumption. apply Nat.le_refl. Qed.

(** On a gentle host the loop walks from the start to within a step of
    the end: the dates it pushes begin with the start and go forward,
    every one of them lies between the start and the last one, and the
    last one is less than 26 hours before the end. *)
Lemma while_dates_walk (fuel : nat) : forall tc te : Z,
  gentle H -> Z.abs tc <= maxTime -> Z.abs te <= maxTime -> tc <= te ->
  (steps_to_go (Some tc) (Some te) <= fuel)%nat ->
  exists dates d,
    while_dates H fuel (Some tc) (Some te) = dates
    /\ nth_error dates 0 = Some tc
    /\ nth_error dates (length dates - 1) = Some d
    /\ (forall x, In x dates -> tc <= x <= d)
    /\ (forall i a b, nth_error dates i = Some a -> nth_error dates (S i) = Some b -> a < b)
    /\ d <= te < d + (msPerDay + 2 * msPerHour).
Proof.
  induction fuel as [| fuel IH]; intros tc te Hg Hc He Hle Hf; cbn [steps_to_go] in Hf.
  - exfalso. unfold msPerHour in *. Z.div_mod_to_equations. lia.
  - cbn [while_dates Date_le]. destruct (Z.leb_spec tc te); [| lia].
    rewrite next_day_step. pose proof (gentle_step H tc Hg) as Hstep.
    assert (Hone : te < tc + day_step H tc ->
               exists dates d,
                 [tc] = dates /\ nth_error dates 0 = Some tc
                 /\ nth_error dates (length dates - 1) = Some d
                 /\ (forall x, In x dates -> tc <= x <= d)
                 /\ (forall i a b, nth_error dates i = Some a ->
                                   nth_error dates (S i) = Some b -> a < b)
                 /\ d <= te < d + (msPerDay + 2 * msPerHour)).
    { intros Hgt. exists [tc], tc. split; [reflexivity |]. split; [reflexivity |].
      split; [reflexivity |]. split; [intros x [<- | []]; lia |].
      split; [intros [| [| i]] a b _ Hb; discriminate Hb |].
      unfold msPerDay, msPerHour in *. lia. }
    destruct (TimeClip (tc + day_step H tc)) as [tc' |] eqn:Ec.
    + apply TimeClip_Some in Ec. destruct Ec as [-> Hv].
      destruct (Z.lt_ge_cases te (tc + day_step H tc)) as [Hgt | Hin].
      * rewrite while_dates_past by assumption. apply Hone. assumption.
      * destruct (IH (tc + day_step H tc) te Hg Hv He Hin)
          as [dates [d [Hw [Hh [Hn [Hall [Hup Hd]]]]]]].
        { cbn [steps_to_go]. unfold msPerDay, msPerHour in *. Z.div_mod_to_equations. lia. }
        rewrite Hw. exists (tc :: dates), d.
        assert (Hlen : (length dates <> 0)%nat).
        { intros E. rewrite E in Hn. destruct dates; discriminate. }
        split; [reflexivity |]. split; [reflexivity |].
        split; [| split; [| split; [| exact Hd]]].
        -- cbn [length]. replace (S (length dates) - 1)%nat with (S (length dates - 1)) by lia.
           exact Hn.
        -- assert (Hd' : tc + day_step H tc <= d).
           { apply (Hall d). apply (nth_error_In _ _ Hn). }
           intros x [<- | Hx]; [unfold msPerDay, msPerHour in *; lia |].
           specialize (Hall x Hx). unfold msPerDay, msPerHour in *. lia.
        -- intros [| i] a b Ha Hb.
           ++ change (nth_error dates 0 = Some b) in Hb. rewrite Hh in Hb.
              assert (b = tc + day_step H tc) by congruence.
              assert (a = tc) by (cbn [nth_error] in Ha; congruence).
              unfold msPerDay, msPerHour in *. lia.
           ++ apply (Hup i a b); assumption.
    + rewrite while_dates_invalid.
      assert (Hout : maxTime < Z.abs (tc + day_step H tc)).
      { unfold TimeClip in Ec. destruct (Z.leb_spec (Z.abs (tc + day_step H tc)) maxTime);
          [discriminate | assumption]. }
      apply Hone. unfold msPerDay, msPerHour, maxTime in *. lia.
Qed.

(** The [for] loop of the simulator over days on which the offset does
    not change, while the dates stay valid. *)
Lemma for_dates_days (c : Z) (n : nat) : forall t : Z,
  steady H c t (t + Z.of_nat n * msPerDay - msPerDay) ->
  - maxTime <= t -> t + Z.of_nat n * msPerDay <= maxTime + msPerDay ->
  for_dates H n (Some t) = map Some (day_range t n).
Proof.
  induction n as [| n IH]; intros t Hst Hlo Hhi; [reflexivity |].
  cbn [for_dates day_range map]. f_equal.
  destruct n as [| n]; [reflexivity |].
  rewrite (next_day_steady H c _ _ t Hst) by (unfold msPerDay; lia).
  rewrite TimeClip_in by (unfold msPerDay, maxTime in *; lia).
  apply IH; [| unfold msPerDay, maxTime in *; lia ..].
  apply (steady_sub H c _ _ _ _ Hst); unfold msPerDay; lia.
Qed.

(** The same loop on a gentle host: as many dates as asked for, none
    before the first. *)
Lemma for_dates_walk (n : nat) : forall t : Z,
  gentle H -> - maxTime <= t ->
  t + Z.of_nat n * (msPerDay + 2 * msPerHour) <= maxTime ->
  exists dates,
    for_dates H n (Some t) = map Some dates /\ length dates = n
    /\ forall x, In x dates -> t <= x <= t + Z.of_nat n * (msPerDay + 2 * msPerHour).
Proof.
  induction n as [| n IH]; intros t Hg Hlo Hhi.
  - exists []. split; [reflexivity |]. split; [reflexivity |]. intros x [].
  - cbn [for_dates]. rewrite next_day_step. pose proof (gentle_step H t Hg) as Hstep.
    rewrite TimeClip_in by (unfold msPerDay, msPerHour, maxTime in *; lia).
    destruct (IH (t + day_step H t) Hg) as [dates [Hf [Hlen Hall]]];
      [unfold msPerDay, msPerHour, maxTime in *; lia ..|].
    exists (t :: dates). split; [cbn [map]; rewrite Hf; reflexivity |].
    split; [cbn [length]; rewrite Hlen; reflexivity |].
    intros x [<- | Hx]; [unfold msPerDay, msPerHour in *; lia |].
    specialize (Hall x Hx). unfold msPerDay, msPerHour in *. lia.
Qed.

Lemma mapi_from_pure {A B : Type} (f : A -> nat -> result B) (g : A -> nat -> B)
      (xs : list A) :
  (forall x i, In x xs -> f x i = Ok (g x i)) ->
  forall k, mapi_from k f xs = Ok (mapi_pure k g xs).
Proof.
  induction xs as [| x xs IH]; intros Hf k; [reflexivity |].
  cbn [mapi_from mapi_pure]. rewrite Hf by (left; reflexivity). cbn [bind].
  rewrite IH by (intros; apply Hf; right; assumption). reflexivity.
Qed.

Lemma mapi_pure_length {A B : Type} (g : A -> nat -> B) (xs : list A) :
  forall k, length (mapi_pure k g xs) = length xs.
Proof. induction xs as [| x xs IH]; intros k; cbn; [| rewrite IH]; reflexivity. Qed.

Lemma mapi_pure_nth {A B : Type} (g : A -> nat -> B) (xs : list A) :
  forall k i b, nth_error (mapi_pure k g xs) i = Some b ->
                exists x, nth_error xs i = Some x /\ b = g x (k + i)%nat.
Proof.
  induction xs as [| x xs IH]; intros k i b; cbn [mapi_pure].
  - destruct i; discriminate.
  - destruct i as [| i]; cbn [nth_error].
    + intros [= <-]. exists x. rewrite Nat.add_0_r. auto.
    + intros Hn. apply IH in Hn. destruct Hn as [x' [Hx ->]].
      exists x'. split; [assumption |]. f_equal. lia.
Qed.

End Loops.

(** ** The series generator *)
Section Generator.

Variable H : Host.

Local Open Scope Q_scope.

Lemma clamped_nth_nonneg (f : nat -> Q) (l : list nat) (i : nat) :
  0 <= nth i (map (fun k => Math_max 0 (f k)) l) 0.
Proof.
  revert i; induction l as [| k l IH]; intros i; cbn [map nth].
  - destruct i; apply Qle_refl.
  - destruct i as [| i]; [apply Q.le_max_l | apply IH].
Qed.

(** The generator, whatever its arguments: it maps the dates its loop
    collected and threads the entropy through the noise array. *)
Lemma generate_unfold (startDateStr endDateStr : string) (s : Entropy H) :
  let dates := while_dates H (steps_to_go (Date_parse startDateStr) (Date_parse endDateStr))
                 (Date_parse startDateStr) (Date_parse endDateStr) in
  let noise := fst (noise_from H (length dates) s) in
  generateSyntheticSalesData H startDateStr endDateStr s
  = (Ok (mapi_pure 0
           (fun t i =>
              Sales.mk (isoDate t)
                (nth i (map (fun k => Math_max 0 (Math_round (dailySales H dates noise k)))
                            (seq 0 (length dates))) 0))
           dates),
     snd (noise_from H (length dates) s)).
Proof.
  cbv zeta. unfold generateSyntheticSalesData. cbv zeta.
  destruct (noise_from H _ s) as [noise s']. cbn [fst snd].
  f_equal. unfold Array_map. apply mapi_from_pure. intros; reflexivity.
Qed.

Lemma mapi_pure_keys (g : Z -> nat -> Q) (dates : list Z) : forall k,
  map Sales.ds (mapi_pure k (fun t i => Sales.mk (isoDate t) (g t i)) dates)
  = map isoDate dates.
Proof. induction dates as [| t dates IH]; intros k; cbn; [| rewrite IH]; reflexivity. Qed.

(** The generator's result over days on which the offset does not
    change: one record per day from the start to the end, keyed by the
    ISO date of that day, with clamped sales. *)
Lemma generate_days (c : Z) (startDateStr endDateStr : string) (ts te : Z) (s : Entropy H) :
  Date_parse startDateStr = Some ts -> Date_parse endDateStr = Some te ->
  steady H c ts te ->
  exists (sales : list Q) (s' : Entropy H),
    generateSyntheticSalesData H startDateStr endDateStr s
    = (Ok (mapi_pure 0 (fun t i => Sales.mk (isoDate t) (nth i sales 0))
             (day_range ts (Z.to_nat ((te - ts) / msPerDay + 1)))), s')
    /\ forall i, 0 <= nth i sales 0.
Proof.
  intros Hs He Hst.
  destruct (Date_parse_Some _ _ Hs) as [Rs _], (Date_parse_Some _ _ He) as [Re _].
  apply in_key_range_valid in Rs, Re.
  unfold generateSyntheticSalesData. rewrite Hs, He. cbv zeta.
  rewrite (while_dates_days H c) by (try assumption; apply days_le_steps).
  destruct (noise_from H _ s) as [noise s'].
  eexists; exists s'. split.
  - f_equal. unfold Array_map. apply mapi_from_pure. intros; reflexivity.
  - intros i. apply clamped_nth_nonneg.
Qed.

End Generator.

(** ** The forecast simulator *)
Section Simulator.

Variable H : Host.

Local Open Scope Q_scope.

Lemma Array_get_In {A : Type} (xs : list A) (i : Z) (x : A) :
  Array_get xs i = Some x -> In x xs.
Proof.
  unfold Array_get. destruct (i <? 0)%Z; [discriminate |]. apply nth_error_In.
Qed.

Lemma Array_get_first {A : Type} (xs : list A) (i : Z) (x : A) :
  Array_get xs i = Some x -> exists x0, Array_get xs 0 = Some x0.
Proof.
  intros Hx. apply Array_get_In in Hx. destruct xs as [| x0 xs]; [contradiction |].
  exists x0. reflexivity.
Qed.

Lemma historicalTrendEnd_Ok (historicalData : list Sales.t) (last : Sales.t) :
  Array_get historicalData (Array_length historicalData - 1) = Some last ->
  exists slope, historicalTrendEnd historicalData = Ok slope.
Proof.
  intros Hl. unfold historicalTrendEnd.
  destruct (1 <? Array_length historicalData)%Z; [| eexists; reflexivity].
  destruct (Array_get_first _ _ _ Hl) as [x0 H0].
  rewrite Hl, H0. cbn [prop bind]. eexists; reflexivity.
Qed.

Lemma forecast_of_valid (historicalData : list Sales.t) (last : Sales.t)
      (lastHistoricalDate : Date) (t : Z) :
  Array_get historicalData (Array_length historicalData - 1) = Some last ->
  forecast_of H historicalData lastHistoricalDate (Some t)
  = Ok (forecast_at H historicalData last lastHistoricalDate t).
Proof.
  intros Hl. destruct (historicalTrendEnd_Ok _ _ Hl) as [slope Hs].
  unfold forecast_of, forecast_at, raw_forecast, slope_of, simulatedTrend, toISOString.
  rewrite Hs, Hl. reflexivity.
Qed.

Lemma mapi_pure_map_Some {B : Type} (g : Z -> B) (d : B) (l : list Z) : forall k,
  mapi_pure k (fun (date : Date) (_ : nat) => match date with Some t => g t | None => d end)
    (map Some l) = map g l.
Proof. induction l as [| x l IH]; intros k; cbn; [| rewrite IH]; reflexivity. Qed.

Lemma simulate_dates (historicalData : list Sales.t) (last : Sales.t) (tl : Z)
      (dates : list Z) :
  Array_get historicalData (Array_length historicalData - 1) = Some last ->
  Array_map (fun date _ => forecast_of H historicalData (Some tl) date) (map Some dates)
  = Ok (map (forecast_at H historicalData last (Some tl)) dates).
Proof.
  intros Hl. unfold Array_map.
  rewrite (mapi_from_pure _
             (fun (date : Date) (_ : nat) =>
                match date with
                | Some t => forecast_at H historicalData last (Some tl) t
                | None => forecast_at H historicalData last (Some tl) 0
                end)).
  - rewrite mapi_pure_map_Some. reflexivity.
  - intros x i Hx. apply in_map_iff in Hx. destruct Hx as [t [<- _]].
    apply forecast_of_valid; assumption.
Qed.

(** The simulator's result for a non-empty history whose last key is
    valid, over days on which the offset does not change and while the
    forecast dates stay valid: one record per day after the last
    historical day. *)
Lemma simulate_days (c : Z) (historicalData : list Sales.t) (last : Sales.t) (tl : Z)
      (forecastPeriods : Z) :
  Array_get historicalData (Array_length historicalData - 1) = Some last ->
  Date_parse (Sales.ds last) = Some tl ->
  steady H c tl (tl + forecastPeriods * msPerDay)%Z ->
  (tl + forecastPeriods * msPerDay <= maxTime)%Z ->
  simulateProphetForecast H historicalData forecastPeriods
  = Ok (map (forecast_at H historicalData last (Some tl))
            (day_range (tl + msPerDay) (Z.to_nat forecastPeriods))).
Proof.
  intros Hl Hp Hst Hr.
  destruct (Date_parse_Some _ _ Hp) as [Rl _]. apply in_key_range_valid in Rl.
  unfold simulateProphetForecast. rewrite Hl. cbn [prop bind]. rewrite Hp.
  destruct (Z.to_nat forecastPeriods) as [| n] eqn:En; [reflexivity |].
  rewrite (next_day_steady H c _ _ tl Hst) by (unfold msPerDay; lia).
  rewrite TimeClip_in by (unfold msPerDay, maxTime in *; lia).
  rewrite (for_dates_days H c).
  - apply simulate_dates. assumption.
  - apply (steady_sub H c _ _ _ _ Hst); unfold msPerDay; lia.
  - unfold msPerDay, maxTime in *; lia.
  - unfold msPerDay, maxTime in *; lia.
Qed.

(** The same on a gentle host: as many records as asked for, none of
    them dated before the first step from the last historical day. *)
Lemma simulate_walk (historicalData : list Sales.t) (last : Sales.t) (tl : Z)
      (forecastPeriods : Z) :
  gentle H ->
  Array_get historicalData (Array_length historicalData - 1) = Some last ->
  Date_parse (Sales.ds last) = Some tl ->
  (tl + (forecastPeriods + 1) * (msPerDay + 2 * msPerHour) <= maxTime)%Z ->
  exists dates,
    simulateProphetForecast H historicalData forecastPeriods
    = Ok (map (forecast_at H historicalData last (Some tl)) dates)
    /\ length dates = Z.to_nat forecastPeriods
    /\ forall x, In x dates ->
         (tl + day_step H tl <= x
          <= tl + (forecastPeriods + 1) * (msPerDay + 2 * msPerHour))%Z.
Proof.
  intros Hg Hl Hp Hr. pose proof (gentle_step H tl Hg) as Hstep.
  destruct (Date_parse_Some _ _ Hp) as [Rl _]. apply in_key_range_valid in Rl.
  unfold simulateProphetForecast. rewrite Hl. cbn [prop bind]. rewrite Hp.
  destruct (Z.to_nat forecastPeriods) as [| n] eqn:En.
  - exists []. split; [reflexivity |]. split; [reflexivity |]. intros x [].
  - rewrite next_day_step.
    rewrite TimeClip_in by (unfold msPerDay, msPerHour, maxTime in *; lia).
    destruct (for_dates_walk H (S n) (tl + day_step H tl)%Z Hg) as [dates [Hf [Hlen Hall]]];
      [unfold msPerDay, msPerHour, maxTime in *; lia ..|].
    exists dates. rewrite Hf. split; [apply simulate_dates; assumption |].
    split; [exact Hlen |].
    intros x Hx. specialize (Hall x Hx). unfold msPerDay, msPerHour in *. lia.
Qed.

End Simulator.

(** ** The evaluator and the planner *)
Section Evaluator.

Variable H : Host.

Local Open Scope Q_scope.

Lemma mergedData_no_overlap (actuals : list Sales.t) (predictions : list Forecast.t) :
  (forall a p, In a actuals -> In p predictions -> Forecast.ds p <> Sales.ds a) ->
  mergedData actuals predictions = [].
Proof.
  unfold mergedData. induction actuals as [| a actuals IH]; intros Hno; [reflexivity |].
  cbn [map filter].
  destruct (find (fun p => String.eqb (Forecast.ds p) (Sales.ds a)) predictions)
    as [p |] eqn:Ef.
  - apply find_some in Ef. destruct Ef as [Hin Heq].
    apply String.eqb_eq in Heq. exfalso. apply (Hno a p); [left; reflexivity | assumption | assumption].
  - cbn [Merged.predicted]. apply IH. intros a' p Ha Hp. apply Hno; [right |]; assumption.
Qed.

Lemma evaluateModel_no_overlap (actuals : list Sales.t) (predictions : list Forecast.t) :
  (forall a p, In a actuals -> In p predictions -> Forecast.ds p <> Sales.ds a) ->
  evaluateModel H actuals predictions = Ok (Metrics.mk 0 0).
Proof.
  intros Hno. unfold evaluateModel. rewrite mergedData_no_overlap by assumption.
  reflexivity.
Qed.

Lemma Math_round_le (x y : Q) : x <= y -> Math_round x <= Math_round y.
Proof.
  intros Hxy. unfold Math_round. rewrite <- Zle_Qle. apply Qfloor_resp_le.
  apply Qplus_le_compat; [assumption | apply Qle_refl].
Qed.

Lemma Math_round_comp (x y : Q) : x == y -> Math_round x = Math_round y.
Proof.
  intros Hxy. unfold Math_round. f_equal. apply Qfloor_comp. rewrite Hxy. reflexivity.
Qed.

Lemma Qeq_eq_Math_round (x y : Q) : x == y -> Math_round x == Math_round y.
Proof. intros Hxy. rewrite (Math_round_comp x y Hxy). reflexivity. Qed.

(** The planner never throws: it maps every record. *)
Lemma calculateInventoryRecommendations_Ok (forecasts : list Forecast.t) (safetyFactor : Q) :
  calculateInventoryRecommendations forecasts safetyFactor
  = Ok (map (fun f => Inventory.mk (Forecast.ds f) (Forecast.yhat f)
                        (Math_round (Forecast.yhat f + Forecast.yhat f * safetyFactor)))
            forecasts).
Proof.
  unfold calculateInventoryRecommendations, Array_map. generalize 0%nat.
  induction forecasts as [| f fs IH]; intros k; [reflexivity |].
  cbn [mapi_from bind map]. rewrite IH. reflexivity.
Qed.

(** Clamping at zero and rounding commute. *)
Lemma max_round_comm (x : Q) : Math_max 0 (Math_round x) == Math_round (Math_max 0 x).
Proof.
  unfold Math_max. destruct (Qlt_le_dec x 0) as [Hneg | Hpos].
  - rewrite (Math_round_comp (Qmax 0 x) 0) by (apply Q.max_l; apply Qlt_le_weak; assumption).
    change (Math_round 0) with 0.
    apply Q.max_l. change 0 with (Math_round 0).
    apply Math_round_le. apply Qlt_le_weak; assumption.
  - rewrite (Math_round_comp (Qmax 0 x) x) by (apply Q.max_r; assumption).
    apply Q.max_r. change 0 with (Math_round 0).
    apply Math_round_le. assumption.
Qed.

End Evaluator.

(** ** The pipeline *)
Section Pipeline.

Variable H : Host.

Lemma key_readback (t : Z) :
  in_key_range t -> t mod msPerDay = 0 -> Date_parse (isoDate t) = Some t.
Proof.
  intros Rt Mt.
  rewrite Date_parse_isoDate by (auto using in_key_range_year, in_key_range_valid).
  f_equal. pose proof (Day_TimeWithinDay t) as E. unfold TimeWithinDay in E. lia.
Qed.

(** The generated series over days on which the offset does not change,
    read through its keys: as many records as days in the range, the
    [i]-th one keyed by the [i]-th day, sales clamped. *)
Lemma generate_series (c : Z) (startDateStr endDateStr : string) (ts te : Z)
      (s : Entropy H) :
  Date_parse startDateStr = Some ts -> Date_parse endDateStr = Some te -> ts <= te ->
  steady H c ts te ->
  exists (recs : list Sales.t) (s' : Entropy H),
    generateSyntheticSalesData H startDateStr endDateStr s = (Ok recs, s')
    /\ Z.of_nat (length recs) = (te - ts) / msPerDay + 1
    /\ forall i r, nth_error recs i = Some r ->
                   Date_parse (Sales.ds r) = Some (ts + Z.of_nat i * msPerDay)
                   /\ (0 <= Sales.y r)%Q.
Proof.
  intros Hs He Hle Hst.
  destruct (generate_days H c _ _ _ _ s Hs He Hst) as [sales [s' [Hg Hnn]]].
  destruct (Date_parse_Some _ _ Hs) as [Rs Ms], (Date_parse_Some _ _ He) as [Re Me].
  assert (Hq : 0 <= (te - ts) / msPerDay) by (apply Z.div_pos; unfold msPerDay; lia).
  eexists; exists s'. split; [exact Hg |]. split.
  - rewrite mapi_pure_length, day_range_length. lia.
  - intros i r Hi. apply mapi_pure_nth in Hi. destruct Hi as [t [Ht ->]].
    apply day_range_nth in Ht. destruct Ht as [-> Hi].
    cbn [Sales.ds Sales.y Nat.add]. split; [| apply Hnn].
    apply key_readback.
    + apply (in_key_range_between ts te); try assumption.
      pose proof (Z.mul_div_le (te - ts) msPerDay ltac:(unfold msPerDay; lia)).
      unfold msPerDay in *. nia.
    + rewrite Z.mod_add by (unfold msPerDay; lia). assumption.
Qed.

(** The key of an instant a day or more after a midnight reads back
    after that midnight. *)
Lemma key_after (tl x : Z) :
  in_key_range x -> tl mod msPerDay = 0 -> tl + msPerDay <= x ->
  exists t, Date_parse (isoDate x) = Some t /\ tl < t.
Proof.
  intros Rx Ml Hx. exists (Day x * msPerDay). split.
  - apply Date_parse_isoDate; [apply in_key_range_year | apply in_key_range_valid]; assumption.
  - unfold Day, msPerDay in *. Z.div_mod_to_equations. lia.
Qed.

(** The back-test of an ordered history on a gentle host, when the step
    from the last historical day is a full day: the simulator starts the
    day after the last record and never steps back, so no forecast key
    is a historical key. *)
Lemma backtest_no_overlap (historicalData : list Sales.t) (last : Sales.t) (tl : Z) :
  gentle H ->
  Array_get historicalData (Array_length historicalData - 1) = Some last ->
  Date_parse (Sales.ds last) = Some tl ->
  (forall r, In r historicalData ->
             exists t, Date_parse (Sales.ds r) = Some t /\ t <= tl) ->
  day_step H tl = msPerDay ->
  tl + (Array_length historicalData + 1) * (msPerDay + 2 * msPerHour) < TimeFromYear 10000 ->
  exists sim,
    simulateProphetForecast H historicalData (Array_length historicalData) = Ok sim
    /\ length sim = length historicalData
    /\ (forall f, In f sim -> exists t, Date_parse (Forecast.ds f) = Some t /\ tl < t)
    /\ mergedData historicalData sim = []
    /\ evaluateModel H historicalData sim = Ok (Metrics.mk 0 0).
Proof.
  intros Hg Hl Hp Hord Hstep Hr.
  assert (Hmax : tl + (Array_length historicalData + 1) * (msPerDay + 2 * msPerHour)
                 <= maxTime).
  { change (TimeFromYear 10000) with 253402300800000 in Hr. unfold maxTime. lia. }
  destruct (simulate_walk H _ _ _ _ Hg Hl Hp Hmax) as [dates [Hsim [Hlen Hall]]].
  rewrite Hstep in Hall.
  destruct (Date_parse_Some _ _ Hp) as [Rl Ml].
  eexists. split; [exact Hsim |].
  assert (Hafter : forall f,
            In f (map (forecast_at H historicalData last (Some tl)) dates) ->
            exists t, Date_parse (Forecast.ds f) = Some t /\ tl < t).
  { intros f Hf. apply in_map_iff in Hf. destruct Hf as [x [<- Hx]].
    specialize (Hall x Hx). cbn [forecast_at Forecast.ds].
    apply key_after; [| assumption | lia].
    unfold in_key_range in *. unfold msPerDay in *. lia. }
  assert (Hno : forall a p, In a historicalData ->
            In p (map (forecast_at H historicalData last (Some tl)) dates) ->
            Forecast.ds p <> Sales.ds a).
  { intros a p Ha Hin Heq. destruct (Hafter p Hin) as [t [Ht Hlt]].
    destruct (Hord a Ha) as [u [Hu Hle]]. rewrite Heq, Hu in Ht.
    assert (u = t) by congruence. lia. }
  split; [| split; [| split]].
  - rewrite length_map, Hlen. unfold Array_length. apply Nat2Z.id.
  - exact Hafter.
  - apply mergedData_no_overlap. exact Hno.
  - apply evaluateModel_no_overlap. exact Hno.
Qed.

Lemma Array_get_nth {A : Type} (xs : list A) (n : nat) :
  Array_get xs (Z.of_nat n) = nth_error xs n.
Proof.
  unfold Array_get. destruct (Z.ltb_spec (Z.of_nat n) 0); [lia |].
  rewrite Nat2Z.id. reflexivity.
Qed.

Lemma mapi_pure_at {A B : Type} (g : A -> nat -> B) (xs : list A) :
  forall k i x, nth_error xs i = Some x ->
                nth_error (mapi_pure k g xs) i = Some (g x (k + i)%nat).
Proof.
  induction xs as [| x0 xs IH]; intros k i x; [destruct i; discriminate |].
  destruct i as [| i]; cbn [nth_error mapi_pure].
  - intros [= <-]. rewrite Nat.add_0_r. reflexivity.
  - intros Hx. rewrite (IH (S k) i x Hx). do 2 f_equal. lia.
Qed.

(** On a gentle host whose offset does not change over the last days of
    2024, and whatever the entropy, the pipeline reports MAE = RMSE = 0:
    its back-test never meets the history it is scored against. *)
Lemma useEffect_scores_zero (s : Entropy H) :
  gentle H ->
  (forall t, 1735603200000 - 2 * msPerDay <= t <= 1735603200000 -> day_step H t = msPerDay) ->
  exists st s', useEffect H s = (Ok st, s') /\ mae st = 0%Q /\ rmse st = 0%Q.
Proof.
  intros Hg Hend.
  pose proof (generate_unfold H START_DATE END_DATE s) as Hgen. cbv zeta in Hgen.
  change (Date_parse START_DATE) with (Some 1640995200000) in Hgen.
  change (Date_parse END_DATE) with (Some 1735603200000) in Hgen.
  pose proof (while_dates_length H (steps_to_go (Some 1640995200000) (Some 1735603200000))
                (Some 1640995200000) (Some 1735603200000)) as Hcount.
  destruct (while_dates_walk H (steps_to_go (Some 1640995200000) (Some 1735603200000))
              1640995200000 1735603200000 Hg)
    as [dates [d [Hw [_ [Hn [Hall [_ Hd]]]]]]];
    [vm_compute; discriminate | vm_compute; discriminate | lia | apply Nat.le_refl |].
  rewrite Hw in Hgen, Hcount.
  assert (Hlen : 1 <= Z.of_nat (length dates) <= 26281).
  { split.
    - destruct dates; [discriminate | cbn [length]; lia].
    - apply Nat2Z.inj_le in Hcount. cbn [steps_to_go] in Hcount.
      rewrite Z2Nat.id in Hcount by (vm_compute; discriminate).
      change ((1735603200000 - 1640995200000) / msPerHour + 1) with 26281 in Hcount.
      exact Hcount. }
  match type of Hgen with
  | _ = (Ok (mapi_pure 0 ?g dates), ?s') =>
      set (make := g) in *; set (recs := mapi_pure 0 make dates) in *; set (s1 := s') in *
  end.
  assert (Hkey : forall x, In x dates -> in_key_range x).
  { intros x Hx. specialize (Hall x Hx). unfold in_key_range.
    change (TimeFromYear 0) with (-62167219200000).
    change (TimeFromYear 10000) with 253402300800000. lia. }
  assert (Hin : In d dates) by (apply (nth_error_In _ _ Hn)).
  assert (Hl : Array_get recs (Array_length recs - 1)
               = Some (make d (0 + (length dates - 1))%nat)).
  { unfold Array_length, recs. rewrite mapi_pure_length.
    replace (Z.of_nat (length dates) - 1) with (Z.of_nat (length dates - 1)) by lia.
    rewrite Array_get_nth. apply mapi_pure_at. exact Hn. }
  assert (Hp : Date_parse (Sales.ds (make d (0 + (length dates - 1))%nat))
               = Some (Day d * msPerDay)).
  { unfold make. cbn [Sales.ds].
    apply Date_parse_isoDate;
      [apply in_key_range_year | apply in_key_range_valid]; apply Hkey; exact Hin. }
  assert (Hlen' : Array_length recs = Z.of_nat (length dates))
    by (unfold Array_length, recs; rewrite mapi_pure_length; reflexivity).
  assert (Htl : 1735603200000 - 2 * msPerDay <= Day d * msPerDay <= 1735603200000).
  { unfold Day, msPerDay, msPerHour in *. Z.div_mod_to_equations. lia. }
  destruct (backtest_no_overlap recs _ _ Hg Hl Hp) as [sim [Hsim [_ [_ [_ Hev]]]]].
  { intros r Hr. apply In_nth_error in Hr. destruct Hr as [i Hi].
    apply mapi_pure_nth in Hi. destruct Hi as [x [Hx ->]]. apply nth_error_In in Hx.
    exists (Day x * msPerDay). unfold make. cbn [Sales.ds]. split.
    - apply Date_parse_isoDate;
        [apply in_key_range_year | apply in_key_range_valid]; apply Hkey; exact Hx.
    - specialize (Hall x Hx). unfold Day, msPerDay in *. Z.div_mod_to_equations. lia. }
  { apply Hend. exact Htl. }
  { rewrite Hlen'. change (TimeFromYear 10000) with 253402300800000.
    unfold msPerDay, msPerHour in *. lia. }
  destruct (simulate_walk H recs _ _ FORECAST_PERIOD_DAYS Hg Hl Hp)
    as [fdates [Hfut _]].
  { unfold FORECAST_PERIOD_DAYS, msPerDay, msPerHour, maxTime in *. lia. }
  unfold useEffect. rewrite Hgen. cbn [bind]. rewrite Hsim. cbn [bind]. rewrite Hev.
  cbn [bind]. rewrite Hfut. cbn [bind].
  rewrite calculateInventoryRecommendations_Ok. cbn [bind].
  eexists; exists s1. split; [reflexivity |]. split; reflexivity.
Qed.

End Pipeline.

(** ** The uncertainty band *)
Section Band.

Local Open Scope Q_scope.

(** The lower bound never exceeds the prediction. *)
Lemma band_lower (raw : Q) :
  Math_max 0 (Math_round (raw - uncertainty)) <= Math_max 0 (Math_round raw).
Proof.
  unfold Math_max. apply Q.max_le_compat_l. apply Math_round_le.
  unfold uncertainty. lra.
Qed.

(** The prediction stays under the upper bound as long as the upper bound
    itself does not round to a negative number. *)
Lemma band_upper (raw : Q) :
  - (1 # 2) <= raw + uncertainty ->
  Math_max 0 (Math_round raw) <= Math_round (raw + uncertainty).
Proof.
  intros Hr. unfold Math_max. apply Q.max_lub.
  - change 0 with (Math_round (- (1 # 2))). apply Math_round_le. assumption.
  - apply Math_round_le. unfold uncertainty. lra.
Qed.

(** Both, for the record the simulator builds. *)
Lemma forecast_at_band (H : Host) (historicalData : list Sales.t) (last : Sales.t)
      (lastHistoricalDate : Date) (t : Z) :
  let f := forecast_at H historicalData last lastHistoricalDate t in
  Forecast.yhat_lower f <= Forecast.yhat f
  /\ (- (11 # 2) <= raw_forecast H historicalData last lastHistoricalDate t ->
      Forecast.yhat f <= Forecast.yhat_upper f).
Proof.
  cbn [forecast_at Forecast.yhat_lower Forecast.yhat Forecast.yhat_upper]. split.
  - apply band_lower.
  - intros Hr. apply band_upper. unfold uncertainty. lra.
Qed.

(** On the falling history the band is broken on every host whose offset
    does not change on 2024-01-02 and whose sine, at the one argument
    the forecast uses, lies in [[-1, 1]]. *)
Lemma falling_history_breaks_band (H : Host) (c : Z) :
  steady H c 1704153600000 (1704153600000 + 1 * msPerDay) ->
  - (1) <= Math_sin H (dayOfYear H 1704240000000 * (2 * Math_PI H / 365)) <= 1 ->
  let f := forecast_at H history_falling (Sales.mk "2024-01-02" 0)
             (Some 1704153600000%Z) 1704240000000 in
  simulateProphetForecast H history_falling 1 = Ok [f]
  /\ Forecast.yhat_upper f <= - (20) /\ 0 <= Forecast.yhat f.
Proof.
  intros Hst Hsin. cbv zeta. split; [| split].
  - rewrite (simulate_days H c history_falling (Sales.mk "2024-01-02" 0) 1704153600000 1);
      [reflexivity | reflexivity | reflexivity | exact Hst | unfold msPerDay, maxTime; lia].
  - cbn [forecast_at Forecast.yhat_upper].
    change (- (20)) with (Math_round (- (20))). apply Math_round_le.
    unfold raw_forecast, yearlySeasonality, uncertainty.
    assert (Et : Sales.y (Sales.mk "2024-01-02" 0)
                 + Date_sub (Some 1704240000000%Z) (Some 1704153600000%Z)
                   / inject_Z (1000 * 60 * 60 * 24)
                   * slope_of history_falling * (1 # 10) == - (50)) by reflexivity.
    rewrite Et.
    assert (Hw : weeklySeasonality H 1704240000000 <= 15).
    { unfold weeklySeasonality. cbv zeta.
      destruct ((getDay H 1704240000000 =? 0) || (getDay H 1704240000000 =? 6))%bool;
        discriminate. }
    lra.
  - cbn [forecast_at Forecast.yhat]. apply Q.le_max_l.
Qed.

End Band.

(** ** Runs on the reference host *)
Section Runs.

Example Date_parse_2024 : Date_parse "2024-01-01" = Some 1704067200000.
Proof. reflexivity. Qed.

Example Date_parse_leap_day : Date_parse "2024-02-29" = Some 1709164800000.
Proof. reflexivity. Qed.

Example toISOString_2024 :
  toISOString (Some 1704067200000) = Ok "2024-01-01T00:00:00.000Z"%string.
Proof. reflexivity. Qed.

Example isoDate_before_epoch : isoDate (-1) = "1969-12-31"%string.
Proof. reflexivity. Qed.

Example ISO_string_year_10000 :
  ISO_string 253402300800000 = "+010000-01-01T00:00:00.000Z"%string.
Proof. reflexivity. Qed.

Example getDay_saturday : getDay RefHost.utc 1704499200000 = 6.
Proof. reflexivity. Qed.

Example dayOfYear_new_year : (dayOfYear RefHost.ist 1704067200000 == 1)%Q.
Proof. reflexivity. Qed.

Example generate_five_days :
  generateSyntheticSalesData RefHost.utc "2024-01-01" "2024-01-05" 42
  = (Ok [Sales.mk "2024-01-01" 101; Sales.mk "2024-01-02" 111; Sales.mk "2024-01-03" 120;
         Sales.mk "2024-01-04" 133; Sales.mk "2024-01-05" 140],
     908095735).
Proof. vm_compute. reflexivity. Qed.

(** Across the start of daylight saving the Eastern host repeats a key:
    the local step from 2024-03-10 is 23 hours long. *)
Example simulate_across_dst :
  exists sim,
    simulateProphetForecast RefHost.new_york [Sales.mk "2024-03-08" 100] 4 = Ok sim
    /\ map Forecast.ds sim = ["2024-03-09"; "2024-03-10"; "2024-03-10"; "2024-03-11"]%string.
Proof. eexists. split; [vm_compute; reflexivity | reflexivity]. Qed.

Example day_step_across_dst :
  day_step RefHost.new_york 1710028800000 = 23 * msPerHour
  /\ day_step RefHost.new_york 1730592000000 = 25 * msPerHour.
Proof. split; reflexivity. Qed.

Example evaluate_ten_off :
  evaluateModel RefHost.utc [Sales.mk "2024-01-01" 100]
    [Forecast.mk "2024-01-01" 90 85 95 90 0 0]
  = Ok (Metrics.mk 10 10).
Proof. vm_compute. reflexivity. Qed.

End Runs.

(** ** Rounding *)
Section Rounding.

Local Open Scope Q_scope.

Lemma Math_round_bounds (x : Q) : x - (1 # 2) < Math_round x /\ Math_round x <= x + (1 # 2).
Proof.
  unfold Math_round. split.
  - pose proof (Qlt_floor (x + (1 # 2))) as Hlt.
    rewrite inject_Z_plus in Hlt. change (inject_Z 1) with 1 in Hlt. lra.
  - apply Qfloor_le.
Qed.

Lemma Math_round_integer (x : Q) : is_integer (Math_round x).
Proof. eexists; reflexivity. Qed.

Lemma Math_round_inject_Z (z : Z) : Math_round (inject_Z z) = inject_Z z.
Proof.
  unfold Math_round. f_equal.
  assert (Hlo : (z <= Qfloor (inject_Z z + (1 # 2)))%Z).
  { rewrite <- (Qfloor_Z z) at 1. apply Qfloor_resp_le. lra. }
  assert (Hhi : (Qfloor (inject_Z z + (1 # 2)) < z + 1)%Z).
  { rewrite Zlt_Qlt. apply Qle_lt_trans with (inject_Z z + (1 # 2)); [apply Qfloor_le |].
    rewrite inject_Z_plus. change (inject_Z 1) with 1. lra. }
  lia.
Qed.

Lemma clamp_integer (x : Q) : is_integer (Math_max 0 (Math_round x)).
Proof.
  unfold Math_max, Qmax, GenericMinMax.gmax.
  destruct (0 ?= Math_round x); [exists 0%Z | eexists | exists 0%Z]; reflexivity.
Qed.

End Rounding.

(** ** The reference hosts *)
Section Hosts.

Local Open Scope Z_scope.

Lemma YearFromTime_within (y t : Z) :
  TimeFromYear y <= t < TimeFromYear (y + 1) -> YearFromTime t = y.
Proof.
  intros Ht. unfold YearFromTime. apply YearFromDay_unique.
  unfold TimeFromYear, Day, msPerDay in *. Z.div_mod_to_equations. lia.
Qed.

(** In 2024 the Eastern host is on daylight time from 2024-03-10T07:00Z
    to 2024-11-03T06:00Z. *)
Lemma eastern_2024 (t : Z) (isUTC : bool) :
  1704067200000 <= t < 1735689600000 ->
  RefHost.eastern t isUTC
  = if isUTC then
      if (1710054000000 <=? t) && (t <? 1730613600000) then -14400000 else -18000000
    else
      if (1710039600000 <=? t) && (t <? 1730599200000) then -14400000 else -18000000.
Proof.
  intros Ht. unfold RefHost.eastern; cbv zeta.
  rewrite (YearFromTime_within 2024 t) by exact Ht. reflexivity.
Qed.

(** Before the daylight-saving period of 2024 the Eastern host is on
    standard time, and after it again. *)
Lemma eastern_standard_before (H : Host) (a b : Z) :
  LocalTZA H = RefHost.eastern ->
  1704067200000 <= a -> b < 1709971200000 -> steady H (-18000000) a b.
Proof.
  intros Hz Ha Hb t Ht. rewrite Hz.
  rewrite !eastern_2024 by (unfold msPerDay; lia). unfold msPerDay.
  destruct (Z.leb_spec 1710054000000 t); [lia |].
  destruct (Z.leb_spec 1710039600000 (t + -18000000 + 86400000)); [lia |].
  split; reflexivity.
Qed.

Lemma eastern_standard_after (H : Host) (a b : Z) :
  LocalTZA H = RefHost.eastern ->
  1730613600000 <= a -> b < 1735621200000 -> steady H (-18000000) a b.
Proof.
  intros Hz Ha Hb t Ht. rewrite Hz.
  rewrite !eastern_2024 by (unfold msPerDay; lia). unfold msPerDay.
  destruct (Z.ltb_spec t 1730613600000); [lia |].
  destruct (Z.ltb_spec (t + -18000000 + 86400000) 1730599200000); [lia |].
  rewrite !andb_false_r. split; reflexivity.
Qed.

Lemma eastern_gentle (H : Host) : LocalTZA H = RefHost.eastern -> gentle H.
Proof.
  intros Hz t. unfold day_step, LocalTime. rewrite Hz.
  unfold RefHost.eastern; cbv zeta.
  repeat match goal with
         | |- context [if ?b && ?b' then _ else _] => destruct (b && b')
         end; unfold msPerDay, msPerHour; lia.
Qed.

End Hosts.

(** * The claims *)

Local Open Scope Q_scope.

(** C1: the back-test [simulateProphetForecast(historical, historical.length)]
    is meant to cover the historical span.  On the two-day history keyed
    2024-01-01 and 2024-01-02, on every host whose offset does not change
    over the two days that follow, the code returns records keyed
    2024-01-03 and 2024-01-04 instead: none of them carries a historical
    key. *)
Theorem backtest_keys_follow_history (H : Host) (c : Z) :
  steady H c 1704153600000 (1704153600000 + Array_length history_two_days * msPerDay)%Z ->
  exists sim,
    simulateProphetForecast H history_two_days (Array_length history_two_days) = Ok sim
    /\ map Forecast.ds sim = ["2024-01-03"; "2024-01-04"]%string
    /\ map Sales.ds history_two_days = ["2024-01-01"; "2024-01-02"]%string.
Proof.
  intros Hst. eexists. split.
  - apply (simulate_days H c history_two_days (Sales.mk "2024-01-02" 110) 1704153600000);
      [reflexivity | reflexivity | exact Hst | unfold msPerDay, maxTime; cbn; lia].
  - split; reflexivity.
Qed.

Lemma backtest_keys_follow_history_witness :
  exists sim,
    simulateProphetForecast RefHost.new_york history_two_days (Array_length history_two_days)
    = Ok sim
    /\ map Forecast.ds sim = ["2024-01-03"; "2024-01-04"]%string
    /\ map Sales.ds history_two_days = ["2024-01-01"; "2024-01-02"]%string.
Proof.
  apply (backtest_keys_follow_history RefHost.new_york (-18000000)).
  apply eastern_standard_before; [reflexivity | discriminate | reflexivity].
Defined.

(** C3: the band [yhat_lower <= yhat <= yhat_upper].  The code clamps
    [yhat] and [yhat_lower] at zero but not [yhat_upper]: for the history
    falling from 1000 to 0 the one-day forecast has [yhat = 0] above
    [yhat_upper = -44]. *)
Theorem upper_bound_below_prediction :
  exists r,
    simulateProphetForecast RefHost.utc history_falling 1 = Ok [r]
    /\ Forecast.ds r = "2024-01-03"%string
    /\ Forecast.yhat_lower r = 0
    /\ Forecast.yhat r = 0
    /\ Forecast.yhat_upper r = -44
    /\ Forecast.yhat_upper r < Forecast.yhat r.
Proof.
  exists (Forecast.mk "2024-01-03" 0 0 (-44) (-50) 1 0).
  split; [vm_compute; reflexivity |]. repeat split.
Qed.

(** C4 (as stated, refuted): with the start after the end the generator
    throws nothing; it returns the empty series. *)
Lemma generate_inverted_range_returns :
  fst (generateSyntheticSalesData RefHost.utc "2024-01-02" "2024-01-01" 7%Z) = Ok []
  /\ ~ (exists e, fst (generateSyntheticSalesData RefHost.utc "2024-01-02" "2024-01-01" 7%Z)
                  = Throw e).
Proof.
  split; [reflexivity |]. intros [e He]. vm_compute in He. discriminate.
Qed.

(** C4 (amended): for every pair of valid dates with the start after the
    end, the generator returns the empty series and draws no random
    number. *)
Theorem generate_inverted_range_empty (H : Host) (startDateStr endDateStr : string)
        (ts te : Z) (s : Entropy H) :
  Date_parse startDateStr = Some ts -> Date_parse endDateStr = Some te -> (te < ts)%Z ->
  generateSyntheticSalesData H startDateStr endDateStr s = (Ok [], s).
Proof.
  intros Hs He Hlt. unfold generateSyntheticSalesData. rewrite Hs, He. cbv zeta.
  rewrite while_dates_past by assumption. reflexivity.
Qed.

Lemma generate_inverted_range_empty_witness :
  generateSyntheticSalesData RefHost.ist "2024-03-01" "2024-02-29" 7%Z = (Ok [], 7%Z).
Proof.
  apply (generate_inverted_range_empty RefHost.ist "2024-03-01" "2024-02-29"
           1709251200000 1709164800000); [reflexivity | reflexivity | lia].
Defined.

(** C5 (as stated, refuted): with an empty history and a horizon of one
    day the simulator does fail, but with the TypeError the runtime
    raises when [ds] is read from [undefined], not with an
    EmptyHistoryError. *)
Lemma simulate_empty_history_type_error :
  simulateProphetForecast RefHost.utc [] 1 = Throw TypeError
  /\ simulateProphetForecast RefHost.utc [] 1 <> Throw (UserError "EmptyHistoryError").
Proof. split; [reflexivity | discriminate]. Qed.

(** C5 (amended): with an empty history the simulator fails with a
    TypeError at every horizon, positive or not:
    [historicalData[historicalData.length - 1]] is [undefined] and
    reading its [ds] throws before the horizon is looked at. *)
Theorem simulate_empty_history_fails (H : Host) (horizonDays : Z) :
  simulateProphetForecast H [] horizonDays = Throw TypeError.
Proof. reflexivity. Qed.

(** C6 (as stated, refuted): with a negative safety factor the planner
    throws nothing; it returns a recommendation below the prediction. *)
Lemma plan_negative_factor_returns :
  calculateInventoryRecommendations [Forecast.mk "2024-01-01" 100 95 105 100 0 0] (- (1 # 2))
  = Ok [Inventory.mk "2024-01-01" 100 50]
  /\ ~ (exists e,
          calculateInventoryRecommendations
            [Forecast.mk "2024-01-01" 100 95 105 100 0 0] (- (1 # 2)) = Throw e).
Proof.
  split; [reflexivity |]. intros [e He]. vm_compute in He. discriminate.
Qed.

(** C6 (amended): for every forecast and every negative safety factor the
    planner returns one recommendation per forecast record, in order,
    with the record's [ds] and [yhat]; the recommended stock is an
    integer, and for a prediction that is a non-negative integer it is at
    most the prediction. *)
Theorem plan_negative_factor (forecasts : list Forecast.t) (safetyFactor : Q) :
  safetyFactor < 0 ->
  exists recs,
    calculateInventoryRecommendations forecasts safetyFactor = Ok recs
    /\ Forall2 (fun f r =>
                  Inventory.ds r = Forecast.ds f
                  /\ Inventory.yhat r = Forecast.yhat f
                  /\ is_integer (Inventory.recommended_inventory r)
                  /\ (is_integer (Forecast.yhat f) -> 0 <= Forecast.yhat f ->
                      Inventory.recommended_inventory r <= Forecast.yhat f))
               forecasts recs.
Proof.
  intros Hneg. rewrite calculateInventoryRecommendations_Ok.
  eexists. split; [reflexivity |].
  induction forecasts as [| f fs IH]; cbn [map]; constructor; [| exact IH].
  cbn [Inventory.ds Inventory.yhat Inventory.recommended_inventory].
  split; [reflexivity |]. split; [reflexivity |]. split; [eexists; reflexivity |].
  intros [z Hz] Hnn. rewrite Hz at 3. rewrite <- (Math_round_inject_Z z).
  apply Math_round_le. rewrite <- Hz.
  assert (Hnf : 0 <= - safetyFactor) by lra.
  pose proof (Qmult_le_0_compat _ _ Hnn Hnf) as Hprod.
  lra.
Qed.

Lemma plan_negative_factor_witness :
  exists recs,
    calculateInventoryRecommendations
      [Forecast.mk "2024-01-01" 100 95 105 100 0 0; Forecast.mk "2024-01-02" 7 2 12 7 0 0]
      (- (1 # 4)) = Ok recs
    /\ Forall2 (fun f r =>
                  Inventory.ds r = Forecast.ds f
                  /\ Inventory.yhat r = Forecast.yhat f
                  /\ is_integer (Inventory.recommended_inventory r)
                  /\ (is_integer (Forecast.yhat f) -> 0 <= Forecast.yhat f ->
                      Inventory.recommended_inventory r <= Forecast.yhat f))
               [Forecast.mk "2024-01-01" 100 95 105 100 0 0;
                Forecast.mk "2024-01-02" 7 2 12 7 0 0] recs.
Proof.
  apply (plan_negative_factor
           [Forecast.mk "2024-01-01" 100 95 105 100 0 0; Forecast.mk "2024-01-02" 7 2 12 7 0 0]
           (- (1 # 4))).
  reflexivity.
Defined.

(** C7: one record per calendar day of the range, keyed by consecutive
    dates.  The loop steps the date in local time ([getDate], [setDate])
    and prints it in UTC ([toISOString]), and the two disagree where the
    offset changes.  On the host on US Eastern time, whatever the
    entropy, the range 2024-03-08 .. 2024-03-12 yields the keys 03-08,
    03-09, 03-10, 03-10, 03-11, one date twice and the end date missing,
    and the range 2024-11-01 .. 2024-11-05 yields four records, the last
    keyed 11-04. *)
Theorem generate_repeats_and_drops_days (s : Z) :
  (exists recs s',
      generateSyntheticSalesData RefHost.new_york "2024-03-08" "2024-03-12" s = (Ok recs, s')
      /\ map Sales.ds recs
         = ["2024-03-08"; "2024-03-09"; "2024-03-10"; "2024-03-10"; "2024-03-11"]%string)
  /\ (exists recs s',
        generateSyntheticSalesData RefHost.new_york "2024-11-01" "2024-11-05" s = (Ok recs, s')
        /\ map Sales.ds recs
           = ["2024-11-01"; "2024-11-02"; "2024-11-03"; "2024-11-04"]%string).
Proof.
  split.
  - pose proof (generate_unfold RefHost.new_york "2024-03-08" "2024-03-12" s) as Hg.
    cbv zeta in Hg. eexists; eexists. split; [exact Hg |].
    rewrite mapi_pure_keys. vm_compute. reflexivity.
  - pose proof (generate_unfold RefHost.new_york "2024-11-01" "2024-11-05" s) as Hg.
    cbv zeta in Hg. eexists; eexists. split; [exact Hg |].
    rewrite mapi_pure_keys. vm_compute. reflexivity.
Qed.

(** C8: for a forecast without negative predictions the planner is
    monotonic in the safety factor: with [0 <= f1 <= f2] both runs return,
    and record by record the stock recommended with [f2] is at least the
    stock recommended with [f1]. *)
Theorem plan_monotone (forecasts : list Forecast.t) (f1 f2 : Q) :
  (forall f, In f forecasts -> 0 <= Forecast.yhat f) ->
  0 <= f1 -> f1 <= f2 ->
  exists r1 r2,
    calculateInventoryRecommendations forecasts f1 = Ok r1
    /\ calculateInventoryRecommendations forecasts f2 = Ok r2
    /\ Forall2 (fun a b =>
                  Inventory.ds a = Inventory.ds b
                  /\ Inventory.recommended_inventory a <= Inventory.recommended_inventory b)
               r1 r2.
Proof.
  intros Hnn _ Hle. rewrite !calculateInventoryRecommendations_Ok.
  eexists; eexists. split; [reflexivity |]. split; [reflexivity |].
  induction forecasts as [| f fs IH]; cbn [map]; constructor.
  - cbn [Inventory.ds Inventory.recommended_inventory]. split; [reflexivity |].
    apply Math_round_le. apply Qplus_le_r.
    rewrite (Qmult_comm _ f1), (Qmult_comm _ f2).
    apply Qmult_le_compat_r; [assumption | apply Hnn; left; reflexivity].
  - apply IH. intros f' Hf'. apply Hnn. right; assumption.
Qed.

Lemma plan_monotone_witness :
  exists r1 r2,
    calculateInventoryRecommendations [Forecast.mk "2024-01-01" 100 95 105 100 0 0] (1 # 10)
    = Ok r1
    /\ calculateInventoryRecommendations [Forecast.mk "2024-01-01" 100 95 105 100 0 0] (2 # 10)
       = Ok r2
    /\ Forall2 (fun a b =>
                  Inventory.ds a = Inventory.ds b
                  /\ Inventory.recommended_inventory a <= Inventory.recommended_inventory b)
               r1 r2.
Proof.
  apply (plan_monotone [Forecast.mk "2024-01-01" 100 95 105 100 0 0] (1 # 10) (2 # 10)).
  - intros f [<- | []]. cbn. discriminate.
  - discriminate.
  - discriminate.
Defined.

(** C9: when no date of [actual] is a date of [predicted], the inner join
    is empty and the evaluator returns [{mae: 0, rmse: 0}] without
    failing. *)
Theorem evaluate_no_overlap (H : Host) (actual : list Sales.t) (predicted : list Forecast.t) :
  (forall a p, In a actual -> In p predicted -> Forecast.ds p <> Sales.ds a) ->
  mergedData actual predicted = []
  /\ evaluateModel H actual predicted = Ok (Metrics.mk 0 0).
Proof.
  intros Hno. split.
  - apply mergedData_no_overlap; assumption.
  - apply evaluateModel_no_overlap; assumption.
Qed.

Lemma evaluate_no_overlap_witness :
  mergedData history_two_days [Forecast.mk "2024-01-03" 111 106 116 111 0 0] = []
  /\ evaluateModel RefHost.utc history_two_days [Forecast.mk "2024-01-03" 111 106 116 111 0 0]
     = Ok (Metrics.mk 0 0).
Proof.
  apply (evaluate_no_overlap RefHost.utc history_two_days
           [Forecast.mk "2024-01-03" 111 106 116 111 0 0]).
  intros a p [<- | [<- | []]] [<- | []]; discriminate.
Defined.






(** * Further properties of the code *)

(** ** More on the forecast simulator *)
Section SimulatorResults.

Variable H : Host.

Local Open Scope Q_scope.

Lemma mapi_from_Ok_In {A B : Type} (f : A -> nat -> result B) (xs : list A) :
  forall k ys, mapi_from k f xs = Ok ys ->
  forall y, In y ys -> exists x i, In x xs /\ f x i = Ok y.
Proof.
  induction xs as [| x xs IH]; intros k ys; cbn [mapi_from].
  - intros [= <-] y [].
  - destruct (f x k) as [b | e] eqn:Ef; cbn [bind]; [| discriminate].
    destruct (mapi_from (S k) f xs) as [bs | e] eqn:Em; cbn [bind]; [| discriminate].
    intros [= <-] y [<- | Hin].
    + exists x, k. split; [left; reflexivity | assumption].
    + destruct (IH _ _ Em y Hin) as [x' [i [Hx Hf]]].
      exists x', i. split; [right; assumption | assumption].
Qed.

(** What the callback returns when it returns. *)
Lemma forecast_of_Ok (historicalData : list Sales.t) (lastHistoricalDate date : Date)
      (f : Forecast.t) :
  forecast_of H historicalData lastHistoricalDate date = Ok f ->
  exists t simTrend,
    date = Some t
    /\ simulatedTrend historicalData lastHistoricalDate date = Ok simTrend
    /\ f = Forecast.mk (isoDate t)
             (Math_max 0 (Math_round (simTrend + yearlySeasonality H t + weeklySeasonality H t)))
             (Math_max 0 (Math_round (simTrend + yearlySeasonality H t + weeklySeasonality H t
                                      - uncertainty)))
             (Math_round (simTrend + yearlySeasonality H t + weeklySeasonality H t + uncertainty))
             (Math_round simTrend)
             (Math_round (yearlySeasonality H t))
             (Math_round (weeklySeasonality H t)).
Proof.
  unfold forecast_of. destruct date as [t |]; cbn [toISOString bind]; [| discriminate].
  destruct (simulatedTrend historicalData lastHistoricalDate (Some t)) as [tr | e];
    cbn [bind]; [| discriminate].
  intros [= <-]. exists t, tr. repeat split.
Qed.

Lemma simulate_Ok_In (historicalData : list Sales.t) (forecastPeriods : Z)
      (sim : list Forecast.t) (f : Forecast.t) :
  simulateProphetForecast H historicalData forecastPeriods = Ok sim -> In f sim ->
  exists lastHistoricalDate date, forecast_of H historicalData lastHistoricalDate date = Ok f.
Proof.
  unfold simulateProphetForecast.
  destruct (prop (Array_get historicalData (Array_length historicalData - 1)) Sales.ds)
    as [lastDs | e]; cbn [bind]; [| discriminate].
  unfold Array_map. intros Hm Hin.
  destruct (mapi_from_Ok_In _ _ _ _ Hm f Hin) as [date [i [_ Hf]]].
  eauto.
Qed.

Lemma slope_of_many (historicalData : list Sales.t) (first last : Sales.t) :
  Array_get historicalData 0 = Some first ->
  Array_get historicalData (Array_length historicalData - 1) = Some last ->
  slope_of historicalData
  = if (1 <? Array_length historicalData)%Z
    then (Sales.y last - Sales.y first) / inject_Z (Array_length historicalData)
    else 0.
Proof.
  intros H0 Hl. unfold slope_of, historicalTrendEnd. rewrite H0, Hl.
  destruct (1 <? Array_length historicalData)%Z; reflexivity.
Qed.

End SimulatorResults.

Local Open Scope Q_scope.

(** X1: with a horizon of zero (or a negative one) the simulator returns
    the empty forecast for every non-empty history, whatever its keys. *)
Theorem simulate_no_horizon (H : Host) (historicalData : list Sales.t) (last : Sales.t)
        (forecastPeriods : Z) :
  Array_get historicalData (Array_length historicalData - 1) = Some last ->
  (forecastPeriods <= 0)%Z ->
  simulateProphetForecast H historicalData forecastPeriods = Ok [].
Proof.
  intros Hl Hn. unfold simulateProphetForecast. rewrite Hl. cbn [prop bind].
  replace (Z.to_nat forecastPeriods) with O by lia. reflexivity.
Qed.

Lemma simulate_no_horizon_witness :
  simulateProphetForecast RefHost.ist [Sales.mk "2024-01-01" 3; Sales.mk "someday" 5] (-2)
  = Ok [].
Proof.
  apply (simulate_no_horizon RefHost.ist [Sales.mk "2024-01-01" 3; Sales.mk "someday" 5]
           (Sales.mk "someday" 5) (-2)); [reflexivity | lia].
Defined.

(** The keys of a forecast over days on which the offset does not
    change: the days after the last historical day. *)
Lemma simulate_keys (H : Host) (c : Z) (historicalData : list Sales.t) (last : Sales.t)
        (tl : Z) (forecastPeriods : Z) :
  Array_get historicalData (Array_length historicalData - 1) = Some last ->
  Date_parse (Sales.ds last) = Some tl ->
  (0 <= forecastPeriods)%Z ->
  (tl + forecastPeriods * msPerDay < TimeFromYear 10000)%Z ->
  steady H c tl (tl + forecastPeriods * msPerDay)%Z ->
  exists sim,
    simulateProphetForecast H historicalData forecastPeriods = Ok sim
    /\ Z.of_nat (length sim) = forecastPeriods
    /\ forall i f, nth_error sim i = Some f ->
         Date_parse (Forecast.ds f) = Some (tl + (Z.of_nat i + 1) * msPerDay)%Z.
Proof.
  intros Hl Hp Hn Hr Hst.
  assert (Hmax : (tl + forecastPeriods * msPerDay <= maxTime)%Z).
  { change (TimeFromYear 10000) with 253402300800000%Z in Hr. unfold maxTime. lia. }
  destruct (Date_parse_Some _ _ Hp) as [Rl Ml].
  eexists. split; [apply (simulate_days H c _ _ _ _ Hl Hp Hst Hmax) |]. split.
  - rewrite length_map, day_range_length. lia.
  - intros i f Hi. rewrite nth_error_map in Hi.
    destruct (nth_error (day_range (tl + msPerDay) (Z.to_nat forecastPeriods)) i)
      as [t |] eqn:Et; [| discriminate].
    injection Hi as <-. apply day_range_nth in Et. destruct Et as [-> Hi].
    cbn [forecast_at Forecast.ds].
    replace (tl + (Z.of_nat i + 1) * msPerDay)%Z
      with (tl + msPerDay + Z.of_nat i * msPerDay)%Z by lia.
    apply key_readback.
    + unfold in_key_range in *. unfold msPerDay in *. lia.
    + rewrite Z.mod_add by (unfold msPerDay; lia).
      rewrite <- Z.add_mod_idemp_l, Ml by (unfold msPerDay; lia). reflexivity.
Qed.

(** X3: for a history whose last key is a date, over days on which the
    host's offset does not change, the simulator returns exactly
    [forecastPeriods] records and the record at position [i] is keyed
    by the day [i + 1] days after the last historical day (keys within
    four-digit years). *)
Theorem simulate_following_days (H : Host) (c : Z) (historicalData : list Sales.t)
        (last : Sales.t) (tl : Z) (forecastPeriods : Z) :
  Array_get historicalData (Array_length historicalData - 1) = Some last ->
  Date_parse (Sales.ds last) = Some tl ->
  (0 <= forecastPeriods)%Z ->
  (tl + forecastPeriods * msPerDay < TimeFromYear 10000)%Z ->
  steady H c tl (tl + forecastPeriods * msPerDay)%Z ->
  exists sim,
    simulateProphetForecast H historicalData forecastPeriods = Ok sim
    /\ Z.of_nat (length sim) = forecastPeriods
    /\ forall i f, nth_error sim i = Some f ->
         Date_parse (Forecast.ds f) = Some (tl + (Z.of_nat i + 1) * msPerDay)%Z.
Proof. apply simulate_keys. Qed.

Lemma simulate_following_days_witness :
  exists sim,
    simulateProphetForecast RefHost.new_york history_two_days 3 = Ok sim
    /\ Z.of_nat (length sim) = 3%Z
    /\ forall i f, nth_error sim i = Some f ->
         Date_parse (Forecast.ds f) = Some (1704153600000 + (Z.of_nat i + 1) * msPerDay)%Z.
Proof.
  apply (simulate_following_days RefHost.new_york (-18000000) history_two_days
           (Sales.mk "2024-01-02" 110) 1704153600000 3);
    [reflexivity | reflexivity | lia | vm_compute; reflexivity |].
  apply eastern_standard_before; [reflexivity | discriminate | reflexivity].
Defined.

(** X28: on a gentle host, with or without daylight saving, for a
    history whose last key is a date, the simulator returns exactly
    [forecastPeriods] records and never forecasts into the past: every
    record is keyed by the last historical date or a later one (dates
    valid and keys within four-digit years). *)
Theorem simulate_count (H : Host) (historicalData : list Sales.t) (last : Sales.t)
        (tl : Z) (forecastPeriods : Z) :
  gentle H ->
  Array_get historicalData (Array_length historicalData - 1) = Some last ->
  Date_parse (Sales.ds last) = Some tl ->
  (0 <= forecastPeriods)%Z ->
  (tl + (forecastPeriods + 1) * (msPerDay + 2 * msPerHour) < TimeFromYear 10000)%Z ->
  exists sim,
    simulateProphetForecast H historicalData forecastPeriods = Ok sim
    /\ Z.of_nat (length sim) = forecastPeriods
    /\ forall f, In f sim -> exists t, Date_parse (Forecast.ds f) = Some t /\ (tl <= t)%Z.
Proof.
  intros Hg Hl Hp Hn Hr.
  assert (Hmax : (tl + (forecastPeriods + 1) * (msPerDay + 2 * msPerHour) <= maxTime)%Z).
  { change (TimeFromYear 10000) with 253402300800000%Z in Hr. unfold maxTime. lia. }
  destruct (simulate_walk H _ _ _ _ Hg Hl Hp Hmax) as [dates [Hsim [Hlen Hall]]].
  destruct (Date_parse_Some _ _ Hp) as [Rl Ml].
  pose proof (gentle_step H tl Hg) as Hstep.
  exists (map (forecast_at H historicalData last (Some tl)) dates).
  split; [exact Hsim |]. split; [rewrite length_map, Hlen; lia |].
  intros f Hin. apply in_map_iff in Hin. destruct Hin as [x [<- Hx]].
  specialize (Hall x Hx). cbn [forecast_at Forecast.ds].
  exists (Day x * msPerDay)%Z. split.
  - apply Date_parse_isoDate; [apply in_key_range_year | apply in_key_range_valid];
      unfold in_key_range in *; unfold msPerDay, msPerHour in *; lia.
  - unfold Day, msPerDay, msPerHour in *. Z.div_mod_to_equations. lia.
Qed.

Lemma simulate_count_witness :
  exists sim,
    simulateProphetForecast RefHost.new_york
      [Sales.mk "2024-03-09" 100; Sales.mk "2024-03-10" 110] 90 = Ok sim
    /\ Z.of_nat (length sim) = 90%Z
    /\ forall f, In f sim ->
         exists t, Date_parse (Forecast.ds f) = Some t /\ (1710028800000 <= t)%Z.
Proof.
  apply (simulate_count RefHost.new_york [Sales.mk "2024-03-09" 100; Sales.mk "2024-03-10" 110]
           (Sales.mk "2024-03-10" 110) 1710028800000 90).
  - apply eastern_gentle. reflexivity.
  - reflexivity.
  - reflexivity.
  - lia.
  - vm_compute. reflexivity.
Defined.

(** X4: a history whose first and last sales are equal, a single-record
    history in particular, gets a flat trend: every record the simulator
    returns carries the rounded last sale as its [trend], at every
    horizon and on every host. *)
Theorem simulate_trend_flat (H : Host) (historicalData : list Sales.t)
        (first last : Sales.t) (forecastPeriods : Z) (sim : list Forecast.t)
        (f : Forecast.t) :
  Array_get historicalData 0 = Some first ->
  Array_get historicalData (Array_length historicalData - 1) = Some last ->
  Sales.y first == Sales.y last ->
  simulateProphetForecast H historicalData forecastPeriods = Ok sim -> In f sim ->
  Forecast.trend f = Math_round (Sales.y last).
Proof.
  intros H0 Hl Heq Hs Hin.
  destruct (simulate_Ok_In H _ _ _ _ Hs Hin) as [ld [date Hf]].
  destruct (forecast_of_Ok H _ _ _ _ Hf) as [t [tr [_ [Htr ->]]]].
  cbn [Forecast.trend]. apply Math_round_comp.
  unfold simulatedTrend, historicalTrendEnd in Htr. rewrite H0, Hl in Htr.
  assert (Hflat : (Sales.y last - Sales.y first) / inject_Z (Array_length historicalData) == 0).
  { unfold Qdiv. setoid_replace (Sales.y last - Sales.y first) with 0 by (rewrite Heq; ring).
    ring. }
  destruct (1 <? Array_length historicalData)%Z; cbn [prop bind] in Htr;
    match type of Htr with Ok ?v = Ok _ => assert (E : tr = v) by congruence end;
    rewrite E; [rewrite Hflat |]; ring.
Qed.

Lemma simulate_trend_flat_witness :
  Forecast.trend (Forecast.mk "2024-01-02" 100 95 105 100 0 0)
  = Math_round (Sales.y (Sales.mk "2024-01-01" 100)).
Proof.
  apply (simulate_trend_flat RefHost.utc history_one_day (Sales.mk "2024-01-01" 100)
           (Sales.mk "2024-01-01" 100) 1 [Forecast.mk "2024-01-02" 100 95 105 100 0 0]).
  - reflexivity.
  - reflexivity.
  - reflexivity.
  - vm_compute. reflexivity.
  - left. reflexivity.
Defined.

(** X5: every record the simulator returns, for any history and horizon,
    has [yhat >= 0], [yhat_lower >= 0] and [yhat_lower <= yhat], and all
    its six numbers are integers. *)
Theorem simulate_fields (H : Host) (historicalData : list Sales.t) (forecastPeriods : Z)
        (sim : list Forecast.t) (f : Forecast.t) :
  simulateProphetForecast H historicalData forecastPeriods = Ok sim -> In f sim ->
  0 <= Forecast.yhat f /\ 0 <= Forecast.yhat_lower f
  /\ Forecast.yhat_lower f <= Forecast.yhat f
  /\ is_integer (Forecast.yhat f) /\ is_integer (Forecast.yhat_lower f)
  /\ is_integer (Forecast.yhat_upper f) /\ is_integer (Forecast.trend f)
  /\ is_integer (Forecast.yearly_seasonality f)
  /\ is_integer (Forecast.weekly_seasonality f).
Proof.
  intros Hs Hin.
  destruct (simulate_Ok_In H _ _ _ _ Hs Hin) as [ld [date Hf]].
  destruct (forecast_of_Ok H _ _ _ _ Hf) as [t [tr [_ [_ ->]]]].
  cbn [Forecast.yhat Forecast.yhat_lower Forecast.yhat_upper Forecast.trend
       Forecast.yearly_seasonality Forecast.weekly_seasonality].
  repeat split;
    try apply Q.le_max_l; try apply band_lower;
    try apply clamp_integer; apply Math_round_integer.
Qed.

Lemma simulate_fields_witness :
  let f := Forecast.mk "2024-01-03" 0 0 (-44) (-50) 1 0 in
  0 <= Forecast.yhat f /\ 0 <= Forecast.yhat_lower f
  /\ Forecast.yhat_lower f <= Forecast.yhat f
  /\ is_integer (Forecast.yhat f) /\ is_integer (Forecast.yhat_lower f)
  /\ is_integer (Forecast.yhat_upper f) /\ is_integer (Forecast.trend f)
  /\ is_integer (Forecast.yearly_seasonality f)
  /\ is_integer (Forecast.weekly_seasonality f).
Proof.
  apply (simulate_fields RefHost.utc history_falling 1
           [Forecast.mk "2024-01-03" 0 0 (-44) (-50) 1 0]).
  - vm_compute. reflexivity.
  - left. reflexivity.
Defined.

Lemma BoundedHost_sin_range (x : Q) : - (1) <= BoundedHost.sin x <= 1.
Proof.
  unfold BoundedHost.sin. split.
  - apply Q.le_max_l.
  - apply Q.max_lub; [discriminate | apply Q.le_min_l].
Qed.

Lemma weeklySeasonality_range (H : Host) (t : Z) :
  0 <= weeklySeasonality H t <= 15.
Proof.
  unfold weeklySeasonality; cbv zeta.
  destruct ((getDay H t =? 0) || (getDay H t =? 6))%bool; split; discriminate.
Qed.

(** X6: on a gentle host whose sine is never below -1, a history that
    does not fall from its first to its last record and ends at 5 or
    more gets a forecast whose band holds in full,
    [yhat_lower <= yhat <= yhat_upper], at every horizon. *)
Theorem simulate_band_rising (H : Host) (historicalData : list Sales.t)
        (first last : Sales.t) (tl : Z) (forecastPeriods : Z) :
  gentle H ->
  (forall x, - (1) <= Math_sin H x) ->
  Array_get historicalData 0 = Some first ->
  Array_get historicalData (Array_length historicalData - 1) = Some last ->
  Date_parse (Sales.ds last) = Some tl ->
  (tl + (forecastPeriods + 1) * (msPerDay + 2 * msPerHour) <= maxTime)%Z ->
  Sales.y first <= Sales.y last -> 5 <= Sales.y last ->
  exists sim,
    simulateProphetForecast H historicalData forecastPeriods = Ok sim
    /\ forall f, In f sim ->
         Forecast.yhat_lower f <= Forecast.yhat f /\ Forecast.yhat f <= Forecast.yhat_upper f.
Proof.
  intros Hg Hsin H0 Hl Hp Hmax Hrise Hend.
  destruct (simulate_walk H _ _ _ _ Hg Hl Hp Hmax) as [dates [Hsim [_ Hall]]].
  eexists. split; [exact Hsim |].
  intros f Hin. apply in_map_iff in Hin. destruct Hin as [t [<- Ht]].
  specialize (Hall t Ht). pose proof (gentle_step H tl Hg) as Hstep.
  destruct (forecast_at_band H historicalData last (Some tl) t) as [Hlo Hup].
  split; [exact Hlo |]. apply Hup.
  unfold raw_forecast, yearlySeasonality.
  rewrite (slope_of_many _ _ _ H0 Hl).
  pose proof (weeklySeasonality_range H t) as Hw.
  pose proof (Hsin (dayOfYear H t * (2 * Math_PI H / 365))) as Hs.
  assert (Hk : 0 <= Date_sub (Some t) (Some tl) / inject_Z (1000 * 60 * 60 * 24)).
  { cbn [Date_sub]. apply Qle_shift_div_l; [reflexivity |]. rewrite Qmult_0_l.
    change 0 with (inject_Z 0). rewrite <- Zle_Qle. unfold msPerDay, msPerHour in *. lia. }
  assert (Hslope : 0 <= (if (1 <? Array_length historicalData)%Z
                         then (Sales.y last - Sales.y first)
                              / inject_Z (Array_length historicalData)
                         else 0)).
  { destruct (Z.ltb_spec 1 (Array_length historicalData)); [| apply Qle_refl].
    apply Qle_shift_div_l.
    - change 0 with (inject_Z 0). rewrite <- Zlt_Qlt. lia.
    - lra. }
  pose proof (Qmult_le_0_compat _ _ Hk Hslope) as Hprod.
  lra.
Qed.

Lemma simulate_band_rising_witness :
  exists sim,
    simulateProphetForecast
      BoundedHost.new_york [Sales.mk "2024-03-09" 100; Sales.mk "2024-03-10" 110] 90 = Ok sim
    /\ forall f, In f sim ->
         Forecast.yhat_lower f <= Forecast.yhat f /\ Forecast.yhat f <= Forecast.yhat_upper f.
Proof.
  apply (simulate_band_rising BoundedHost.new_york
           [Sales.mk "2024-03-09" 100; Sales.mk "2024-03-10" 110]
           (Sales.mk "2024-03-09" 100) (Sales.mk "2024-03-10" 110) 1710028800000 90).
  - apply eastern_gentle. reflexivity.
  - intros x. apply BoundedHost_sin_range.
  - reflexivity.
  - reflexivity.
  - reflexivity.
  - vm_compute. discriminate.
  - vm_compute. discriminate.
  - vm_compute. discriminate.
Defined.

(** Rounding the three components apart loses at most one unit. *)
Lemma forecast_components_sum (H : Host) (historicalData : list Sales.t) (forecastPeriods : Z)
        (sim : list Forecast.t) (f : Forecast.t) :
  simulateProphetForecast H historicalData forecastPeriods = Ok sim -> In f sim ->
  0 < Forecast.yhat f ->
  Forecast.yhat f - 1
  <= Forecast.trend f + Forecast.yearly_seasonality f + Forecast.weekly_seasonality f
  <= Forecast.yhat f + 1.
Proof.
  intros Hs Hin.
  destruct (simulate_Ok_In H _ _ _ _ Hs Hin) as [ld [date Hf]].
  destruct (forecast_of_Ok H _ _ _ _ Hf) as [t [a [_ [_ ->]]]].
  cbn [Forecast.yhat Forecast.trend Forecast.yearly_seasonality Forecast.weekly_seasonality].
  set (b := yearlySeasonality H t). set (c := weeklySeasonality H t).
  intros Hpos.
  assert (Hy : Math_max 0 (Math_round (a + b + c)) == Math_round (a + b + c)).
  { unfold Math_max in *. apply Q.max_r.
    destruct (Qlt_le_dec (Math_round (a + b + c)) 0) as [Hneg | Hok]; [| assumption].
    rewrite Q.max_l in Hpos by (apply Qlt_le_weak; assumption).
    exfalso. apply (Qlt_irrefl 0). assumption. }
  rewrite Hy.
  destruct (Math_round_bounds a) as [La Ua], (Math_round_bounds b) as [Lb Ub],
    (Math_round_bounds c) as [Lc Uc], (Math_round_bounds (a + b + c)) as [Lr Ur].
  unfold Math_round in *.
  set (za := Qfloor (a + (1 # 2))) in *. set (zb := Qfloor (b + (1 # 2))) in *.
  set (zc := Qfloor (c + (1 # 2))) in *. set (zr := Qfloor (a + b + c + (1 # 2))) in *.
  clearbody za zb zc zr. clear Hin Hf.
  assert (Hlo : (zr - 2 < za + zb + zc)%Z).
  { rewrite Zlt_Qlt. unfold Z.sub. rewrite !inject_Z_plus.
    change (inject_Z (- (2))%Z) with (- (2)). lra. }
  assert (Hhi : (za + zb + zc < zr + 2)%Z).
  { rewrite Zlt_Qlt. rewrite !inject_Z_plus. change (inject_Z 2%Z) with 2. lra. }
  assert (E1 : inject_Z zr - 1 == inject_Z (zr - 1)).
  { unfold Z.sub. rewrite inject_Z_plus. reflexivity. }
  assert (E2 : inject_Z zr + 1 == inject_Z (zr + 1)).
  { rewrite inject_Z_plus. reflexivity. }
  assert (E3 : inject_Z za + inject_Z zb + inject_Z zc == inject_Z (za + zb + zc)).
  { rewrite !inject_Z_plus. reflexivity. }
  rewrite E1, E2, E3. rewrite <- !Zle_Qle. lia.
Qed.

(** X7: in every record the simulator returns with a positive [yhat],
    the three plotted components add up to [yhat] within one unit. *)
Theorem components_add_up (H : Host) (historicalData : list Sales.t) (forecastPeriods : Z)
        (sim : list Forecast.t) (f : Forecast.t) :
  simulateProphetForecast H historicalData forecastPeriods = Ok sim -> In f sim ->
  0 < Forecast.yhat f ->
  Forecast.yhat f - 1
  <= Forecast.trend f + Forecast.yearly_seasonality f + Forecast.weekly_seasonality f
  <= Forecast.yhat f + 1.
Proof. apply forecast_components_sum. Qed.

Lemma components_add_up_witness :
  let f := Forecast.mk "2024-01-02" 100 95 105 100 0 0 in
  Forecast.yhat f - 1
  <= Forecast.trend f + Forecast.yearly_seasonality f + Forecast.weekly_seasonality f
  <= Forecast.yhat f + 1.
Proof.
  apply (components_add_up RefHost.utc history_one_day 1
           [Forecast.mk "2024-01-02" 100 95 105 100 0 0]).
  - vm_compute. reflexivity.
  - left. reflexivity.
  - reflexivity.
Defined.

(** ** More on the planner *)
Section PlannerResults.

Local Open Scope Q_scope.

(** The fields of a returned forecast record that the planner relies on. *)
Lemma simulate_yhat (H : Host) (historicalData : list Sales.t) (forecastPeriods : Z)
      (sim : list Forecast.t) (f : Forecast.t) :
  simulateProphetForecast H historicalData forecastPeriods = Ok sim -> In f sim ->
  0 <= Forecast.yhat f /\ is_integer (Forecast.yhat f).
Proof.
  intros Hs Hin.
  destruct (simulate_Ok_In H _ _ _ _ Hs Hin) as [ld [date Hf]].
  destruct (forecast_of_Ok H _ _ _ _ Hf) as [t [tr [_ [_ ->]]]].
  cbn [Forecast.yhat]. split; [apply Q.le_max_l | apply clamp_integer].
Qed.

Lemma round_covers_integer (y factor : Q) :
  is_integer y -> 0 <= y -> 0 <= factor -> y <= Math_round (y + y * factor).
Proof.
  intros [z ->] Hy Hf. rewrite <- (Math_round_inject_Z z) at 1.
  apply Math_round_le. pose proof (Qmult_le_0_compat _ _ Hy Hf). lra.
Qed.

End PlannerResults.

Local Open Scope Q_scope.

(** X8: with a safety factor of 0 the planner recommends exactly the
    prediction, for every forecast whose predictions are integers. *)
Theorem plan_zero_factor (forecasts : list Forecast.t) :
  (forall f, In f forecasts -> is_integer (Forecast.yhat f)) ->
  calculateInventoryRecommendations forecasts 0
  = Ok (map (fun f => Inventory.mk (Forecast.ds f) (Forecast.yhat f) (Forecast.yhat f))
            forecasts).
Proof.
  intros Hint. rewrite calculateInventoryRecommendations_Ok. f_equal.
  apply map_ext_in. intros f Hf. f_equal.
  destruct (Hint f Hf) as [z Hz]. rewrite Hz.
  rewrite (Math_round_comp _ (inject_Z z)) by ring.
  apply Math_round_inject_Z.
Qed.

Lemma plan_zero_factor_witness :
  calculateInventoryRecommendations
    [Forecast.mk "2024-01-02" 100 95 105 100 0 0; Forecast.mk "2024-01-03" 0 0 (-44) (-50) 1 0] 0
  = Ok [Inventory.mk "2024-01-02" 100 100; Inventory.mk "2024-01-03" 0 0].
Proof.
  apply (plan_zero_factor
           [Forecast.mk "2024-01-02" 100 95 105 100 0 0;
            Forecast.mk "2024-01-03" 0 0 (-44) (-50) 1 0]).
  intros f [<- | [<- | []]]; [exists 100%Z | exists 0%Z]; reflexivity.
Defined.

(** X9: planning on a forecast the simulator returned, with a safety
    factor that is not negative, yields one recommendation per forecast
    record, in order, with the record's [ds] and [yhat] and a recommended
    stock that is never below the prediction. *)
Theorem plan_covers_forecast (H : Host) (historicalData : list Sales.t)
        (forecastPeriods : Z) (sim : list Forecast.t) (safetyFactor : Q) :
  simulateProphetForecast H historicalData forecastPeriods = Ok sim ->
  0 <= safetyFactor ->
  exists recs,
    calculateInventoryRecommendations sim safetyFactor = Ok recs
    /\ Forall2 (fun f r =>
                  Inventory.ds r = Forecast.ds f
                  /\ Inventory.yhat r = Forecast.yhat f
                  /\ Forecast.yhat f <= Inventory.recommended_inventory r)
               sim recs.
Proof.
  intros Hs Hf. rewrite calculateInventoryRecommendations_Ok.
  eexists. split; [reflexivity |].
  assert (Hall : forall f, In f sim -> 0 <= Forecast.yhat f /\ is_integer (Forecast.yhat f))
    by (intros f Hin; apply (simulate_yhat H _ _ _ _ Hs Hin)).
  clear Hs. induction sim as [| f fs IH]; cbn [map]; constructor.
  - cbn [Inventory.ds Inventory.yhat Inventory.recommended_inventory].
    destruct (Hall f (or_introl eq_refl)) as [Hnn Hint].
    split; [reflexivity |]. split; [reflexivity |].
    apply round_covers_integer; assumption.
  - apply IH. intros f' Hin. apply Hall. right; assumption.
Qed.

Lemma plan_covers_forecast_witness :
  exists recs,
    calculateInventoryRecommendations [Forecast.mk "2024-01-02" 100 95 105 100 0 0] (1 # 3)
    = Ok recs
    /\ Forall2 (fun f r =>
                  Inventory.ds r = Forecast.ds f
                  /\ Inventory.yhat r = Forecast.yhat f
                  /\ Forecast.yhat f <= Inventory.recommended_inventory r)
               [Forecast.mk "2024-01-02" 100 95 105 100 0 0] recs.
Proof.
  apply (plan_covers_forecast RefHost.utc history_one_day 1
           [Forecast.mk "2024-01-02" 100 95 105 100 0 0] (1 # 3)).
  - vm_compute. reflexivity.
  - discriminate.
Defined.

(** ** More on the evaluator *)
Section EvaluatorResults.

Variable H : Host.

Local Open Scope Q_scope.

(** The indexed [reduce] over [actualValues], reading [predictedValues[i]],
    walks the joined pairs in step. *)
Lemma reduce_aligned (g : Q -> Q -> Q) (m2 : list Merged.t) :
  forall (m1 : list Merged.t) (acc : Q),
    reduce_from (length m1)
      (fun sum val i =>
         sum + g val (ToNumber (nth i (map Merged.predicted (m1 ++ m2)) None)))
      (map Merged.actual m2) acc
    = fold_left (fun sum m => sum + g (Merged.actual m) (ToNumber (Merged.predicted m)))
        m2 acc.
Proof.
  induction m2 as [| m m2 IH]; intros m1 acc; [reflexivity |].
  cbn [map reduce_from fold_left].
  replace (nth (length m1) (map Merged.predicted (m1 ++ m :: m2)) None)
    with (Merged.predicted m).
  - specialize (IH (m1 ++ [m]) (acc + g (Merged.actual m) (ToNumber (Merged.predicted m)))).
    rewrite length_app, Nat.add_1_r, <- app_assoc in IH. exact IH.
  - rewrite map_app, app_nth2 by (rewrite length_map; apply Nat.le_refl).
    rewrite length_map, Nat.sub_diag. reflexivity.
Qed.

(** [evaluateModel], with its sums written over the joined pairs. *)
Lemma evaluateModel_sums (actuals : list Sales.t) (predictions : list Forecast.t) :
  mergedData actuals predictions <> [] ->
  evaluateModel H actuals predictions
  = Ok (Metrics.mk
          (fold_left (fun sum m =>
                        sum + Math_abs (Merged.actual m - ToNumber (Merged.predicted m)))
             (mergedData actuals predictions) 0
           / inject_Z (Array_length (mergedData actuals predictions)))
          (Math_sqrt H
             (fold_left (fun sum m =>
                           sum + Math_pow (Merged.actual m - ToNumber (Merged.predicted m)) 2)
                (mergedData actuals predictions) 0
              / inject_Z (Array_length (mergedData actuals predictions))))).
Proof.
  intros Hne. unfold evaluateModel. cbv zeta.
  destruct (Z.eqb_spec (Array_length (mergedData actuals predictions)) 0) as [E | _].
  - exfalso. apply Hne. unfold Array_length in E.
    destruct (mergedData actuals predictions); [reflexivity | discriminate].
  - unfold Array_reduce, Array_length. rewrite !length_map.
    pose proof (reduce_aligned (fun a p => Math_abs (a - p))
                  (mergedData actuals predictions) [] 0) as E1.
    pose proof (reduce_aligned (fun a p => Math_pow (a - p) 2)
                  (mergedData actuals predictions) [] 0) as E2.
    cbn [length app] in E1, E2. rewrite E1, E2. reflexivity.
Qed.

Lemma fold_left_sum_ge (g : Merged.t -> Q) (ms : list Merged.t) :
  (forall m, 0 <= g m) -> forall acc, acc <= fold_left (fun sum m => sum + g m) ms acc.
Proof.
  intros Hg. induction ms as [| m ms IH]; intros acc; cbn [fold_left]; [apply Qle_refl |].
  apply Qle_trans with (acc + g m); [| apply IH]. specialize (Hg m). lra.
Qed.

Lemma fold_left_sum_const (g : Merged.t -> Q) (e : Q) (ms : list Merged.t) :
  (forall m, In m ms -> g m == e) ->
  forall acc, fold_left (fun sum m => sum + g m) ms acc
              == acc + inject_Z (Z.of_nat (length ms)) * e.
Proof.
  induction ms as [| m ms IH]; intros Hg acc.
  - cbn. ring.
  - cbn [fold_left]. rewrite IH by (intros; apply Hg; right; assumption).
    rewrite (Hg m (or_introl eq_refl)).
    change (length (m :: ms)) with (S (length ms)).
    rewrite Nat2Z.inj_succ. unfold Z.succ. rewrite inject_Z_plus. ring.
Qed.

(** Every joined pair comes from an actual record and the first
    prediction with its key. *)
Lemma mergedData_In (actuals : list Sales.t) (predictions : list Forecast.t) (m : Merged.t) :
  In m (mergedData actuals predictions) ->
  exists a p, In a actuals
              /\ find (fun p => String.eqb (Forecast.ds p) (Sales.ds a)) predictions = Some p
              /\ m = Merged.mk (Sales.y a) (Some (Forecast.yhat p)).
Proof.
  unfold mergedData. intros Hin. apply filter_In in Hin. destruct Hin as [Hin Hsome].
  apply in_map_iff in Hin. destruct Hin as [a [<- Ha]].
  destruct (find (fun p => String.eqb (Forecast.ds p) (Sales.ds a)) predictions) as [p |] eqn:Ef;
    [| discriminate].
  exists a, p. auto.
Qed.

Lemma mergedData_app (a1 a2 : list Sales.t) (predictions : list Forecast.t) :
  mergedData (a1 ++ a2) predictions = mergedData a1 predictions ++ mergedData a2 predictions.
Proof. unfold mergedData. rewrite map_app, filter_app. reflexivity. Qed.

Lemma find_app_first {A : Type} (f : A -> bool) (l1 l2 : list A) :
  find f (l1 ++ l2) = match find f l1 with Some x => Some x | None => find f l2 end.
Proof.
  induction l1 as [| x l1 IH]; [reflexivity |]. cbn [app find].
  destruct (f x); [reflexivity | exact IH].
Qed.

Lemma evaluateModel_same_join (a1 a2 : list Sales.t) (p1 p2 : list Forecast.t) :
  mergedData a1 p1 = mergedData a2 p2 -> evaluateModel H a1 p1 = evaluateModel H a2 p2.
Proof. intros E. unfold evaluateModel. rewrite E. reflexivity. Qed.

End EvaluatorResults.

Local Open Scope Q_scope.

(** X10: the evaluator always returns, and its mean absolute error is
    never negative. *)
Theorem evaluate_mae_nonneg (H : Host) (actuals : list Sales.t) (predictions : list Forecast.t) :
  exists metrics,
    evaluateModel H actuals predictions = Ok metrics /\ 0 <= Metrics.mae metrics.
Proof.
  destruct (mergedData actuals predictions) as [| m ms] eqn:Em.
  - exists (Metrics.mk 0 0). split; [| apply Qle_refl].
    unfold evaluateModel. rewrite Em. reflexivity.
  - eexists. split; [apply evaluateModel_sums; rewrite Em; discriminate |].
    cbn [Metrics.mae]. rewrite Em. apply Qle_shift_div_l.
    + unfold Array_length. change 0 with (inject_Z 0). rewrite <- Zlt_Qlt. cbn [length]. lia.
    + rewrite Qmult_0_l. apply fold_left_sum_ge. intros m'. apply Qabs_nonneg.
Qed.



(** X12: actual records whose date has no prediction do not count: the
    evaluator returns the same metrics with or without them, wherever
    they stand in the series. *)
Theorem evaluate_ignores_unmatched (H : Host) (before unmatched after : list Sales.t)
        (predictions : list Forecast.t) :
  (forall a p, In a unmatched -> In p predictions -> Forecast.ds p <> Sales.ds a) ->
  evaluateModel H (before ++ unmatched ++ after) predictions
  = evaluateModel H (before ++ after) predictions.
Proof.
  intros Hno. apply evaluateModel_same_join.
  rewrite !mergedData_app, (mergedData_no_overlap unmatched) by assumption.
  reflexivity.
Qed.

Lemma evaluate_ignores_unmatched_witness :
  evaluateModel RefHost.utc
    ([Sales.mk "2024-01-01" 100] ++ [Sales.mk "2023-12-25" 400] ++ [Sales.mk "2024-01-02" 110])
    [Forecast.mk "2024-01-01" 90 85 95 90 0 0; Forecast.mk "2024-01-02" 90 85 95 90 0 0]
  = evaluateModel RefHost.utc
      ([Sales.mk "2024-01-01" 100] ++ [Sales.mk "2024-01-02" 110])
      [Forecast.mk "2024-01-01" 90 85 95 90 0 0; Forecast.mk "2024-01-02" 90 85 95 90 0 0].
Proof.
  apply (evaluate_ignores_unmatched RefHost.utc [Sales.mk "2024-01-01" 100]
           [Sales.mk "2023-12-25" 400] [Sales.mk "2024-01-02" 110]).
  intros a p [<- | []] [<- | [<- | []]]; discriminate.
Defined.

(** X13: for each date only the first prediction counts: predictions
    appended for dates that already have one change nothing. *)
Theorem evaluate_first_prediction_wins (H : Host) (actuals : list Sales.t)
        (predictions later : list Forecast.t) :
  (forall d, In d later -> exists p, In p predictions /\ Forecast.ds p = Forecast.ds d) ->
  evaluateModel H actuals (predictions ++ later) = evaluateModel H actuals predictions.
Proof.
  intros Hdup. apply evaluateModel_same_join. unfold mergedData. f_equal.
  apply map_ext. intros a. f_equal.
  rewrite find_app_first.
  destruct (find (fun p => String.eqb (Forecast.ds p) (Sales.ds a)) predictions)
    as [p |] eqn:Ef; [reflexivity |].
  destruct (find (fun p => String.eqb (Forecast.ds p) (Sales.ds a)) later)
    as [d |] eqn:El; [| reflexivity].
  apply find_some in El. destruct El as [Hd Heq]. apply String.eqb_eq in Heq.
  destruct (Hdup d Hd) as [p [Hp Hds]].
  pose proof (find_none _ _ Ef p Hp) as Hno. cbv beta in Hno.
  apply String.eqb_neq in Hno. congruence.
Qed.

Lemma evaluate_first_prediction_wins_witness :
  evaluateModel RefHost.utc history_two_days
    ([Forecast.mk "2024-01-01" 90 85 95 90 0 0] ++ [Forecast.mk "2024-01-01" 500 495 505 500 0 0])
  = evaluateModel RefHost.utc history_two_days [Forecast.mk "2024-01-01" 90 85 95 90 0 0].
Proof.
  apply (evaluate_first_prediction_wins RefHost.utc history_two_days
           [Forecast.mk "2024-01-01" 90 85 95 90 0 0]
           [Forecast.mk "2024-01-01" 500 495 505 500 0 0]).
  intros d [<- | []]. exists (Forecast.mk "2024-01-01" 90 85 95 90 0 0).
  split; [left; reflexivity | reflexivity].
Defined.

(** ** Date keys, both ways *)
Section KeyRoundTrip.

Local Open Scope Z_scope.

Lemma digit_char_digit_of (c : ascii) (k : Z) : digit_of c = Some k -> digit_char k = c.
Proof.
  unfold digit_of, digit_char; cbv zeta.
  destruct (Z.leb_spec 48 (Z.of_nat (nat_of_ascii c)));
    destruct (Z.leb_spec (Z.of_nat (nat_of_ascii c)) 57); cbn [andb]; try discriminate.
  intros E. assert (Hk : k = Z.of_nat (nat_of_ascii c) - 48) by congruence. subst k.
  replace (Z.to_nat (48 + (Z.of_nat (nat_of_ascii c) - 48))) with (nat_of_ascii c) by lia.
  apply ascii_nat_embedding.
Qed.

Lemma MonthFromDay_MonthStart (m leap d : Z) :
  0 <= m <= 11 -> 0 <= leap <= 1 -> 1 <= d <= DaysInMonth m leap ->
  MonthFromDay (MonthStart m leap + d - 1) leap = m.
Proof.
  intros Hm Hl.
  assert (Hcases : m = 0 \/ m = 1 \/ m = 2 \/ m = 3 \/ m = 4 \/ m = 5 \/ m = 6 \/ m = 7
                   \/ m = 8 \/ m = 9 \/ m = 10 \/ m = 11) by lia.
  destruct Hcases as [-> | [-> | [-> | [-> | [-> | [-> | [-> | [-> | [-> | [-> | [-> | ->]]]]]]]]]]];
    cbv [MonthStart DaysInMonth Z.eqb Pos.eqb orb]; intros Hd; unfold MonthFromDay;
    repeat match goal with
           | |- context [if ?a <? ?b then _ else _] => destruct (Z.ltb_spec a b); try lia
           end.
Qed.

(** A string that [new Date] accepts is a printed key, and the time it
    yields is the midnight of the day it names. *)
Lemma Date_parse_inv (s : string) (t : Z) :
  Date_parse s = Some t ->
  exists y m d,
    s = key_chars y m d /\ 0 <= y <= 9999 /\ 1 <= m <= 12
    /\ 1 <= d <= DaysInMonth (m - 1) (leap_of y)
    /\ t = (DayFromYear y + (MonthStart (m - 1) (leap_of y) + d - 1)) * msPerDay.
Proof.
  unfold Date_parse.
  assert (Es : s = string_of_list_ascii (list_ascii_of_string s))
    by (symmetry; apply string_of_list_ascii_of_string).
  revert Es.
  destruct (list_ascii_of_string s)
    as [| y1 [| y2 [| y3 [| y4 [| h1 [| m1 [| m2 [| h2 [| d1 [| d2 [| ? ?]]]]]]]]]]];
    intros Es; try discriminate.
  unfold number_of; cbn [fold_left].
  destruct (digit_of y1) as [k1 |] eqn:E1; [| discriminate].
  destruct (digit_of y2) as [k2 |] eqn:E2; [| discriminate].
  destruct (digit_of y3) as [k3 |] eqn:E3; [| discriminate].
  destruct (digit_of y4) as [k4 |] eqn:E4; [| discriminate].
  destruct (digit_of m1) as [j1 |] eqn:F1; [| discriminate].
  destruct (digit_of m2) as [j2 |] eqn:F2; [| discriminate].
  destruct (digit_of d1) as [i1 |] eqn:G1; [| discriminate].
  destruct (digit_of d2) as [i2 |] eqn:G2; [| discriminate].
  set (y := 10 * (10 * (10 * (10 * 0 + k1) + k2) + k3) + k4).
  set (m := 10 * (10 * 0 + j1) + j2). set (d := 10 * (10 * 0 + i1) + i2).
  fold (leap_of y).
  destruct (Ascii.eqb_spec h1 "-"); cbn [andb]; [subst h1 | discriminate].
  destruct (Ascii.eqb_spec h2 "-"); cbn [andb]; [subst h2 | discriminate].
  destruct (Z.leb_spec 1 m); cbn [andb]; [| discriminate].
  destruct (Z.leb_spec m 12); cbn [andb]; [| discriminate].
  destruct (Z.leb_spec 1 d); cbn [andb]; [| discriminate].
  destruct (Z.leb_spec d (DaysInMonth (m - 1) (leap_of y))); [| discriminate].
  intros Hc. apply TimeClip_Some in Hc. destruct Hc as [-> _].
  pose proof (digit_of_range _ _ E1). pose proof (digit_of_range _ _ E2).
  pose proof (digit_of_range _ _ E3). pose proof (digit_of_range _ _ E4).
  pose proof (digit_of_range _ _ F1). pose proof (digit_of_range _ _ F2).
  pose proof (digit_of_range _ _ G1). pose proof (digit_of_range _ _ G2).
  exists y, m, d.
  split; [| split; [unfold y; lia | split; [lia | split; [split; assumption |]]]].
  - rewrite Es. unfold key_chars. cbn [string_of_list_ascii].
    replace (y / 1000 mod 10) with k1 by (unfold y; Z.div_mod_to_equations; lia).
    replace (y / 100 mod 10) with k2 by (unfold y; Z.div_mod_to_equations; lia).
    replace (y / 10 mod 10) with k3 by (unfold y; Z.div_mod_to_equations; lia).
    replace (y mod 10) with k4 by (unfold y; Z.div_mod_to_equations; lia).
    replace (m / 10 mod 10) with j1 by (unfold m; Z.div_mod_to_equations; lia).
    replace (m mod 10) with j2 by (unfold m; Z.div_mod_to_equations; lia).
    replace (d / 10 mod 10) with i1 by (unfold d; Z.div_mod_to_equations; lia).
    replace (d mod 10) with i2 by (unfold d; Z.div_mod_to_equations; lia).
    rewrite (digit_char_digit_of _ _ E1), (digit_char_digit_of _ _ E2),
      (digit_char_digit_of _ _ E3), (digit_char_digit_of _ _ E4),
      (digit_char_digit_of _ _ F1), (digit_char_digit_of _ _ F2),
      (digit_char_digit_of _ _ G1), (digit_char_digit_of _ _ G2).
    reflexivity.
  - unfold MakeDate, MakeTime, MakeDay; cbv zeta.
    rewrite (Z.div_small (m - 1) 12), (Z.mod_small (m - 1) 12) by lia.
    rewrite !Z.add_0_r. fold (leap_of y). unfold msPerDay. lia.
Qed.

Lemma isoDate_Date_parse (s : string) (t : Z) : Date_parse s = Some t -> isoDate t = s.
Proof.
  intros Hp. destruct (Date_parse_Some _ _ Hp) as [Rt _].
  destruct (Date_parse_inv _ _ Hp) as [y [m [d [-> [Hy [Hm [Hd ->]]]]]]].
  assert (Hl : 0 <= leap_of y <= 1) by (destruct (leap_of_cases y) as [[-> _] | [-> _]]; lia).
  pose proof (MonthStart_DaysInMonth (m - 1) (leap_of y) d ltac:(lia) Hl Hd) as Hoff.
  set (off := MonthStart (m - 1) (leap_of y) + d - 1) in *.
  set (t := (DayFromYear y + off) * msPerDay) in *.
  assert (Hday : Day t = DayFromYear y + off).
  { unfold Day, t. apply Z.div_mul. unfold msPerDay. lia. }
  assert (Hyear : YearFromTime t = y).
  { unfold YearFromTime. rewrite Hday. apply YearFromDay_unique.
    rewrite DayFromYear_succ. destruct (leap_of_cases y) as [[El Ed] | [El Ed]]; lia. }
  assert (Hdiy : DayWithinYear t = off).
  { unfold DayWithinYear. rewrite Hday, Hyear. lia. }
  assert (Hleap : InLeapYear t = leap_of y).
  { rewrite InLeapYear_leap_of, Hyear. reflexivity. }
  assert (Hmonth : MonthFromTime t = m - 1).
  { unfold MonthFromTime. rewrite Hdiy, Hleap. unfold off.
    apply MonthFromDay_MonthStart; lia. }
  rewrite isoDate_chars by (rewrite Hyear; lia).
  rewrite Hyear, Hmonth. unfold DateFromTime. rewrite Hdiy, Hmonth, Hleap.
  f_equal; unfold off; lia.
Qed.

End KeyRoundTrip.

(** X15: a printed key reads back as the start of its day: for every
    instant [t] of the years 0..9999, [new Date] of the key printed for
    [t] is the midnight UTC at or before [t], less than a day away. *)
Theorem key_print_then_read (t : Z) :
  in_key_range t ->
  exists t0, Date_parse (isoDate t) = Some t0
             /\ (t0 <= t < t0 + msPerDay)%Z /\ (t0 mod msPerDay = 0)%Z.
Proof.
  intros Rt. exists (Day t * msPerDay)%Z. split; [| split].
  - apply Date_parse_isoDate; [apply in_key_range_year | apply in_key_range_valid]; assumption.
  - pose proof (Day_TimeWithinDay t) as E.
    pose proof (Z.mod_pos_bound t msPerDay ltac:(unfold msPerDay; lia)) as B.
    unfold TimeWithinDay in E. lia.
  - apply Z.mod_mul. unfold msPerDay. lia.
Qed.

Lemma key_print_then_read_witness :
  exists t0, Date_parse (isoDate 1709164812345) = Some t0
             /\ (t0 <= 1709164812345 < t0 + msPerDay)%Z /\ (t0 mod msPerDay = 0)%Z.
Proof.
  apply (key_print_then_read 1709164812345).
  split; [discriminate | reflexivity].
Defined.

(** ** More on the series generator *)
Section GeneratorResults.

Variable H : Host.

Local Open Scope Q_scope.

Lemma noise_from_entropy (n : nat) : forall s, snd (noise_from H n s) = entropy_after H n s.
Proof.
  unfold entropy_after. induction n as [| n IH]; intros s; [reflexivity |].
  cbn [noise_from]. destruct (Math_random H s) as [u s1] eqn:Er.
  specialize (IH s1). destruct (noise_from H n s1) as [rest s2]. cbn [snd] in *.
  rewrite IH, Nat.iter_succ_r, Er. reflexivity.
Qed.

Lemma noise_from_range (n : nat) :
  (forall s, 0 <= fst (Math_random H s) <= 1) ->
  forall s x, In x (fst (noise_from H n s)) -> - (5) <= x <= 5.
Proof.
  intros Hr. induction n as [| n IH]; intros s x; [intros [] |].
  cbn [noise_from]. pose proof (Hr s) as Hu.
  destruct (Math_random H s) as [u s1]. specialize (IH s1).
  destruct (noise_from H n s1) as [rest s2]. cbn [fst] in *.
  intros [<- | Hin]; [lra | apply IH; assumption].
Qed.

Lemma nth_within (l : list Q) (lo hi : Q) (i : nat) :
  (forall x, In x l -> lo <= x <= hi) -> lo <= 0 <= hi -> lo <= nth i l 0 <= hi.
Proof.
  intros Hall Hd. destruct (nth_in_or_default i l 0) as [Hin | ->]; [apply Hall |]; assumption.
Qed.

Lemma clamped_nth_integer (f : nat -> Q) (l : list nat) (i : nat) :
  is_integer (nth i (map (fun k => Math_max 0 (Math_round (f k))) l) 0).
Proof.
  destruct (nth_in_or_default i (map (fun k => Math_max 0 (Math_round (f k))) l) 0)
    as [Hin | ->]; [| exists 0%Z; reflexivity].
  apply in_map_iff in Hin. destruct Hin as [k [<- _]]. apply clamp_integer.
Qed.

(** With a sine in [[-1, 1]] and draws in [[0, 1]], the value before
    rounding stays between 85 and 180. *)
Lemma dailySales_range (dates : list Z) (noise : list Q) (i : nat) :
  (forall x, - (1) <= Math_sin H x <= 1) ->
  (forall x, In x noise -> - (5) <= x <= 5) ->
  85 <= dailySales H dates noise i <= 180.
Proof.
  intros Hsin Hnoise. unfold dailySales.
  assert (Ht : 0 <= nth i (map (fun k => inject_Z (Z.of_nat k)
                                          / inject_Z (Z.of_nat (length dates)) * 50)
                               (seq 0 (length dates))) 0 <= 50).
  { apply nth_within; [| split; discriminate].
    intros x Hx. apply in_map_iff in Hx. destruct Hx as [k [<- Hk]].
    apply in_seq in Hk.
    assert (Hn : 0 < inject_Z (Z.of_nat (length dates))).
    { change 0 with (inject_Z 0). rewrite <- Zlt_Qlt. lia. }
    assert (Hk0 : 0 <= inject_Z (Z.of_nat k)).
    { change 0 with (inject_Z 0). rewrite <- Zle_Qle. lia. }
    assert (Hkn : inject_Z (Z.of_nat k) <= inject_Z (Z.of_nat (length dates))).
    { rewrite <- Zle_Qle. lia. }
    assert (Hq0 : 0 <= inject_Z (Z.of_nat k) / inject_Z (Z.of_nat (length dates))).
    { apply Qle_shift_div_l; [assumption | lra]. }
    assert (Hq1 : inject_Z (Z.of_nat k) / inject_Z (Z.of_nat (length dates)) <= 1).
    { apply Qle_shift_div_r; [assumption | lra]. }
    lra. }
  assert (Hy : - (10) <= nth i (map (yearlySeasonality H) dates) 0 <= 10).
  { apply nth_within; [| split; discriminate].
    intros x Hx. apply in_map_iff in Hx. destruct Hx as [t [<- _]].
    unfold yearlySeasonality.
    pose proof (Hsin (dayOfYear H t * (2 * Math_PI H / 365))). lra. }
  assert (Hw : 0 <= nth i (map (weeklySeasonality H) dates) 0 <= 15).
  { apply nth_within; [| split; discriminate].
    intros x Hx. apply in_map_iff in Hx. destruct Hx as [t [<- _]].
    apply weeklySeasonality_range. }
  assert (Hz : - (5) <= nth i noise 0 <= 5).
  { apply nth_within; [assumption | split; discriminate]. }
  lra.
Qed.

End GeneratorResults.

Lemma RefHost_random_range (s : Z) : 0 <= fst (RefHost.random s) <= 1.
Proof.
  unfold RefHost.random. cbv zeta. cbn [fst]. rewrite Qred_correct.
  pose proof (Z.mod_pos_bound (1103515245 * s + 12345) 2147483648 ltac:(lia)) as B.
  set (r := ((1103515245 * s + 12345) mod 2147483648)%Z) in *.
  split.
  - apply Qle_shift_div_l; [reflexivity |]. rewrite Qmult_0_l.
    change 0 with (inject_Z 0). rewrite <- Zle_Qle. lia.
  - apply Qle_shift_div_r; [reflexivity |]. rewrite Qmult_1_l.
    change 2147483648 with (inject_Z 2147483648). rewrite <- Zle_Qle. lia.
Qed.




(** X26: when both arguments are dates, the start is not after the end
    and the host's offset does not change between them, the generator
    returns [daysBetween(start, end) + 1] records; the record at
    position [i] is keyed by the day [i] days after the start, so keys
    are ascending and consecutive records are exactly one day apart; and
    no sale is negative. *)
Theorem generate_consecutive_days (H : Host) (c : Z) (startDateStr endDateStr : string)
        (ts te : Z) (s : Entropy H) :
  Date_parse startDateStr = Some ts -> Date_parse endDateStr = Some te -> (ts <= te)%Z ->
  steady H c ts te ->
  exists (recs : list Sales.t) (s' : Entropy H),
    generateSyntheticSalesData H startDateStr endDateStr s = (Ok recs, s')
    /\ Z.of_nat (length recs) = ((te - ts) / msPerDay + 1)%Z
    /\ (forall i r, nth_error recs i = Some r ->
          Date_parse (Sales.ds r) = Some (ts + Z.of_nat i * msPerDay)%Z
          /\ 0 <= Sales.y r)
    /\ (forall i a b ta, nth_error recs i = Some a -> nth_error recs (S i) = Some b ->
          Date_parse (Sales.ds a) = Some ta ->
          Date_parse (Sales.ds b) = Some (ta + msPerDay)%Z).
Proof.
  intros Hs He Hle Hst.
  destruct (generate_series H c _ _ _ _ s Hs He Hle Hst) as [recs [s' [Hg [Hlen Hrec]]]].
  exists recs, s'. split; [exact Hg |]. split; [exact Hlen |]. split; [exact Hrec |].
  intros i a b ta Ha Hb Hta.
  destruct (Hrec _ _ Ha) as [Hpa _], (Hrec _ _ Hb) as [Hpb _].
  rewrite Hpb. rewrite Hpa in Hta. injection Hta as <-. f_equal. lia.
Qed.

Lemma generate_consecutive_days_witness :
  exists recs s',
    generateSyntheticSalesData RefHost.new_york "2024-02-27" "2024-03-01" 42%Z = (Ok recs, s')
    /\ Z.of_nat (length recs) = ((1709251200000 - 1708992000000) / msPerDay + 1)%Z
    /\ (forall i r, nth_error recs i = Some r ->
          Date_parse (Sales.ds r) = Some (1708992000000 + Z.of_nat i * msPerDay)%Z
          /\ 0 <= Sales.y r)
    /\ (forall i a b ta, nth_error recs i = Some a -> nth_error recs (S i) = Some b ->
          Date_parse (Sales.ds a) = Some ta ->
          Date_parse (Sales.ds b) = Some (ta + msPerDay)%Z).
Proof.
  apply (generate_consecutive_days RefHost.new_york (-18000000) "2024-02-27" "2024-03-01"
           1708992000000 1709251200000 42%Z); [reflexivity | reflexivity | lia |].
  apply eastern_standard_before; [reflexivity | discriminate | reflexivity].
Defined.

(** X27: on a gentle host, with or without daylight saving, when both
    arguments are dates and the start is not after the end, the series
    begins with the start date, its keys never go back, and every key
    is a date of the range, from the start date to the end date. *)
Theorem generate_within_range (H : Host) (startDateStr endDateStr : string)
        (ts te : Z) (s : Entropy H) :
  gentle H ->
  Date_parse startDateStr = Some ts -> Date_parse endDateStr = Some te -> (ts <= te)%Z ->
  exists recs s' first,
    generateSyntheticSalesData H startDateStr endDateStr s = (Ok recs, s')
    /\ nth_error recs 0 = Some first /\ Sales.ds first = startDateStr
    /\ (forall r, In r recs ->
          exists t, Date_parse (Sales.ds r) = Some t /\ (ts <= t <= te)%Z)
    /\ (forall i a b, nth_error recs i = Some a -> nth_error recs (S i) = Some b ->
          exists ta tb, Date_parse (Sales.ds a) = Some ta
                        /\ Date_parse (Sales.ds b) = Some tb /\ (ta <= tb)%Z).
Proof.
  intros Hg Hs He Hle.
  destruct (Date_parse_Some _ _ Hs) as [Rs Ms], (Date_parse_Some _ _ He) as [Re Me].
  pose proof (generate_unfold H startDateStr endDateStr s) as Hgen. cbv zeta in Hgen.
  rewrite Hs, He in Hgen.
  destruct (while_dates_walk H (steps_to_go (Some ts) (Some te)) ts te Hg)
    as [dates [d [Hw [Hh [_ [Hall [Hup Hd]]]]]]];
    [apply in_key_range_valid; assumption | apply in_key_range_valid; assumption
     | assumption | apply Nat.le_refl |].
  rewrite Hw in Hgen.
  match type of Hgen with
  | _ = (Ok (mapi_pure 0 ?g dates), ?s') =>
      set (make := g) in *; set (recs := mapi_pure 0 make dates) in *; set (s1 := s') in *
  end.
  assert (Hkey : forall x, In x dates ->
            Date_parse (isoDate x) = Some (Day x * msPerDay)%Z).
  { intros x Hx. specialize (Hall x Hx).
    assert (Rx : in_key_range x) by (apply (in_key_range_between ts te); (assumption || lia)).
    apply Date_parse_isoDate; [apply in_key_range_year | apply in_key_range_valid]; assumption. }
  exists recs, s1, (make ts 0%nat). split; [exact Hgen |].
  split; [apply (mapi_pure_at make dates 0 0 ts Hh) |].
  split; [unfold make; cbn [Sales.ds]; apply (isoDate_Date_parse _ _ Hs) |]. split.
  - intros r Hr. apply In_nth_error in Hr. destruct Hr as [i Hi].
    apply mapi_pure_nth in Hi. destruct Hi as [x [Hx ->]]. apply nth_error_In in Hx.
    exists (Day x * msPerDay)%Z. unfold make. cbn [Sales.ds]. split; [apply Hkey; exact Hx |].
    specialize (Hall x Hx). unfold Day, msPerDay in *. Z.div_mod_to_equations. lia.
  - intros i a b Ha Hb.
    apply mapi_pure_nth in Ha, Hb. destruct Ha as [xa [Hxa ->]], Hb as [xb [Hxb ->]].
    pose proof (Hup _ _ _ Hxa Hxb) as Hlt.
    exists (Day xa * msPerDay)%Z, (Day xb * msPerDay)%Z. unfold make. cbn [Sales.ds].
    split; [apply Hkey; apply (nth_error_In _ _ Hxa) |].
    split; [apply Hkey; apply (nth_error_In _ _ Hxb) |].
    unfold Day, msPerDay. Z.div_mod_to_equations. lia.
Qed.

Lemma generate_within_range_witness :
  exists recs s' first,
    generateSyntheticSalesData RefHost.new_york "2024-03-08" "2024-03-12" 42%Z = (Ok recs, s')
    /\ nth_error recs 0 = Some first /\ Sales.ds first = "2024-03-08"%string
    /\ (forall r, In r recs ->
          exists t, Date_parse (Sales.ds r) = Some t
                    /\ (1709856000000 <= t <= 1710201600000)%Z)
    /\ (forall i a b, nth_error recs i = Some a -> nth_error recs (S i) = Some b ->
          exists ta tb, Date_parse (Sales.ds a) = Some ta
                        /\ Date_parse (Sales.ds b) = Some tb /\ (ta <= tb)%Z).
Proof.
  apply (generate_within_range RefHost.new_york "2024-03-08" "2024-03-12"
           1709856000000 1710201600000 42%Z).
  - apply eastern_gentle. reflexivity.
  - reflexivity.
  - reflexivity.
  - lia.
Defined.

(** X18: when both arguments are dates, the start is not after the end
    and the host's offset does not change between them, the series
    begins with the start date and ends with the end date, spelled as
    they were given. *)
Theorem generate_endpoints (H : Host) (c : Z) (startDateStr endDateStr : string)
        (ts te : Z) (s : Entropy H) :
  Date_parse startDateStr = Some ts -> Date_parse endDateStr = Some te -> (ts <= te)%Z ->
  steady H c ts te ->
  exists recs s' first last,
    generateSyntheticSalesData H startDateStr endDateStr s = (Ok recs, s')
    /\ nth_error recs 0 = Some first /\ Sales.ds first = startDateStr
    /\ nth_error recs (length recs - 1) = Some last /\ Sales.ds last = endDateStr.
Proof.
  intros Hs He Hle Hst.
  destruct (generate_series H c _ _ _ _ s Hs He Hle Hst) as [recs [s' [Hg [Hlen Hrec]]]].
  destruct (Date_parse_Some _ _ Hs) as [_ Ms], (Date_parse_Some _ _ He) as [_ Me].
  assert (Hq : (0 <= (te - ts) / msPerDay)%Z) by (apply Z.div_pos; unfold msPerDay; lia).
  destruct (nth_error recs 0) as [first |] eqn:E0;
    [| apply nth_error_None in E0; lia].
  destruct (nth_error recs (length recs - 1)) as [last |] eqn:El;
    [| apply nth_error_None in El; lia].
  exists recs, s', first, last. split; [exact Hg |].
  destruct (Hrec _ _ E0) as [P0 _], (Hrec _ _ El) as [Pl _].
  split; [exact E0 |]. split; [| split; [exact El |]].
  - rewrite <- (isoDate_Date_parse _ _ P0), <- (isoDate_Date_parse _ _ Hs).
    f_equal. lia.
  - rewrite <- (isoDate_Date_parse _ _ Pl), <- (isoDate_Date_parse _ _ He).
    f_equal.
    assert (Hexact : (te - ts = (te - ts) / msPerDay * msPerDay)%Z).
    { pose proof (Z.div_mod (te - ts) msPerDay ltac:(unfold msPerDay; lia)) as D.
      assert (Hm : ((te - ts) mod msPerDay = 0)%Z).
      { rewrite Zminus_mod, Ms, Me. reflexivity. }
      lia. }
    assert (Hlast : Z.of_nat (length recs - 1) = ((te - ts) / msPerDay)%Z) by lia.
    rewrite Hlast. lia.
Qed.

Lemma generate_endpoints_witness :
  exists recs s' first last,
    generateSyntheticSalesData RefHost.new_york "2024-01-30" "2024-02-02" 7%Z = (Ok recs, s')
    /\ nth_error recs 0 = Some first /\ Sales.ds first = "2024-01-30"%string
    /\ nth_error recs (length recs - 1) = Some last /\ Sales.ds last = "2024-02-02"%string.
Proof.
  apply (generate_endpoints RefHost.new_york (-18000000) "2024-01-30" "2024-02-02"
           1706572800000 1706832000000 7%Z); [reflexivity | reflexivity | lia |].
  apply eastern_standard_before; [reflexivity | discriminate | reflexivity].
Defined.

(** ** The pipeline and its charts *)
Section PipelineResults.

Variable H : Host.

Local Open Scope Q_scope.

Lemma generate_entropy (startDateStr endDateStr : string) (s s' : Entropy H)
      (recs : list Sales.t) :
  generateSyntheticSalesData H startDateStr endDateStr s = (Ok recs, s') ->
  s' = entropy_after H (length recs) s.
Proof.
  rewrite generate_unfold. cbv zeta. rewrite noise_from_entropy.
  intros E. injection E as <- <-. rewrite mapi_pure_length. reflexivity.
Qed.

(** The last record of a generated series is keyed by the end date. *)
Lemma generate_last (recs : list Sales.t) (ts te : Z) :
  (ts <= te)%Z -> (ts mod msPerDay = 0)%Z -> (te mod msPerDay = 0)%Z ->
  Z.of_nat (length recs) = ((te - ts) / msPerDay + 1)%Z ->
  (forall i r, nth_error recs i = Some r ->
               Date_parse (Sales.ds r) = Some (ts + Z.of_nat i * msPerDay)%Z /\ 0 <= Sales.y r) ->
  exists last,
    Array_get recs (Array_length recs - 1) = Some last
    /\ Date_parse (Sales.ds last) = Some te
    /\ (ts + Z.of_nat (length recs) * msPerDay = te + msPerDay)%Z.
Proof.
  intros Hle Ms Me Hlen Hrec.
  assert (Hq : (0 <= (te - ts) / msPerDay)%Z) by (apply Z.div_pos; unfold msPerDay; lia).
  assert (Hexact : (te - ts = (te - ts) / msPerDay * msPerDay)%Z).
  { pose proof (Z.div_mod (te - ts) msPerDay ltac:(unfold msPerDay; lia)) as D.
    assert (Hm : ((te - ts) mod msPerDay = 0)%Z) by (rewrite Zminus_mod, Ms, Me; reflexivity).
    lia. }
  destruct (nth_error recs (length recs - 1)) as [last |] eqn:El;
    [| apply nth_error_None in El; lia].
  exists last. split; [| split].
  - unfold Array_length.
    replace (Z.of_nat (length recs) - 1)%Z with (Z.of_nat (length recs - 1)) by lia.
    rewrite Array_get_nth. exact El.
  - destruct (Hrec _ _ El) as [Pl _]. rewrite Pl. f_equal.
    replace (Z.of_nat (length recs - 1)) with ((te - ts) / msPerDay)%Z by lia. lia.
  - rewrite Hlen. lia.
Qed.

End PipelineResults.

Local Open Scope Q_scope.

(** X20: over days on which the host's offset does not change, the main
    chart has no gap and no overlap between history and forecast: for a
    valid range and a horizon that keeps four-digit years,
    [combinedChartData] of the generated series and its forecast has one
    point per day from the start date on, the ['Actual'] points first
    and the ['Forecast'] points after them. *)
Theorem chart_days_continuous (H : Host) (c : Z) (startDateStr endDateStr : string)
        (ts te : Z) (s : Entropy H) (forecastPeriods : Z) :
  Date_parse startDateStr = Some ts -> Date_parse endDateStr = Some te -> (ts <= te)%Z ->
  (0 <= forecastPeriods)%Z ->
  (te + forecastPeriods * msPerDay < TimeFromYear 10000)%Z ->
  steady H c ts (te + forecastPeriods * msPerDay)%Z ->
  exists recs s' sim,
    generateSyntheticSalesData H startDateStr endDateStr s = (Ok recs, s')
    /\ simulateProphetForecast H recs forecastPeriods = Ok sim
    /\ Z.of_nat (length (combinedChartData recs sim))
       = ((te - ts) / msPerDay + 1 + forecastPeriods)%Z
    /\ forall i p, nth_error (combinedChartData recs sim) i = Some p ->
         Date_parse (ChartPoint.ds p) = Some (ts + Z.of_nat i * msPerDay)%Z
         /\ match p with
            | ChartPoint.Actual _ _ => (i < length recs)%nat
            | ChartPoint.Forecast _ _ _ _ => (length recs <= i)%nat
            end.
Proof.
  intros Hs He Hle Hn Hr Hst.
  assert (Hst1 : steady H c ts te)
    by (apply (steady_sub H c _ _ _ _ Hst); unfold msPerDay; lia).
  assert (Hst2 : steady H c te (te + forecastPeriods * msPerDay)%Z)
    by (apply (steady_sub H c _ _ _ _ Hst); lia).
  destruct (generate_series H c _ _ _ _ s Hs He Hle Hst1) as [recs [s' [Hg [Hlen Hrec]]]].
  destruct (Date_parse_Some _ _ Hs) as [_ Ms], (Date_parse_Some _ _ He) as [_ Me].
  destruct (generate_last recs ts te Hle Ms Me Hlen Hrec) as [last [Hl [Pl Hend]]].
  destruct (simulate_keys H c recs last te forecastPeriods Hl Pl Hn Hr Hst2)
    as [sim [Hsim [Hslen Hkeys]]].
  exists recs, s', sim. split; [exact Hg |]. split; [exact Hsim |]. split.
  - unfold combinedChartData. rewrite length_app, !length_map. lia.
  - intros i p Hi. unfold combinedChartData in Hi.
    destruct (Nat.lt_ge_cases i (length recs)) as [Hlt | Hge].
    + rewrite nth_error_app1, nth_error_map in Hi by (rewrite length_map; exact Hlt).
      destruct (nth_error recs i) as [r |] eqn:Er; [| discriminate].
      injection Hi as <-. cbn [ChartPoint.ds]. split; [apply (Hrec _ _ Er) | exact Hlt].
    + rewrite nth_error_app2, nth_error_map, length_map in Hi by (rewrite length_map; exact Hge).
      destruct (nth_error sim (i - length recs)) as [f |] eqn:Ef; [| discriminate].
      injection Hi as <-. cbn [ChartPoint.ds]. split; [| exact Hge].
      rewrite (Hkeys _ _ Ef). f_equal. unfold msPerDay in *. lia.
Qed.

Lemma chart_days_continuous_witness :
  exists recs s' sim,
    generateSyntheticSalesData RefHost.new_york "2024-02-27" "2024-03-01" 42%Z = (Ok recs, s')
    /\ simulateProphetForecast RefHost.new_york recs 3 = Ok sim
    /\ Z.of_nat (length (combinedChartData recs sim))
       = ((1709251200000 - 1708992000000) / msPerDay + 1 + 3)%Z
    /\ forall i p, nth_error (combinedChartData recs sim) i = Some p ->
         Date_parse (ChartPoint.ds p) = Some (1708992000000 + Z.of_nat i * msPerDay)%Z
         /\ match p with
            | ChartPoint.Actual _ _ => (i < length recs)%nat
            | ChartPoint.Forecast _ _ _ _ => (length recs <= i)%nat
            end.
Proof.
  apply (chart_days_continuous RefHost.new_york (-18000000) "2024-02-27" "2024-03-01"
           1708992000000 1709251200000 42%Z 3);
    [reflexivity | reflexivity | lia | lia | vm_compute; reflexivity |].
  apply eastern_standard_before; [reflexivity | discriminate | reflexivity].
Defined.

Lemma plan_aligned (forecasts : list Forecast.t) (safetyFactor : Q) :
  (forall f, In f forecasts -> 0 <= Forecast.yhat f /\ is_integer (Forecast.yhat f)) ->
  0 <= safetyFactor ->
  Forall2 (fun f r =>
             Inventory.ds r = Forecast.ds f
             /\ Inventory.yhat r = Forecast.yhat f
             /\ Forecast.yhat f <= Inventory.recommended_inventory r)
    forecasts
    (map (fun f => Inventory.mk (Forecast.ds f) (Forecast.yhat f)
                     (Math_round (Forecast.yhat f + Forecast.yhat f * safetyFactor)))
         forecasts).
Proof.
  intros Hall Hf. induction forecasts as [| f fs IH]; cbn [map]; constructor.
  - destruct (Hall f (or_introl eq_refl)) as [Hnn Hint].
    cbn [Inventory.ds Inventory.yhat Inventory.recommended_inventory].
    split; [reflexivity |]. split; [reflexivity |].
    apply round_covers_integer; assumption.
  - apply IH. intros f' Hin. apply Hall. right; assumption.
Qed.

(** X21: on a gentle host whose offset does not change from 2022-01-01
    to the end of the forecast, and from every state of its random
    source, the run on mount completes: it draws 1096 random numbers,
    stores 1096 sales records and 90 forecast records keyed by the 90
    days after 2024-12-31, and one recommendation per forecast record,
    with the same [ds] and [yhat] and a stock that is never below the
    prediction. *)
Theorem useEffect_run (H : Host) (c : Z) (s : Entropy H) :
  gentle H ->
  steady H c 1640995200000 (1735603200000 + FORECAST_PERIOD_DAYS * msPerDay)%Z ->
  exists st,
    useEffect H s = (Ok st, entropy_after H 1096 s)
    /\ length (salesData st) = 1096%nat
    /\ length (forecastData st) = 90%nat
    /\ (forall i f, nth_error (forecastData st) i = Some f ->
          Date_parse (Forecast.ds f) = Some (1735603200000 + (Z.of_nat i + 1) * msPerDay)%Z)
    /\ Date_parse END_DATE = Some 1735603200000%Z
    /\ Forall2 (fun f r =>
                  Inventory.ds r = Forecast.ds f
                  /\ Inventory.yhat r = Forecast.yhat f
                  /\ Forecast.yhat f <= Inventory.recommended_inventory r)
               (forecastData st) (inventoryRecommendations st).
Proof.
  intros Hgentle Hst.
  assert (Hs : Date_parse START_DATE = Some 1640995200000%Z) by reflexivity.
  assert (He : Date_parse END_DATE = Some 1735603200000%Z) by reflexivity.
  assert (Hst1 : steady H c 1640995200000 1735603200000)
    by (apply (steady_sub H c _ _ _ _ Hst); unfold FORECAST_PERIOD_DAYS, msPerDay; lia).
  assert (Hst2 : steady H c 1735603200000 (1735603200000 + FORECAST_PERIOD_DAYS * msPerDay)%Z)
    by (apply (steady_sub H c _ _ _ _ Hst); lia).
  destruct (generate_series H c _ _ _ _ s Hs He ltac:(lia) Hst1) as [recs [s' [Hg [Hlen Hrec]]]].
  pose proof (generate_entropy H _ _ _ _ _ Hg) as Hent.
  destruct (generate_last recs 1640995200000 1735603200000
              ltac:(lia) ltac:(reflexivity) ltac:(reflexivity) Hlen Hrec)
    as [last [Hl [Pl _]]].
  change ((1735603200000 - 1640995200000) / msPerDay + 1)%Z with 1096%Z in Hlen.
  assert (Hn : length recs = 1096%nat) by lia. rewrite Hn in Hent. subst s'.
  assert (Hlen' : Array_length recs = 1096%Z) by (unfold Array_length; lia).
  destruct (backtest_no_overlap H recs last _ Hgentle Hl Pl) as [sim [Hsim [_ [_ [_ Hev]]]]].
  { intros r Hr. apply In_nth_error in Hr. destruct Hr as [i Hi].
    assert (i < length recs)%nat by (apply nth_error_Some; congruence).
    destruct (Hrec _ _ Hi) as [Hpi _]. eexists; split; [exact Hpi |].
    unfold msPerDay. lia. }
  { apply (steady_day_step H c _ _ _ Hst2). unfold FORECAST_PERIOD_DAYS, msPerDay. lia. }
  { rewrite Hlen'. reflexivity. }
  destruct (simulate_keys H c recs last _ FORECAST_PERIOD_DAYS Hl Pl)
    as [fut [Hfut [Hflen Hkeys]]]; [discriminate | reflexivity | exact Hst2 |].
  eexists. split; [| split; [| split; [| split; [| split]]]].
  - unfold useEffect. rewrite Hg. cbn [bind]. rewrite Hsim. cbn [bind]. rewrite Hev.
    cbn [bind]. rewrite Hfut. cbn [bind].
    rewrite calculateInventoryRecommendations_Ok. cbn [bind]. reflexivity.
  - exact Hn.
  - cbn [forecastData]. unfold FORECAST_PERIOD_DAYS in Hflen. lia.
  - exact Hkeys.
  - exact He.
  - cbn [forecastData inventoryRecommendations]. apply plan_aligned; [| discriminate].
    intros f Hin. apply (simulate_yhat H _ _ _ _ Hfut Hin).
Qed.

Lemma useEffect_run_witness :
  exists st,
    useEffect RefHost.ist 42%Z = (Ok st, entropy_after RefHost.ist 1096 42%Z)
    /\ length (salesData st) = 1096%nat
    /\ length (forecastData st) = 90%nat
    /\ (forall i f, nth_error (forecastData st) i = Some f ->
          Date_parse (Forecast.ds f) = Some (1735603200000 + (Z.of_nat i + 1) * msPerDay)%Z)
    /\ Date_parse END_DATE = Some 1735603200000%Z
    /\ Forall2 (fun f r =>
                  Inventory.ds r = Forecast.ds f
                  /\ Inventory.yhat r = Forecast.yhat f
                  /\ Forecast.yhat f <= Inventory.recommended_inventory r)
               (forecastData st) (inventoryRecommendations st).
Proof.
  apply (useEffect_run RefHost.ist 19800000 42%Z).
  - apply (fixed_offset_gentle RefHost.ist 19800000). reflexivity.
  - apply (fixed_offset_steady RefHost.ist 19800000). reflexivity.
Defined.

(** ** Local time and the seasonal components *)
Section LocalTimeResults.

Variable H : Host.

Local Open Scope Z_scope.

Lemma Day_shift_east (t c : Z) :
  t mod msPerDay = 0 -> 0 <= c < msPerDay -> Day (t + c) = Day t.
Proof.
  unfold Day, msPerDay. intros Hm Htz. Z.div_mod_to_equations. lia.
Qed.

Lemma Day_shift_west (t c : Z) :
  t mod msPerDay = 0 -> - msPerDay <= c < 0 -> Day (t + c) = Day (t - msPerDay).
Proof.
  unfold Day, msPerDay. intros Hm Htz. Z.div_mod_to_equations. lia.
Qed.

Lemma MakeDay_jan0 (y : Z) : MakeDay y 0 0 = DayFromYear y - 1.
Proof.
  unfold MakeDay; cbv zeta. change (0 / 12) with 0. change (0 mod 12) with 0.
  rewrite !Z.add_0_r. change (MonthStart 0 (if DaysInYear y =? 366 then 1 else 0)) with 0.
  lia.
Qed.

Lemma Math_floor_div (a b : Z) :
  0 < b -> Math_floor (inject_Z a / inject_Z b) = inject_Z (a / b).
Proof.
  intros Hb. unfold Math_floor. f_equal.
  assert (Hbq : (0 < inject_Z b)%Q) by (change 0%Q with (inject_Z 0); rewrite <- Zlt_Qlt; lia).
  pose proof (Z.mul_div_le a b Hb) as Hlo.
  pose proof (Z.mul_succ_div_gt a b Hb) as Hhi.
  assert (H1 : a / b <= Qfloor (inject_Z a / inject_Z b)).
  { rewrite <- (Qfloor_Z (a / b)) at 1. apply Qfloor_resp_le.
    apply Qle_shift_div_l; [assumption |].
    rewrite <- inject_Z_mult, <- Zle_Qle. lia. }
  assert (H2 : Qfloor (inject_Z a / inject_Z b) < a / b + 1).
  { rewrite Zlt_Qlt. apply Qle_lt_trans with (inject_Z a / inject_Z b)%Q; [apply Qfloor_le |].
    apply Qlt_shift_div_r; [assumption |].
    rewrite <- inject_Z_mult, <- Zlt_Qlt. lia. }
  lia.
Qed.

(** Over days on which the offset is [c], the weekend uplift of every
    forecast record follows the weekday that the midnight UTC of its
    key has in local time. *)
Lemma forecast_weekly (c : Z) (historicalData : list Sales.t) (last : Sales.t) (tl : Z)
      (forecastPeriods : Z) :
  Array_get historicalData (Array_length historicalData - 1) = Some last ->
  Date_parse (Sales.ds last) = Some tl ->
  tl + forecastPeriods * msPerDay < TimeFromYear 10000 ->
  steady H c tl (tl + forecastPeriods * msPerDay) ->
  exists sim,
    simulateProphetForecast H historicalData forecastPeriods = Ok sim
    /\ length sim = Z.to_nat forecastPeriods
    /\ forall f, In f sim ->
         exists t, Date_parse (Forecast.ds f) = Some t /\ t mod msPerDay = 0
                   /\ Forecast.weekly_seasonality f
                      = if weekend (WeekDay (t + c)) then 15%Q else 0%Q.
Proof.
  intros Hl Hp Hr Hst.
  assert (Hmax : tl + forecastPeriods * msPerDay <= maxTime).
  { change (TimeFromYear 10000) with 253402300800000 in Hr. unfold maxTime. lia. }
  destruct (Date_parse_Some _ _ Hp) as [Rl Ml].
  eexists. split; [apply (simulate_days H c _ _ _ _ Hl Hp Hst Hmax) |].
  split; [rewrite length_map, day_range_length; reflexivity |].
  intros f Hin. apply in_map_iff in Hin. destruct Hin as [t [<- Ht]].
  apply In_nth_error in Ht. destruct Ht as [i Hi].
  apply day_range_nth in Hi. destruct Hi as [-> Hi].
  set (t := tl + msPerDay + Z.of_nat i * msPerDay).
  assert (Hin : tl <= t <= tl + forecastPeriods * msPerDay) by (unfold t, msPerDay; lia).
  assert (Mt : t mod msPerDay = 0).
  { unfold t. rewrite Z.mod_add by (unfold msPerDay; lia).
    rewrite <- Z.add_mod_idemp_l, Ml by (unfold msPerDay; lia). reflexivity. }
  exists t. split; [| split; [exact Mt |]].
  - cbn [forecast_at Forecast.ds]. apply key_readback; [| exact Mt].
    unfold in_key_range in *. lia.
  - cbn [forecast_at Forecast.weekly_seasonality].
    unfold weeklySeasonality, getDay, weekend; cbv zeta.
    rewrite (steady_LocalTime H c _ _ t Hst Hin).
    destruct ((WeekDay (t + c) =? 0) || (WeekDay (t + c) =? 6))%bool; reflexivity.
Qed.

End LocalTimeResults.

Local Open Scope Q_scope.

(** X22: over days on which the host keeps one offset at or east of UTC
    (under a day), the weekend uplift of every forecast record follows
    the weekday of its own key: [weekly_seasonality] is 15 when the date
    [ds] is a Saturday or a Sunday, and 0 otherwise. *)
Theorem weekly_east_of_utc (H : Host) (c : Z) (historicalData : list Sales.t)
        (last : Sales.t) (tl : Z) (forecastPeriods : Z) :
  Array_get historicalData (Array_length historicalData - 1) = Some last ->
  Date_parse (Sales.ds last) = Some tl ->
  (tl + forecastPeriods * msPerDay < TimeFromYear 10000)%Z ->
  steady H c tl (tl + forecastPeriods * msPerDay)%Z ->
  (0 <= c < msPerDay)%Z ->
  exists sim,
    simulateProphetForecast H historicalData forecastPeriods = Ok sim
    /\ length sim = Z.to_nat forecastPeriods
    /\ forall f, In f sim ->
         exists t, Date_parse (Forecast.ds f) = Some t
                   /\ Forecast.weekly_seasonality f = if weekend (WeekDay t) then 15 else 0.
Proof.
  intros Hl Hp Hr Hst Hc.
  destruct (forecast_weekly H c _ _ _ _ Hl Hp Hr Hst) as [sim [Hsim [Hlen Hall]]].
  exists sim. split; [exact Hsim |]. split; [exact Hlen |].
  intros f Hin. destruct (Hall f Hin) as [t [Ht [Mt Hw]]].
  exists t. split; [exact Ht |]. rewrite Hw. unfold WeekDay.
  rewrite (Day_shift_east t c Mt Hc). reflexivity.
Qed.

Lemma weekly_east_of_utc_witness :
  exists sim,
    simulateProphetForecast RefHost.ist history_two_days 7 = Ok sim
    /\ length sim = Z.to_nat 7
    /\ forall f, In f sim ->
         exists t, Date_parse (Forecast.ds f) = Some t
                   /\ Forecast.weekly_seasonality f = if weekend (WeekDay t) then 15 else 0.
Proof.
  apply (weekly_east_of_utc RefHost.ist 19800000 history_two_days
           (Sales.mk "2024-01-02" 110) 1704153600000 7).
  - reflexivity.
  - reflexivity.
  - vm_compute. reflexivity.
  - apply (fixed_offset_steady RefHost.ist 19800000). reflexivity.
  - split; [discriminate | reflexivity].
Defined.

(** X23: over days on which the host keeps one offset west of UTC (under
    a day), the weekend uplift of every forecast record follows the
    weekday of the day before its key: the keys of Sundays and Mondays
    get the 15, those of Saturdays do not. *)
Theorem weekly_west_of_utc (H : Host) (c : Z) (historicalData : list Sales.t)
        (last : Sales.t) (tl : Z) (forecastPeriods : Z) :
  Array_get historicalData (Array_length historicalData - 1) = Some last ->
  Date_parse (Sales.ds last) = Some tl ->
  (tl + forecastPeriods * msPerDay < TimeFromYear 10000)%Z ->
  steady H c tl (tl + forecastPeriods * msPerDay)%Z ->
  (- msPerDay <= c < 0)%Z ->
  exists sim,
    simulateProphetForecast H historicalData forecastPeriods = Ok sim
    /\ length sim = Z.to_nat forecastPeriods
    /\ forall f, In f sim ->
         exists t, Date_parse (Forecast.ds f) = Some t
                   /\ Forecast.weekly_seasonality f
                      = if weekend (WeekDay (t - msPerDay)) then 15 else 0.
Proof.
  intros Hl Hp Hr Hst Hc.
  destruct (forecast_weekly H c _ _ _ _ Hl Hp Hr Hst) as [sim [Hsim [Hlen Hall]]].
  exists sim. split; [exact Hsim |]. split; [exact Hlen |].
  intros f Hin. destruct (Hall f Hin) as [t [Ht [Mt Hw]]].
  exists t. split; [exact Ht |]. rewrite Hw. unfold WeekDay.
  rewrite (Day_shift_west t c Mt Hc). reflexivity.
Qed.

Lemma weekly_west_of_utc_witness :
  exists sim,
    simulateProphetForecast RefHost.new_york history_two_days 7 = Ok sim
    /\ length sim = Z.to_nat 7
    /\ forall f, In f sim ->
         exists t, Date_parse (Forecast.ds f) = Some t
                   /\ Forecast.weekly_seasonality f
                      = if weekend (WeekDay (t - msPerDay)) then 15 else 0.
Proof.
  apply (weekly_west_of_utc RefHost.new_york (-18000000) history_two_days
           (Sales.mk "2024-01-02" 110) 1704153600000 7).
  - reflexivity.
  - reflexivity.
  - vm_compute. reflexivity.
  - apply eastern_standard_before; [reflexivity | discriminate | reflexivity].
  - split; [discriminate | reflexivity].
Defined.

(** X24: for a date whose local year has four digits and is 100 or
    later, [dayOfYear] is the 1-based ordinal of the local calendar day,
    moved by the whole days in the local time of day plus the
    difference between the offset [c0] at the local midnight that opens
    the 31st of December before and the offset [c] at the date itself.
    When the two offsets are equal it is the ordinal, between 1 and 366;
    at a local midnight under daylight saving, with the year begun on
    standard time, it is one less. *)
Theorem dayOfYear_ordinal (H : Host) (t : Z) :
  let lt := LocalTime H t in
  let c := LocalTZA H t true in
  let c0 := LocalTZA H (TimeFromYear (YearFromTime lt) - msPerDay)%Z false in
  let ordinal := (MonthStart (MonthFromTime lt) (InLeapYear lt) + getDate H t)%Z in
  (100 <= getFullYear H t <= 9999)%Z ->
  (Z.abs c <= msPerDay)%Z -> (Z.abs c0 <= msPerDay)%Z ->
  dayOfYear H t = inject_Z (ordinal + (TimeWithinDay lt + c0 - c) / msPerDay)
  /\ (c0 = c -> dayOfYear H t = inject_Z ordinal /\ 1 <= dayOfYear H t <= 366).
Proof.
  cbv zeta. intros Hy Hc Hc0. unfold getFullYear in Hy.
  set (lt := LocalTime H t) in *. set (y := YearFromTime lt) in *.
  set (c := LocalTZA H t true) in *.
  set (c0 := LocalTZA H (TimeFromYear y - msPerDay)%Z false) in *.
  pose proof (YearFromDay_spec (Day lt)) as Hspec. fold (YearFromTime lt) in Hspec. fold y in Hspec.
  pose proof (Day_TimeWithinDay lt) as Elt.
  pose proof (Z.mod_pos_bound lt msPerDay ltac:(unfold msPerDay; lia)) as Bm.
  fold (TimeWithinDay lt) in Bm.
  destruct Hy as [Hy1 Hy2].
  pose proof (DayFromYear_mono 100 y Hy1) as Hm100.
  pose proof (DayFromYear_mono y 9999 Hy2) as Hm9999.
  change (DayFromYear 100) with (-683003)%Z in Hm100.
  change (DayFromYear 9999) with 2932532%Z in Hm9999.
  pose proof (DayWithinYear_range lt) as Hdiy. fold y in Hdiy.
  assert (Hdy : (DaysInYear y <= 366)%Z) by (destruct (DaysInYear_cases y); lia).
  assert (Hord : (MonthStart (MonthFromTime lt) (InLeapYear lt) + getDate H t
                  = DayWithinYear lt + 1)%Z).
  { unfold getDate, DateFromTime. fold lt. lia. }
  assert (Hval : dayOfYear H t
                 = inject_Z (DayWithinYear lt + 1 + (TimeWithinDay lt + c0 - c) / msPerDay)).
  { unfold dayOfYear, getFullYear, Date_of_fields. fold lt. fold y. cbv zeta.
    destruct (Z.leb_spec 0 y); destruct (Z.leb_spec y 99); cbn [andb]; try lia.
    rewrite MakeDay_jan0. unfold MakeDate, MakeTime, UTC.
    replace ((DayFromYear y - 1) * msPerDay + (0 * 3600000 + 0 * 60000 + 0 * 1000 + 0))%Z
      with (TimeFromYear y - msPerDay)%Z by (unfold TimeFromYear, msPerDay; lia).
    fold c0.
    rewrite TimeClip_in by (unfold TimeFromYear, msPerDay, maxTime in *; lia).
    cbn [Date_sub]. change (1000 * 60 * 60 * 24)%Z with msPerDay.
    rewrite Math_floor_div by (unfold msPerDay; lia). f_equal.
    unfold DayWithinYear. fold y.
    replace (t - (TimeFromYear y - msPerDay - c0))%Z
      with ((TimeWithinDay lt + c0 - c) + (Day lt - DayFromYear y + 1) * msPerDay)%Z
      by (unfold lt, LocalTime, TimeFromYear in *; fold c in Elt; fold c;
          unfold msPerDay in *; lia).
    rewrite Z.div_add by (unfold msPerDay; lia). lia. }
  split.
  - rewrite Hval, Hord. reflexivity.
  - intros Heq. rewrite Hval, Hord, Heq.
    replace (TimeWithinDay lt + c - c)%Z with (TimeWithinDay lt) by lia.
    rewrite Z.div_small by lia. rewrite Z.add_0_r.
    split; [reflexivity |]. split.
    + change 1 with (inject_Z 1). rewrite <- Zle_Qle. lia.
    + change 366 with (inject_Z 366). rewrite <- Zle_Qle. lia.
Qed.

Lemma dayOfYear_ordinal_witness :
  dayOfYear RefHost.new_york 1719806400000 = inject_Z (183 + (-1))
  /\ dayOfYear RefHost.new_york 1705320000000 = inject_Z 15
  /\ 1 <= dayOfYear RefHost.new_york 1705320000000 <= 366.
Proof.
  split.
  - apply (dayOfYear_ordinal RefHost.new_york 1719806400000);
      vm_compute; (discriminate || (split; discriminate)).
  - apply (dayOfYear_ordinal RefHost.new_york 1705320000000);
      vm_compute; (reflexivity || discriminate || (split; discriminate)).
Defined.

(** X25: the components chart follows the forecast chart date by date:
    [componentsChartData] has one point per forecast record, with the
    record's [ds], and wherever the forecast is positive the three
    plotted components add up to it within one unit. *)
Theorem components_chart_tracks_forecast (H : Host) (historicalData : list Sales.t)
        (forecastPeriods : Z) (sim : list Forecast.t) :
  simulateProphetForecast H historicalData forecastPeriods = Ok sim ->
  Forall2 (fun f c =>
             Component.ds c = Forecast.ds f
             /\ (0 < Forecast.yhat f ->
                 Forecast.yhat f - 1
                 <= Component.trend c + Component.yearly_seasonality c
                    + Component.weekly_seasonality c
                 <= Forecast.yhat f + 1))
    sim (componentsChartData sim).
Proof.
  intros Hs.
  assert (Hall : forall f, In f sim -> 0 < Forecast.yhat f ->
            Forecast.yhat f - 1
            <= Forecast.trend f + Forecast.yearly_seasonality f + Forecast.weekly_seasonality f
            <= Forecast.yhat f + 1)
    by (intros f Hin; apply (forecast_components_sum H _ _ _ _ Hs Hin)).
  clear Hs. unfold componentsChartData.
  induction sim as [| f fs IH]; cbn [map]; constructor.
  - cbn [Component.ds Component.trend Component.yearly_seasonality
         Component.weekly_seasonality].
    split; [reflexivity | apply Hall; left; reflexivity].
  - apply IH. intros f' Hin. apply Hall. right; assumption.
Qed.

Lemma components_chart_tracks_forecast_witness :
  Forall2 (fun f c =>
             Component.ds c = Forecast.ds f
             /\ (0 < Forecast.yhat f ->
                 Forecast.yhat f - 1
                 <= Component.trend c + Component.yearly_seasonality c
                    + Component.weekly_seasonality c
                 <= Forecast.yhat f + 1))
    [Forecast.mk "2024-01-02" 100 95 105 100 0 0]
    (componentsChartData [Forecast.mk "2024-01-02" 100 95 105 100 0 0]).
Proof.
  apply (components_chart_tracks_forecast RefHost.utc history_one_day 1
           [Forecast.mk "2024-01-02" 100 95 105 100 0 0]).
  vm_compute. reflexivity.
Defined.
